(** * Clinic appointment assistant: shallow embedding and verified properties

    The development follows the Python sources
    - [clinic/tools.py]  (CSV-backed domain operations),
    - [clinic/state.py]  (the [ConversationState] dataclass),
    - [assistant-tools-main.py]  (the guarded turn orchestrator),
    - [assistant-tools-state-main.py]  (the orchestrator with [update_state]),
    - [tools.py]  (the in-memory clinic of the first demo).

    Python strings are [string]s, Python dictionaries are insertion-ordered
    association lists with unique keys, exceptions are values of [Exn] carried
    by [result].  What the interpreter's libraries compute ([json], [datetime],
    [zoneinfo], the encoding and the field limit of [csv] files) is an
    interface, the class [PyLib]; every general theorem holds for all its
    instances.  The completion endpoint and the wall clock are
    oracles of the orchestrator sections. *)

From Stdlib Require Import String Ascii List ZArith Lia Bool Arith Sorted.
Import ListNotations.
Local Open Scope string_scope.

Set Implicit Arguments.
Set Warnings "-register-all".

(* ================================================================== *)
(** ** Python values and exceptions *)
(* ================================================================== *)

(** The exceptions the modelled code can let escape.  [StoreUnreadable] is
    none of Python's: it is where the model stops once a call has left
    appointments.csv in a state that no later call can read (see
    [save_appointment]). *)
Inductive Exn : Type :=
| JSONDecodeError
| TypeError
| AttributeError
| ValueError
| KeyError (key : string)
| ZoneInfoNotFoundError
| HTTPError
| UnicodeEncodeError
| StoreUnreadable.

(** A computation that returns or raises. *)
Inductive result (A : Type) : Type :=
| Ok (a : A)
| Raise (e : Exn).
Arguments Ok {A} a.
Arguments Raise {A} e.

Definition rbind {A B} (r : result A) (k : A -> result B) : result B :=
  match r with
  | Ok a => k a
  | Raise e => Raise e
  end.

Declare Scope py_scope.
Delimit Scope py_scope with py.
Notation "x <- c ;; k" := (rbind c (fun x => k))
  (at level 61, c at next level, right associativity) : py_scope.

(** What [json.loads] produces, and what the tools hand to [json.dumps].
    The code never computes with a float: one is kept as its text, with the
    one bit Python's truth test reads, whether it equals zero. *)
Inductive JSON : Type :=
| JNull
| JBool (b : bool)
| JInt (z : Z)
| JFloat (is_zero : bool) (lexeme : string)
| JStr (s : string)
| JArr (items : list JSON)
| JObj (fields : list (string * JSON)).

(* ================================================================== *)
(** ** Python built-ins used by the sources *)
(* ================================================================== *)

Module Py.

(** *** Dictionaries: insertion-ordered association lists *)

Section Dict.
Variable V : Type.

Definition dict := list (string * V).

Fixpoint lookup (k : string) (d : dict) : option V :=
  match d with
  | [] => None
  | (k', v) :: d' => if String.eqb k k' then Some v else lookup k d'
  end.

(** [k in d] *)
Definition mem (k : string) (d : dict) : bool :=
  match lookup k d with Some _ => true | None => false end.

(** [d[k] = v]: the value is replaced where the key already sits, a new
    key goes to the end. *)
Fixpoint set (k : string) (v : V) (d : dict) : dict :=
  match d with
  | [] => [(k, v)]
  | (k', v') :: d' =>
      if String.eqb k k' then (k', v) :: d' else (k', v') :: set k v d'
  end.

(** [list(d.keys())] *)
Definition keys (d : dict) : list string := map fst d.

(** [d.get(k, default)] *)
Definition get (k : string) (default : V) (d : dict) : V :=
  match lookup k d with Some v => v | None => default end.
End Dict.

(** *** Strings *)

Definition is_upper (c : ascii) : bool :=
  let n := nat_of_ascii c in (65 <=? n)%nat && (n <=? 90)%nat.

Definition lower_char (c : ascii) : ascii :=
  if is_upper c then ascii_of_nat (nat_of_ascii c + 32) else c.

(** [s.lower()], on the ASCII letters. *)
Fixpoint lower (s : string) : string :=
  match s with
  | EmptyString => EmptyString
  | String c s' => String (lower_char c) (lower s')
  end.

(** [c.isspace()] for a character below 128: tab, newline, vertical tab,
    form feed, carriage return, the four separators 0x1c-0x1f and space. *)
Definition isspace (c : ascii) : bool :=
  let n := nat_of_ascii c in
  ((9 <=? n)%nat && (n <=? 13)%nat)
  || ((28 <=? n)%nat && (n <=? 31)%nat)
  || (n =? 32)%nat.

Fixpoint lstrip (s : string) : string :=
  match s with
  | EmptyString => EmptyString
  | String c s' => if isspace c then lstrip s' else s
  end.

(** Drops the trailing whitespace: a character is kept when something
    after it is kept or it is not whitespace itself. *)
Fixpoint rstrip (s : string) : string :=
  match s with
  | EmptyString => EmptyString
  | String c s' =>
      match rstrip s' with
      | EmptyString => if isspace c then EmptyString else String c EmptyString
      | r => String c r
      end
  end.

(** [s.strip()] *)
Definition strip (s : string) : string := rstrip (lstrip s).

(** [s.split(sep)] for a one-character separator: every occurrence cuts,
    empty pieces are kept, and the empty string gives one empty piece. *)
Fixpoint split_on (sep : ascii) (s : string) : list string :=
  match s with
  | EmptyString => [EmptyString]
  | String c s' =>
      if Ascii.eqb c sep then EmptyString :: split_on sep s'
      else match split_on sep s' with
           | [] => [String c EmptyString]
           | w :: ws => String c w :: ws
           end
  end.

(** [s.split()]: cut at runs of whitespace, no empty piece.  [cur] is the
    word being read, reversed. *)
Fixpoint split_ws_aux (cur : list ascii) (s : string) : list string :=
  let flush (rest : list string) :=
    match cur with
    | [] => rest
    | _ => string_of_list_ascii (rev cur) :: rest
    end in
  match s with
  | EmptyString => flush []
  | String c s' =>
      if isspace c then flush (split_ws_aux [] s')
      else split_ws_aux (c :: cur) s'
  end.

Definition split_ws (s : string) : list string := split_ws_aux [] s.

(** [x in xs] for a list of strings. *)
Definition mem_str (x : string) (xs : list string) : bool :=
  existsb (String.eqb x) xs.

(** *** Text files *)

Definition CR : ascii := "013"%char.
Definition LF : ascii := "010"%char.

(** What reading yields for written text when the file is opened in the
    default newline mode, [newline=None]: a carriage return followed by a
    line feed becomes one line feed, any other carriage return a line
    feed. *)
Fixpoint universal_newlines (s : string) : string :=
  match s with
  | EmptyString => EmptyString
  | String c s' =>
      if Ascii.eqb c CR
      then String LF
             match s' with
             | String c' s'' =>
                 if Ascii.eqb c' LF then universal_newlines s''
                 else universal_newlines s'
             | EmptyString => EmptyString
             end
      else String c (universal_newlines s')
  end.

(** *** Integers as decimal text: [str(n)], [f"{n}"] *)

Definition digit_char (d : Z) : ascii :=
  ascii_of_nat (48 + Z.to_nat d).

Fixpoint dec_digits (fuel : nat) (n : Z) (acc : string) : string :=
  match fuel with
  | O => acc
  | S fuel' =>
      let acc' := String (digit_char (n mod 10)) acc in
      if (n <? 10)%Z then acc' else dec_digits fuel' (n / 10) acc'
  end.

(** The number of decimal digits of [n] never exceeds its binary size. *)
Definition dec_nonneg (n : Z) : string :=
  dec_digits (S (Z.to_nat (Z.log2 n))) n EmptyString.

Definition dec (n : Z) : string :=
  if (n <? 0)%Z then String "-"%char (dec_nonneg (- n)) else dec_nonneg n.

(** [f"{n:0wd}"] for a non-negative [n]: zero padded to [w] digits. *)
Fixpoint zeros (k : nat) : string :=
  match k with O => EmptyString | S k' => String "0"%char (zeros k') end.

Definition dec_pad (w : nat) (n : Z) : string :=
  let s := dec_nonneg n in
  zeros (w - String.length s) ++ s.

(** [int(x)] for a time in microseconds read as seconds: towards zero. *)
Definition int_seconds (micros : Z) : Z := Z.quot micros 1000000.

(** *** Truthiness *)

Definition truthy (v : JSON) : bool :=
  match v with
  | JNull => false
  | JBool b => b
  | JInt z => negb (z =? 0)%Z
  | JFloat z _ => negb z
  | JStr s => negb (String.eqb s "")
  | JArr l => match l with [] => false | _ => true end
  | JObj l => match l with [] => false | _ => true end
  end.

End Py.


(* ================================================================== *)
(** ** Calendar arithmetic behind [isoformat] and [strftime] *)
(* ================================================================== *)

Module Calendar.
Local Open Scope Z_scope.

Definition is_leap (y : Z) : bool :=
  ((y mod 4 =? 0) && negb (y mod 100 =? 0)) || (y mod 400 =? 0).

Definition days_in_month (y m : Z) : Z :=
  if m =? 2 then (if is_leap y then 29 else 28)
  else if (m =? 4) || (m =? 6) || (m =? 9) || (m =? 11) then 30
  else 31.

Definition days_before_year (y : Z) : Z :=
  let p := y - 1 in p * 365 + p / 4 - p / 100 + p / 400.

Fixpoint days_before_month_aux (y : Z) (k : nat) : Z :=
  match k with
  | O => 0
  | S k' => days_before_month_aux y k' + days_in_month y (Z.of_nat k)
  end.

(** Days of year [y] before the first of month [m]. *)
Definition days_before_month (y m : Z) : Z :=
  days_before_month_aux y (Z.to_nat (m - 1)).

(** [date(y, m, d).toordinal()]: 1 for 0001-01-01. *)
Definition ymd2ord (y m d : Z) : Z :=
  days_before_year y + days_before_month y m + d.

(** [date.weekday()]: Monday is 0. *)
Definition weekday_of_ord (ord : Z) : nat := Z.to_nat ((ord + 6) mod 7).

(** The ordinal of 1970-01-01. *)
Definition epoch_ord : Z := 719163.

(** The civil date of a day counted from 1970-01-01. *)
Definition civil_from_days (days : Z) : Z * Z * Z :=
  let z := days + 719468 in
  let era := z / 146097 in
  let doe := z - era * 146097 in
  let yoe := (doe - doe / 1460 + doe / 36524 - doe / 146096) / 365 in
  let doy := doe - (365 * yoe + yoe / 4 - yoe / 100) in
  let mp := (5 * doy + 2) / 153 in
  let d := doy - (153 * mp + 2) / 5 + 1 in
  let m := if mp <? 10 then mp + 3 else mp - 9 in
  let y := yoe + era * 400 + (if m <=? 2 then 1 else 0) in
  (y, m, d).

(** [d.isoformat()] of the local day holding local second [secs]. *)
Definition date_isoformat (secs : Z) : string :=
  let '(y, m, d) := civil_from_days (secs / 86400) in
  (Py.dec_pad 4 y ++ "-" ++ Py.dec_pad 2 m ++ "-" ++ Py.dec_pad 2 d)%string.

Definition time_isoformat (secs : Z) : string :=
  let s := secs mod 86400 in
  (Py.dec_pad 2 (s / 3600)%Z ++ ":" ++ Py.dec_pad 2 (s mod 3600 / 60)%Z ++ ":"
   ++ Py.dec_pad 2 (s mod 60)%Z)%string.

(** The UTC offset as [isoformat] prints it: [+HH:MM], and the seconds
    when there are some. *)
Definition offset_isoformat (off : Z) : string :=
  let a := Z.abs off in
  ((if (off <? 0)%Z then "-" else "+") ++ Py.dec_pad 2 (a / 3600)%Z ++ ":"
   ++ Py.dec_pad 2 (a mod 3600 / 60)%Z
   ++ (if (a mod 60 =? 0)%Z then "" else ":" ++ Py.dec_pad 2 (a mod 60)%Z))%string.

(** [datetime.isoformat(timespec="seconds")] of the instant [micros]
    (microseconds since the epoch) in a zone [off] seconds east of UTC. *)
Definition isoformat_seconds (micros off : Z) : string :=
  let local := micros / 1000000 + off in
  (date_isoformat local ++ "T" ++ time_isoformat local
   ++ offset_isoformat off)%string.

Definition day_names : list string :=
  ["Monday"; "Tuesday"; "Wednesday"; "Thursday"; "Friday"; "Saturday";
   "Sunday"]%string.

(** [now.strftime("%A")] *)
Definition weekday_name (micros off : Z) : string :=
  let local := micros / 1000000 + off in
  nth (weekday_of_ord (local / 86400 + epoch_ord)) day_names ""%string.

End Calendar.

(* ================================================================== *)
(** ** The interpreter's libraries, as an interface *)
(* ================================================================== *)

(** A time zone: its offset from UTC, in seconds, at an instant given in
    microseconds since the epoch. *)
Definition Zone : Type := Z -> Z.

Class PyLib : Type := {
  (** [json.loads(s)]; [None] when it raises [JSONDecodeError]. *)
  json_loads : string -> option JSON;
  (** [json.dumps(v)] *)
  json_dumps : JSON -> string;
  (** [datetime.fromisoformat(s).date().weekday()], Monday 0; [None] when
      [fromisoformat] raises [ValueError]. *)
  iso_weekday : string -> option nat;
  (** [ZoneInfo(key)] for a string: the zone, or [ZoneInfoNotFoundError]
      or [ValueError]. *)
  zoneinfo : string -> result Zone;
  (** The module constant [IST = ZoneInfo("Asia/Kolkata")]. *)
  IST : Zone;
  (** [str(v)] of a value that is neither a string nor [None], as the
      [csv] writer calls it. *)
  py_str : JSON -> string;
  (** Whether a cell can be encoded for a file opened without an
      [encoding]: [false] when writing it raises [UnicodeEncodeError], as
      for a lone surrogate. *)
  csv_writable : string -> bool;
  (** Whether [csv.DictReader] accepts a cell of the file: [false] when
      reading it raises [_csv.Error], as for a cell longer than
      [csv.field_size_limit()]. *)
  csv_readable : string -> bool
}.

(* ================================================================== *)
(** ** clinic/tools.py *)
(* ================================================================== *)

(** A row of doctors.csv. *)
Record Doctor : Type := {
  doc_doctor_name : string;
  doc_specialty : string
}.

(** A row of schedules.csv, as [csv.DictReader] yields it. *)
Record ScheduleRow : Type := {
  row_doctor_name : string;
  row_working_days : string;
  row_slots : string
}.

(** A value of the dictionary [load_schedules] builds. *)
Record Rule : Type := {
  working_days : list nat;
  slots : list string
}.

(** A row of appointments.csv: the seven columns [book_appointment]
    writes, every one a text. *)
Record Appointment : Type := {
  apt_appointment_id : string;
  apt_doctor_name : string;
  apt_date_iso : string;
  apt_time_24h : string;
  apt_patient_name : string;
  apt_patient_phone : string;
  apt_created_at : string
}.

(** The cells of a row, in the order of the columns. *)
Definition row_cells (a : Appointment) : list string :=
  [apt_appointment_id a; apt_doctor_name a; apt_date_iso a; apt_time_24h a;
   apt_patient_name a; apt_patient_phone a; apt_created_at a].

(** A row of the file as [csv.DictReader] yields it.  The writer's file is
    opened with [newline=""], the reader's is not: what was written as a
    carriage return, alone or before a line feed, comes back as a line
    feed. *)
Definition read_back (a : Appointment) : Appointment :=
  {| apt_appointment_id := Py.universal_newlines (apt_appointment_id a);
     apt_doctor_name := Py.universal_newlines (apt_doctor_name a);
     apt_date_iso := Py.universal_newlines (apt_date_iso a);
     apt_time_24h := Py.universal_newlines (apt_time_24h a);
     apt_patient_name := Py.universal_newlines (apt_patient_name a);
     apt_patient_phone := Py.universal_newlines (apt_patient_phone a);
     apt_created_at := Py.universal_newlines (apt_created_at a) |}.

(** The three files, and how many times the wall clock has been read.
    The doctors and the schedule are held as their rows are read.
    appointments.csv need not exist ([None]); when it exists it begins
    with the header row, as every file [save_appointment] creates does,
    [Some rows] holds its data rows as they were written, and the reader
    accepts every cell of it. *)
Record World : Type := {
  doctors_csv : list Doctor;
  schedules_csv : list ScheduleRow;
  appointments_file : option (list Appointment);
  clock_reads : nat
}.

(** The data rows of appointments.csv as they are read, none when the
    file is missing. *)
Definition appointments_csv (w : World) : list Appointment :=
  match appointments_file w with
  | Some rows => map read_back rows
  | None => []
  end.

Definition WEEKDAY_MAP : Py.dict nat :=
  [("Mon", 0); ("Tue", 1); ("Wed", 2); ("Thu", 3);
   ("Fri", 4); ("Sat", 5); ("Sun", 6)]%nat.

Definition load_doctors (w : World) : list Doctor := doctors_csv w.

(** [[WEEKDAY_MAP[d] for d in ...]]: the first unknown name raises. *)
Fixpoint weekday_numbers (names : list string) : result (list nat) :=
  match names with
  | [] => Ok []
  | d :: ds =>
      match Py.lookup d WEEKDAY_MAP with
      | None => Raise (KeyError d)
      | Some n => (ns <- weekday_numbers ds ;; Ok (n :: ns))%py
      end
  end.

Fixpoint load_schedules_rows (rows : list ScheduleRow)
    (schedules : Py.dict Rule) : result (Py.dict Rule) :=
  match rows with
  | [] => Ok schedules
  | row :: rows' =>
      (days <- weekday_numbers (Py.split_ws (row_working_days row)) ;;
       load_schedules_rows rows'
         (Py.set (row_doctor_name row)
            {| working_days := days;
               slots := Py.split_on "|" (row_slots row) |}
            schedules))%py
  end.

Definition load_schedules (w : World) : result (Py.dict Rule) :=
  load_schedules_rows (schedules_csv w) [].

(** [[]] when the file does not exist, else its rows as the reader
    yields them. *)
Definition load_appointments (w : World) : list Appointment :=
  match appointments_file w with
  | None => []
  | Some rows => map read_back rows
  end.

(** What the [csv] writer puts in a cell. *)
Definition csv_cell `{PyLib} (v : JSON) : string :=
  match v with
  | JStr s => s
  | JNull => ""
  | _ => py_str v
  end.

(** [save_appointment(record)]; [None] when it returns, [Some e] when it
    does not.  Opening the file for appending creates it, and the header is
    written when it did not exist.  The row is encoded as a whole: when a
    cell cannot be, [UnicodeEncodeError] escapes and the file is left with
    the rows it had.  A row that is written but holds a cell the reader
    refuses leaves a file that every later [load_appointments] raises
    [_csv.Error] on; the call itself returns, and the model stops there with
    [StoreUnreadable]. *)
Definition save_appointment `{PyLib} (record : Appointment) (w : World)
    : option Exn * World :=
  (* [exists]: the rows already there; none in a file just created, where
     the header is written first *)
  let rows :=
    match appointments_file w with
    | Some rows => rows
    | None => []
    end in
  let file (rows : list Appointment) :=
    {| doctors_csv := doctors_csv w;
       schedules_csv := schedules_csv w;
       appointments_file := Some rows;
       clock_reads := clock_reads w |} in
  if negb (forallb csv_writable (row_cells record))
  then (Some UnicodeEncodeError, file rows)
  else if negb (forallb csv_readable (row_cells (read_back record)))
  then (Some StoreUnreadable, file rows)
  else (None, file (rows ++ [record])%list).

(** One reading of the wall clock. *)
Definition tick (w : World) : World :=
  {| doctors_csv := doctors_csv w;
     schedules_csv := schedules_csv w;
     appointments_file := appointments_file w;
     clock_reads := S (clock_reads w) |}.

(** Insertion into a list sorted by [String.leb], the order of [sorted]. *)
Fixpoint insert_sorted (x : string) (l : list string) : list string :=
  match l with
  | [] => [x]
  | y :: l' =>
      if String.eqb x y then l
      else if String.leb x y then x :: l else y :: insert_sorted x l'
  end.

(** [sorted({d["specialty"] for d in doctors})] *)
Definition list_specialties (w : World) : list string :=
  fold_right insert_sorted [] (map doc_specialty (load_doctors w)).

Definition find_doctors (w : World) (specialty : string) : list Doctor :=
  let s := Py.lower specialty in
  filter (fun d => String.eqb (Py.lower (doc_specialty d)) s) (load_doctors w).

Section Tools.
Context `{PyLib}.

(** [now n] is what the [n]-th reading of the wall clock returns, in
    microseconds since the epoch. *)
Variable now : nat -> Z.

(** The set comprehension [booked]; only membership in it is used. *)
Definition booked_times (appointments : list Appointment)
    (doctor_name date_iso : string) : list string :=
  map apt_time_24h
    (filter (fun a => String.eqb (apt_doctor_name a) doctor_name
                      && String.eqb (apt_date_iso a) date_iso)
            appointments).

Definition get_availability (w : World) (doctor_name date_iso : string)
    : result (list string) :=
  (schedules <- load_schedules w ;;
   let appointments := load_appointments w in
   match Py.lookup doctor_name schedules with
   | None => Ok []
   | Some rule =>
       match iso_weekday date_iso with
       | None => Raise ValueError
       | Some weekday =>
           if negb (existsb (Nat.eqb weekday) (working_days rule))
           then Ok []
           else
             let booked := booked_times appointments doctor_name date_iso in
             Ok (filter (fun s => negb (Py.mem_str s booked)) (slots rule))
       end
   end)%py.

Definition slot_not_available : JSON :=
  JObj [("status", JStr "failed"); ("reason", JStr "slot_not_available")].

(** The dictionary [record], keys in the order of the literal. *)
Definition record_json (a : Appointment) (name phone : JSON) : JSON :=
  JObj [("appointment_id", JStr (apt_appointment_id a));
        ("doctor_name", JStr (apt_doctor_name a));
        ("date_iso", JStr (apt_date_iso a));
        ("time_24h", JStr (apt_time_24h a));
        ("patient_name", name);
        ("patient_phone", phone);
        ("created_at", JStr (apt_created_at a))].

Definition confirmed (record : JSON) : JSON :=
  JObj [("status", JStr "confirmed"); ("appointment", record)].

(** The clock is read twice, once for the identifier and once for
    [created_at]; between the two, [patient["name"]] and
    [patient["phone"]] may raise. *)
Definition book_appointment (w : World)
    (doctor_name date_iso time_24h : string) (patient : Py.dict JSON)
    : result JSON * World :=
  match get_availability w doctor_name date_iso with
  | Raise e => (Raise e, w)
  | Ok available =>
      if negb (Py.mem_str time_24h available)
      then (Ok slot_not_available, w)
      else
        let appt_id :=
          "APT-" ++ Py.dec (Py.int_seconds (now (clock_reads w))) in
        let w1 := tick w in
        match Py.lookup "name" patient with
        | None => (Raise (KeyError "name"), w1)
        | Some name =>
            match Py.lookup "phone" patient with
            | None => (Raise (KeyError "phone"), w1)
            | Some phone =>
                let t := now (clock_reads w1) in
                let w2 := tick w1 in
                let a :=
                  {| apt_appointment_id := appt_id;
                     apt_doctor_name := doctor_name;
                     apt_date_iso := date_iso;
                     apt_time_24h := time_24h;
                     apt_patient_name := csv_cell name;
                     apt_patient_phone := csv_cell phone;
                     apt_created_at :=
                       Calendar.isoformat_seconds t (IST t) |} in
                match save_appointment a w2 with
                | (Some e, w3) => (Raise e, w3)
                | (None, w3) =>
                    (Ok (confirmed (record_json a name phone)), w3)
                end
            end
        end
  end.

Definition get_current_datetime (w : World) (timezone : string)
    : result JSON * World :=
  match zoneinfo timezone with
  | Raise e => (Raise e, w)
  | Ok tz =>
      let t := now (clock_reads w) in
      (Ok (JObj [("timezone", JStr timezone);
                 ("iso_datetime",
                  JStr (Calendar.isoformat_seconds t (tz t)));
                 ("date_iso",
                  JStr (Calendar.date_isoformat (t / 1000000 + tz t)));
                 ("weekday", JStr (Calendar.weekday_name t (tz t)))]),
       tick w)
  end.

End Tools.

(* ================================================================== *)
(** ** clinic/state.py *)
(* ================================================================== *)

Module ClinicState.

(** The dataclass, with the types of its annotations; [None] is the unset
    marker. *)
Record ConversationState : Type := {
  patient_name : option string;
  patient_age : option Z;
  patient_phone : option string;
  specialty : option string;
  doctor_name : option string;
  date_iso : option string;
  time_24h : option string
}.

Definition str_value (f : option string) : JSON :=
  match f with Some s => JStr s | None => JNull end.

Definition int_value (f : option Z) : JSON :=
  match f with Some z => JInt z | None => JNull end.

(** [asdict(self)] *)
Definition to_dict (st : ConversationState) : Py.dict JSON :=
  [("patient_name", str_value (patient_name st));
   ("patient_age", int_value (patient_age st));
   ("patient_phone", str_value (patient_phone st));
   ("specialty", str_value (specialty st));
   ("doctor_name", str_value (doctor_name st));
   ("date_iso", str_value (date_iso st));
   ("time_24h", str_value (time_24h st))].

(** [a or b] *)
Definition py_or (a b : JSON) : JSON := if Py.truthy a then a else b.

(** [all(xs)] *)
Definition py_all (xs : list JSON) : bool := forallb Py.truthy xs.

Definition is_ready_to_book (st : ConversationState) : bool :=
  py_all [str_value (patient_name st);
          str_value (patient_phone st);
          py_or (str_value (specialty st)) (str_value (doctor_name st));
          str_value (doctor_name st);
          str_value (date_iso st);
          str_value (time_24h st)].

(** A field is set when it holds a value rather than the unset marker. *)
Definition is_set {A} (f : option A) : bool :=
  match f with Some _ => true | None => false end.

End ClinicState.

(* ================================================================== *)
(** ** What the two orchestrators share *)
(* ================================================================== *)

(** A tool-call directive of the model: [tc["function"]["name"]],
    [tc["function"]["arguments"]] (a string, or [None] when the endpoint
    sends null) and [tc.get("id")]. *)
Record ToolCall : Type := {
  tc_name : string;
  tc_arguments : option string;
  tc_id : option string
}.

(** The assistant message of one completion. *)
Record AssistantMsg : Type := {
  msg_content : option string;
  msg_tool_calls : list ToolCall
}.

Inductive Message : Type :=
| SystemMsg (content : string)
| UserMsg (content : string)
| AssistantEntry (msg : AssistantMsg)
| ToolMsg (tool_call_id : option string) (content : string).

(** What a turn does to the outside, in order: a round-trip to the model
    with the transcript sent, or the execution of a tool. *)
Inductive Event : Type :=
| ModelRoundTrip (sent : list Message)
| ToolExecuted (name : string) (arguments_json : option string).

Definition doctor_json (d : Doctor) : JSON :=
  JObj [("doctor_name", JStr (doc_doctor_name d));
        ("specialty", JStr (doc_specialty d))].

Definition str_list_json (l : list string) : JSON := JArr (map JStr l).

(** [args.get(key, default)]; only a dictionary has [get]. *)
Definition args_get (args : JSON) (key : string) (default : JSON)
    : result JSON :=
  match args with
  | JObj d => Ok (Py.get key default d)
  | _ => Raise AttributeError
  end.

(** [doctor_exists], the same text in both orchestrators. *)
Definition doctor_exists (w : World) (name : string) : bool :=
  existsb (fun d => String.eqb (Py.lower (Py.strip (doc_doctor_name d)))
                               (Py.lower (Py.strip name)))
          (load_doctors w).

(** [doctor_exists] on whatever [args.get] returned: [any] evaluates
    [name.strip()] once there is a doctor to compare with. *)
Definition doctor_exists_value (w : World) (name : JSON) : result bool :=
  match load_doctors w with
  | [] => Ok false
  | _ :: _ =>
      match name with
      | JStr n => Ok (doctor_exists w n)
      | _ => Raise AttributeError
      end
  end.

Definition canned_reply : string :=
  "Sorry, we do not have any doctors with that specialty at Super Clinic. "
  ++ "Is there anything else I can help you with?".

Section ToolCalls.
Context `{PyLib}.
Variable now : nat -> Z.

(** [json.loads(arguments_json) if arguments_json else {}] *)
Definition decode_arguments (arguments_json : option string)
    : result JSON :=
  match arguments_json with
  | None => Ok (JObj [])
  | Some s =>
      if String.eqb s "" then Ok (JObj [])
      else match json_loads s with
           | Some v => Ok v
           | None => Raise JSONDecodeError
           end
  end.

(** The tools of clinic/tools.py applied to values of any type, as
    [execute_tool] applies them to what [args.get] returns. *)

Definition find_doctors_value (w : World) (specialty : JSON)
    : result JSON :=
  match specialty with
  | JStr s => Ok (JArr (map doctor_json (find_doctors w s)))
  | _ => Raise AttributeError
  end.

(** [doctor_name not in schedules] hashes the name: a list or a
    dictionary raises, any other value that is no string is simply not a
    key.  [fromisoformat] wants a string. *)
Definition get_availability_value (w : World) (doctor_name date_iso : JSON)
    : result (list string) :=
  (schedules <- load_schedules w ;;
   match doctor_name with
   | JStr d =>
       match date_iso with
       | JStr date => get_availability w d date
       | _ => if Py.mem d schedules then Raise TypeError else Ok []
       end
   | JArr _ | JObj _ => Raise TypeError
   | _ => Ok []
   end)%py.

(** [time_24h not in available] compares with [==], which never raises;
    [patient["name"]] on a value that is no dictionary raises
    [TypeError], after the clock was read for the identifier. *)
Definition book_appointment_value (w : World)
    (doctor_name date_iso time_24h patient : JSON) : result JSON * World :=
  match doctor_name, date_iso, time_24h with
  | JStr d, JStr date, JStr time =>
      match patient with
      | JObj p => book_appointment now w d date time p
      | _ =>
          match get_availability w d date with
          | Raise e => (Raise e, w)
          | Ok available =>
              if negb (Py.mem_str time available)
              then (Ok slot_not_available, w)
              else (Raise TypeError, tick w)
          end
      end
  | _, _, _ =>
      match get_availability_value w doctor_name date_iso with
      | Raise e => (Raise e, w)
      | Ok _ => (Ok slot_not_available, w)
      end
  end.

Definition get_current_datetime_value (w : World) (timezone : JSON)
    : result JSON * World :=
  match timezone with
  | JStr tz => get_current_datetime now w tz
  | _ => (Raise TypeError, w)
  end.

(** [x or {}] *)
Definition or_empty_dict (x : JSON) : JSON :=
  if Py.truthy x then x else JObj [].

(** The five branches [execute_tool] has in both files; [None] when
    [tool_name] is none of the five. *)
Definition clinic_tool (tool_name : string) (args : JSON) (w : World)
    : option (result JSON * World) :=
  if String.eqb tool_name "find_doctors" then
    Some ((specialty <- args_get args "specialty" (JStr "") ;;
           find_doctors_value w specialty)%py, w)
  else if String.eqb tool_name "get_availability" then
    Some ((doctor_name <- args_get args "doctor_name" (JStr "") ;;
           date_iso <- args_get args "date_iso" (JStr "") ;;
           slots <- get_availability_value w doctor_name date_iso ;;
           Ok (str_list_json slots))%py, w)
  else if String.eqb tool_name "book_appointment" then
    Some (match args with
          | JObj d =>
              book_appointment_value w
                (Py.get "doctor_name" (JStr "") d)
                (Py.get "date_iso" (JStr "") d)
                (Py.get "time_24h" (JStr "") d)
                (or_empty_dict (Py.get "patient" (JObj []) d))
          | _ => (Raise AttributeError, w)
          end)
  else if String.eqb tool_name "list_specialties" then
    Some (Ok (str_list_json (list_specialties w)), w)
  else if String.eqb tool_name "get_current_datetime" then
    Some (match args_get args "timezone" (JStr "Asia/Kolkata") with
          | Raise e => (Raise e, w)
          | Ok tz => get_current_datetime_value w tz
          end)
  else None.

Definition unknown_tool (tool_name : string) : JSON :=
  JObj [("error", JStr ("Unknown tool: " ++ tool_name))].

End ToolCalls.

(** The memory of a running session: the files, the transcript (the list
    [messages], mutated in place) and the events so far. *)
Record Session : Type := {
  world : World;
  messages : list Message;
  events : list Event
}.

(** How a turn ends: with a reply, with an exception leaving [run_turn],
    or not within the rounds granted. *)
Inductive Turn : Type :=
| Reply (text : string)
| Crash (e : Exn)
| StillRunning.

(** How the processing of tool calls goes on: with the next call, or out
    of [run_turn] by [return] or by an exception. *)
Inductive Flow (S : Type) : Type :=
| Next (s : S)
| Return (text : string) (s : S)
| Throw (e : Exn) (s : S).
Arguments Next {S} s.
Arguments Return {S} text s.
Arguments Throw {S} e s.

Definition set_world (w : World) (s : Session) : Session :=
  {| world := w; messages := messages s; events := events s |}.

Definition append_message (m : Message) (s : Session) : Session :=
  {| world := world s; messages := messages s ++ [m]; events := events s |}.

Definition log_event (e : Event) (s : Session) : Session :=
  {| world := world s; messages := messages s; events := events s ++ [e] |}.

(** [assistant_msg.get("content", "") or ""] *)
Definition content_or_empty (msg : AssistantMsg) : string :=
  match msg_content msg with Some c => c | None => "" end.

(* ================================================================== *)
(** ** assistant-tools-main.py: the guarded orchestrator *)
(* ================================================================== *)

Module Guarded.
Section Orchestrator.
Context `{PyLib}.
Variable now : nat -> Z.

(** [call_llm]: the assistant message for a transcript, or the
    exception of the transport. *)
Variable call_llm : list Message -> result AssistantMsg.

Definition execute_tool (tool_name : string) (arguments_json : option string)
    (w : World) : result JSON * World :=
  match decode_arguments arguments_json with
  | Raise e => (Raise e, w)
  | Ok args =>
      match clinic_tool now tool_name args w with
      | Some r => r
      | None => (Ok (unknown_tool tool_name), w)
      end
  end.

(** The guard before an availability lookup.  It calls [json.loads] on
    the argument string as it is: [None] raises [TypeError]. *)
Definition availability_guard (tc : ToolCall) (w : World) : result bool :=
  match tc_arguments tc with
  | None => Raise TypeError
  | Some a =>
      match json_loads a with
      | None => Raise JSONDecodeError
      | Some args =>
          (name <- args_get args "doctor_name" (JStr "") ;;
           doctor_exists_value w name)%py
      end
  end.

(** [isinstance(result, list) and len(result) == 0] *)
Definition is_empty_list (v : JSON) : bool :=
  match v with JArr [] => true | _ => false end.

(** The body of [for tc in tool_calls], after the guard let it pass. *)
Definition execute_and_report (tc : ToolCall) (s : Session)
    : Flow Session :=
  let fn := tc_name tc in
  let s1 := log_event (ToolExecuted fn (tc_arguments tc)) s in
  match execute_tool fn (tc_arguments tc) (world s1) with
  | (Raise e, w') => Throw e (set_world w' s1)
  | (Ok result, w') =>
      let s2 := set_world w' s1 in
      if String.eqb fn "find_doctors" && is_empty_list result
      then Return canned_reply s2
      else Next (append_message
                   (ToolMsg (tc_id tc) (json_dumps result)) s2)
  end.

Definition dispatch_call (tc : ToolCall) (s : Session) : Flow Session :=
  if String.eqb (tc_name tc) "get_availability" then
    match availability_guard tc (world s) with
    | Raise e => Throw e s
    | Ok false => Return canned_reply s
    | Ok true => execute_and_report tc s
    end
  else execute_and_report tc s.

(** [for tc in tool_calls: ...] *)
Fixpoint dispatch_calls (tool_calls : list ToolCall) (s : Session)
    : Flow Session :=
  match tool_calls with
  | [] => Next s
  | tc :: rest =>
      match dispatch_call tc s with
      | Next s' => dispatch_calls rest s'
      | stop => stop
      end
  end.

(** [while True: ...]; [rounds] bounds the round-trips to the model. *)
Fixpoint run_turn (rounds : nat) (s : Session) : Turn * Session :=
  match rounds with
  | O => (StillRunning, s)
  | S rounds' =>
      let s1 := log_event (ModelRoundTrip (messages s)) s in
      match call_llm (messages s) with
      | Raise e => (Crash e, s1)
      | Ok assistant_msg =>
          let s2 := append_message (AssistantEntry assistant_msg) s1 in
          match msg_tool_calls assistant_msg with
          | [] => (Reply (content_or_empty assistant_msg), s2)
          | tool_calls =>
              match dispatch_calls tool_calls s2 with
              | Next s3 => run_turn rounds' s3
              | Return text s3 => (Reply text, s3)
              | Throw e s3 => (Crash e, s3)
              end
          end
      end
  end.

End Orchestrator.
End Guarded.

(* ================================================================== *)
(** ** assistant-tools-state-main.py: the orchestrator with a state *)
(* ================================================================== *)

Module Stateful.

(** The dictionary [state] that [main] creates. *)
Definition initial_state : Py.dict JSON :=
  [("patient_name", JNull); ("patient_age", JNull); ("patient_phone", JNull);
   ("specialty", JNull); ("doctor_name", JNull); ("date_iso", JNull);
   ("time_24h", JNull)].

(** [for k, v in updates.items(): if k in state: state[k] = v] *)
Fixpoint apply_updates (updates : Py.dict JSON) (state : Py.dict JSON)
    : Py.dict JSON :=
  match updates with
  | [] => state
  | (k, v) :: rest =>
      apply_updates rest (if Py.mem k state then Py.set k v state else state)
  end.

(** [{"status": "ok", "updated": list(updates.keys())}] *)
Definition acknowledgement (updates : Py.dict JSON) : JSON :=
  JObj [("status", JStr "ok"); ("updated", str_list_json (Py.keys updates))].

(** The keys of an acknowledgement. *)
Definition updated_keys (ack : JSON) : option (list string) :=
  match ack with
  | JObj d =>
      match Py.lookup "updated" d with
      | Some (JArr l) =>
          Some (flat_map (fun v => match v with JStr k => [k] | _ => [] end) l)
      | _ => None
      end
  | _ => None
  end.

(** The keys of a payload that [update_state] writes to the state. *)
Definition applied_keys (updates state : Py.dict JSON) : list string :=
  filter (fun k => Py.mem k state) (Py.keys updates).

Section Orchestrator.
Context `{PyLib}.
Variable now : nat -> Z.
Variable call_llm : list Message -> result AssistantMsg.

(** The session of this variant carries the state dictionary too. *)
Definition execute_tool (tool_name : string) (arguments_json : option string)
    (state : Py.dict JSON) (w : World)
    : result JSON * Py.dict JSON * World :=
  match decode_arguments arguments_json with
  | Raise e => (Raise e, state, w)
  | Ok args =>
      match clinic_tool now tool_name args w with
      | Some (r, w') => (r, state, w')
      | None =>
          if String.eqb tool_name "update_state" then
            match args with
            | JObj updates =>
                (Ok (acknowledgement updates),
                 apply_updates updates state, w)
            | _ => (Raise AttributeError, state, w)
            end
          else (Ok (unknown_tool tool_name), state, w)
      end
  end.

Definition dispatch_call (tc : ToolCall) (st : Py.dict JSON * Session)
    : Flow (Py.dict JSON * Session) :=
  let '(state, s) := st in
  let fn := tc_name tc in
  let s1 := log_event (ToolExecuted fn (tc_arguments tc)) s in
  match execute_tool fn (tc_arguments tc) state (world s1) with
  | (Raise e, state', w') => Throw e (state', set_world w' s1)
  | (Ok result, state', w') =>
      Next (state',
            append_message (ToolMsg (tc_id tc) (json_dumps result))
              (set_world w' s1))
  end.

Fixpoint dispatch_calls (tool_calls : list ToolCall)
    (st : Py.dict JSON * Session) : Flow (Py.dict JSON * Session) :=
  match tool_calls with
  | [] => Next st
  | tc :: rest =>
      match dispatch_call tc st with
      | Next st' => dispatch_calls rest st'
      | stop => stop
      end
  end.

Fixpoint run_turn (rounds : nat) (st : Py.dict JSON * Session)
    : Turn * (Py.dict JSON * Session) :=
  match rounds with
  | O => (StillRunning, st)
  | S rounds' =>
      let '(state, s) := st in
      let s1 := log_event (ModelRoundTrip (messages s)) s in
      match call_llm (messages s) with
      | Raise e => (Crash e, (state, s1))
      | Ok assistant_msg =>
          let s2 := append_message (AssistantEntry assistant_msg) s1 in
          match msg_tool_calls assistant_msg with
          | [] => (Reply (content_or_empty assistant_msg), (state, s2))
          | tool_calls =>
              match dispatch_calls tool_calls (state, s2) with
              | Next st3 => run_turn rounds' st3
              | Return text st3 => (Reply text, st3)
              | Throw e st3 => (Crash e, st3)
              end
          end
      end
  end.

End Orchestrator.
End Stateful.

(* ================================================================== *)
(** ** A reference instance of the library interface *)
(* ================================================================== *)

(** The instance the concrete examples run on.  It agrees with CPython on
    a fragment: JSON texts made of objects, arrays, strings with the
    one-letter escapes, integers, [true], [false] and [null]; dates written
    [YYYY-MM-DD], alone or followed by a separator and a time [HH:MM]; the
    zones [Asia/Kolkata] and [UTC]; cells of ASCII text within the default
    field limit.  Outside the fragment it answers as for a malformed
    input.  No general theorem depends on it. *)
Module Reference.

Definition is_digit (c : ascii) : bool :=
  let n := nat_of_ascii c in (48 <=? n)%nat && (n <=? 57)%nat.

Definition digit_value (c : ascii) : Z := Z.of_nat (nat_of_ascii c - 48).

(** The whitespace of JSON. *)
Definition json_space (c : ascii) : bool :=
  let n := nat_of_ascii c in
  (n =? 32)%nat || (n =? 9)%nat || (n =? 10)%nat || (n =? 13)%nat.

Fixpoint skip_ws (s : string) : string :=
  match s with
  | String c s' => if json_space c then skip_ws s' else s
  | EmptyString => s
  end.

(** The double quote. *)
Definition dq : ascii := "034"%char.

(** A text with every apostrophe turned into a double quote, to write
    JSON texts down. *)
Fixpoint q (s : string) : string :=
  match s with
  | EmptyString => EmptyString
  | String c s' => String (if Ascii.eqb c "'" then dq else c) (q s')
  end.

Definition unescape (c : ascii) : option ascii :=
  if Ascii.eqb c dq then Some dq
  else if Ascii.eqb c "\" then Some "\"%char
  else if Ascii.eqb c "/" then Some "/"%char
  else if Ascii.eqb c "b" then Some (ascii_of_nat 8)
  else if Ascii.eqb c "f" then Some (ascii_of_nat 12)
  else if Ascii.eqb c "n" then Some (ascii_of_nat 10)
  else if Ascii.eqb c "r" then Some (ascii_of_nat 13)
  else if Ascii.eqb c "t" then Some (ascii_of_nat 9)
  else None.

(** The text after an opening quote: the string it holds, and what
    follows the closing quote. *)
Fixpoint scan_string (s : string) (acc : list ascii)
    : option (string * string) :=
  match s with
  | EmptyString => None
  | String c s' =>
      if Ascii.eqb c dq then Some (string_of_list_ascii (rev acc), s')
      else if Ascii.eqb c "\" then
        match s' with
        | String e s'' =>
            match unescape e with
            | Some ch => scan_string s'' (ch :: acc)
            | None => None
            end
        | EmptyString => None
        end
      else if (nat_of_ascii c <? 32)%nat then None
      else scan_string s' (c :: acc)
  end.

Fixpoint scan_digits (s : string) (acc : Z) : Z * string :=
  match s with
  | String c s' =>
      if is_digit c then scan_digits s' (10 * acc + digit_value c)%Z
      else (acc, s)
  | EmptyString => (acc, s)
  end.

(** An integer without sign: [0], or a digit from 1 to 9 and more
    digits; a fraction or an exponent after it leaves the fragment. *)
Definition scan_natural (s : string) : option (Z * string) :=
  match s with
  | String c s' =>
      if is_digit c then
        let '(n, rest) :=
          if Ascii.eqb c "0" then (0%Z, s') else scan_digits s' (digit_value c)
        in
        match rest with
        | String d _ =>
            if Ascii.eqb d "." || Ascii.eqb d "e" || Ascii.eqb d "E"
            then None else Some (n, rest)
        | EmptyString => Some (n, rest)
        end
      else None
  | EmptyString => None
  end.

Fixpoint strip_prefix (p s : string) : option string :=
  match p, s with
  | EmptyString, _ => Some s
  | String a p', String b s' =>
      if Ascii.eqb a b then strip_prefix p' s' else None
  | _, EmptyString => None
  end.

Fixpoint parse_value (fuel : nat) (s : string) : option (JSON * string) :=
  match fuel with
  | O => None
  | S fuel' =>
      match s with
      | EmptyString => None
      | String c rest =>
          if Ascii.eqb c dq then
            match scan_string rest [] with
            | Some (str, rest') => Some (JStr str, rest')
            | None => None
            end
          else if Ascii.eqb c "[" then
            match skip_ws rest with
            | String "]" rest' => Some (JArr [], rest')
            | inner =>
                match parse_items fuel' inner with
                | Some (items, rest') => Some (JArr items, rest')
                | None => None
                end
            end
          else if Ascii.eqb c "{" then
            match skip_ws rest with
            | String "}" rest' => Some (JObj [], rest')
            | inner =>
                match parse_members fuel' inner [] with
                | Some (fields, rest') => Some (JObj fields, rest')
                | None => None
                end
            end
          else if Ascii.eqb c "-" then
            match scan_natural rest with
            | Some (n, rest') => Some (JInt (- n), rest')
            | None => None
            end
          else
            match strip_prefix "null" s, strip_prefix "true" s,
                  strip_prefix "false" s with
            | Some rest', _, _ => Some (JNull, rest')
            | _, Some rest', _ => Some (JBool true, rest')
            | _, _, Some rest' => Some (JBool false, rest')
            | _, _, _ =>
                match scan_natural s with
                | Some (n, rest') => Some (JInt n, rest')
                | None => None
                end
            end
      end
  end

(** The values of an array, from the first one to the closing bracket. *)
with parse_items (fuel : nat) (s : string) : option (list JSON * string) :=
  match fuel with
  | O => None
  | S fuel' =>
      match parse_value fuel' s with
      | None => None
      | Some (v, rest) =>
          match skip_ws rest with
          | String "]" rest' => Some ([v], rest')
          | String "," rest' =>
              match parse_items fuel' (skip_ws rest') with
              | Some (vs, rest'') => Some (v :: vs, rest'')
              | None => None
              end
          | _ => None
          end
      end
  end

(** The members of an object; a repeated key keeps its first place and
    takes the last value. *)
with parse_members (fuel : nat) (s : string) (acc : Py.dict JSON)
    : option (Py.dict JSON * string) :=
  match fuel with
  | O => None
  | S fuel' =>
      match s with
      | String c rest =>
          if negb (Ascii.eqb c dq) then None
          else
            match scan_string rest [] with
            | None => None
            | Some (key, rest1) =>
                match skip_ws rest1 with
                | String ":" rest2 =>
                    match parse_value fuel' (skip_ws rest2) with
                    | None => None
                    | Some (v, rest3) =>
                        let acc' := Py.set key v acc in
                        match skip_ws rest3 with
                        | String "}" rest4 => Some (acc', rest4)
                        | String "," rest4 =>
                            parse_members fuel' (skip_ws rest4) acc'
                        | _ => None
                        end
                    end
                | _ => None
                end
            end
      | EmptyString => None
      end
  end.

Definition loads (s : string) : option JSON :=
  match parse_value (S (String.length s)) (skip_ws s) with
  | Some (v, rest) =>
      match skip_ws rest with
      | EmptyString => Some v
      | _ => None
      end
  | None => None
  end.

Definition hex_digit (n : nat) : ascii :=
  if (n <? 10)%nat then ascii_of_nat (48 + n) else ascii_of_nat (87 + n).

Definition escape_char (c : ascii) : string :=
  let n := nat_of_ascii c in
  if Ascii.eqb c dq then String "\" (String dq "")
  else if Ascii.eqb c "\" then "\\"
  else if (n =? 10)%nat then "\n"
  else if (n =? 13)%nat then "\r"
  else if (n =? 9)%nat then "\t"
  else if (n =? 8)%nat then "\b"
  else if (n =? 12)%nat then "\f"
  else if (n <? 32)%nat then
    "\u00" ++ String (hex_digit (n / 16)) (String (hex_digit (n mod 16)) "")
  else String c "".

Fixpoint escape (s : string) : string :=
  match s with
  | EmptyString => EmptyString
  | String c s' => escape_char c ++ escape s'
  end.

Definition quote (s : string) : string :=
  String dq (escape s ++ String dq "").

Fixpoint join (sep : string) (l : list string) : string :=
  match l with
  | [] => ""
  | [x] => x
  | x :: l' => x ++ sep ++ join sep l'
  end.

(** [json.dumps] with its default separators. *)
Fixpoint dumps (v : JSON) : string :=
  match v with
  | JNull => "null"
  | JBool true => "true"
  | JBool false => "false"
  | JInt z => Py.dec z
  | JFloat _ lexeme => lexeme
  | JStr s => quote s
  | JArr items => "[" ++ join ", " (map dumps items) ++ "]"
  | JObj fields =>
      "{" ++ join ", " (map (fun kv => quote (fst kv) ++ ": " ++ dumps (snd kv))
                            fields) ++ "}"
  end.

Definition number_at (s : string) (start len : nat) : option Z :=
  let t := substring start len s in
  if (String.length t =? len)%nat
     && forallb is_digit (list_ascii_of_string t)
  then Some (fst (scan_digits t 0)) else None.

(** The weekday of a date written [YYYY-MM-DD]. *)
Definition date_weekday (s : string) : option nat :=
  if negb (String.length s =? 10)%nat then None
  else if negb (String.eqb (substring 4 1 s) "-"
                && String.eqb (substring 7 1 s) "-") then None
  else
    match number_at s 0 4, number_at s 5 2, number_at s 8 2 with
    | Some y, Some m, Some d =>
        if ((1 <=? y) && (1 <=? m) && (m <=? 12) && (1 <=? d)
            && (d <=? Calendar.days_in_month y m))%Z
        then Some (Calendar.weekday_of_ord (Calendar.ymd2ord y m d))
        else None
    | _, _, _ => None
    end.

(** What separates the date from the time: [fromisoformat] takes any one
    character; these four are enough here. *)
Definition is_separator (c : string) : bool :=
  String.eqb c "T" || String.eqb c " "
  || String.eqb c (String Py.CR "") || String.eqb c (String Py.LF "").

(** The weekday of a date, also when a time [HH:MM] follows it. *)
Definition weekday (s : string) : option nat :=
  if (String.length s =? 16)%nat
  then
    match number_at s 11 2, number_at s 14 2 with
    | Some h, Some m =>
        if (is_separator (substring 10 1 s)
            && String.eqb (substring 13 1 s) ":"
            && (h <=? 23)%Z && (m <=? 59)%Z)%bool
        then date_weekday (substring 0 10 s)
        else None
    | _, _ => None
    end
  else date_weekday s.

(** Text of ASCII characters can be written whatever the encoding of the
    file. *)
Definition writable (s : string) : bool :=
  forallb (fun c => (nat_of_ascii c <? 128)%nat) (list_ascii_of_string s).

(** The reader's default field limit, 131072 characters. *)
Definition readable (s : string) : bool :=
  (N.of_nat (String.length s) <=? 131072)%N.

Definition zone (key : string) : result Zone :=
  if String.eqb key "Asia/Kolkata" then Ok (fun _ => 19800%Z)
  else if String.eqb key "UTC" then Ok (fun _ => 0%Z)
  else Raise ZoneInfoNotFoundError.

Definition str (v : JSON) : string :=
  match v with
  | JBool true => "True"
  | JBool false => "False"
  | JStr s => s
  | JNull => "None"
  | _ => dumps v
  end.

#[export] Instance lib : PyLib := {
  json_loads := loads;
  json_dumps := dumps;
  iso_weekday := weekday;
  zoneinfo := zone;
  IST := fun _ => 19800%Z;
  py_str := str;
  csv_writable := writable;
  csv_readable := readable
}.

End Reference.

(* ================================================================== *)
(** ** Notions of the specification, and the data of the examples *)
(* ================================================================== *)

(** A slot is consumed when a stored appointment has that doctor, that
    date and that time. *)
Definition slot_booked (w : World) (doctor_name date_iso slot : string)
    : Prop :=
  exists a, In a (appointments_csv w)
            /\ apt_doctor_name a = doctor_name
            /\ apt_date_iso a = date_iso
            /\ apt_time_24h a = slot.

(** The event a tool call leaves when it is executed. *)
Definition executed (tc : ToolCall) : Event :=
  ToolExecuted (tc_name tc) (tc_arguments tc).

(** A field that holds a string with at least one character. *)
Definition filled (f : option string) : Prop :=
  exists s, f = Some s /\ s <> "".

(** The result of a booking that succeeded. *)
Definition is_confirmed (r : JSON) : Prop := exists record, r = confirmed record.

Definition is_confirmed_result (r : result JSON) : Prop :=
  exists record, r = Ok (confirmed record).

(** The dictionary [record] that [book_appointment] builds and hands to
    [save_appointment], as the row of cells the writer makes of it. *)
Definition written_row `{PyLib} (now : nat -> Z) (w : World)
    (doctor_name date_iso time_24h : string) (name phone : JSON)
    : Appointment :=
  {| apt_appointment_id :=
       "APT-" ++ Py.dec (Py.int_seconds (now (clock_reads w)));
     apt_doctor_name := doctor_name;
     apt_date_iso := date_iso;
     apt_time_24h := time_24h;
     apt_patient_name := csv_cell name;
     apt_patient_phone := csv_cell phone;
     apt_created_at :=
       Calendar.isoformat_seconds (now (S (clock_reads w)))
         (IST (now (S (clock_reads w)))) |}.

(** A text that the reader returns as the writer received it. *)
Definition reads_back (s : string) : Prop := Py.universal_newlines s = s.

(** [l], then the keys of [defaults] that [l] lacks, with their values:
    the argument object a caller would have sent had it spelled the
    placeholders out. *)
Fixpoint with_defaults (defaults l : Py.dict JSON) : Py.dict JSON :=
  match defaults with
  | [] => l
  | (k, v) :: rest =>
      with_defaults rest (if Py.mem k l then l else (l ++ [(k, v)])%list)
  end.

(** The placeholders [execute_tool] passes to [args.get]. *)
Definition placeholders : Py.dict JSON :=
  [("specialty", JStr ""); ("doctor_name", JStr ""); ("date_iso", JStr "");
   ("time_24h", JStr ""); ("patient", JObj []);
   ("timezone", JStr "Asia/Kolkata")].

Module Demo.

Definition doctors : list Doctor :=
  [ {| doc_doctor_name := "Dr X"; doc_specialty := "Orthopedics" |};
    {| doc_doctor_name := "Dr Y"; doc_specialty := "Orthopedics" |};
    {| doc_doctor_name := "Dr A"; doc_specialty := "General Medicine" |} ].

Definition schedule_rows : list ScheduleRow :=
  [ {| row_doctor_name := "Dr X"; row_working_days := "Mon Tue Wed";
       row_slots := "10:00|11:00|12:00" |};
    {| row_doctor_name := "Dr Y"; row_working_days := "Thu Fri";
       row_slots := "09:00|09:30" |} ].

Definition taken : Appointment :=
  {| apt_appointment_id := "APT-1766300000";
     apt_doctor_name := "Dr X";
     apt_date_iso := "2025-12-23";
     apt_time_24h := "11:00";
     apt_patient_name := "Asha";
     apt_patient_phone := "555-0100";
     apt_created_at := "2025-12-21T12:23:20+05:30" |}.

(** Dr X works Monday to Wednesday; on Tuesday 2025-12-23 the slot at
    11:00 is taken. *)
Definition clinic : World :=
  {| doctors_csv := doctors;
     schedules_csv := schedule_rows;
     appointments_file := Some [taken];
     clock_reads := 0 |}.

(** A clock whose readings all fall in the second 1766476800
    (2025-12-23 08:00:00 UTC), 1000 microseconds apart. *)
Definition same_second (n : nat) : Z :=
  (1766476800000000 + 1000 * Z.of_nat n)%Z.

(** A clock that advances one second at every reading. *)
Definition ticking (n : nat) : Z :=
  (1766476800000000 + 1000000 * Z.of_nat n)%Z.

Definition patient : Py.dict JSON :=
  [("name", JStr "Ravi"); ("phone", JStr "555-0101")].

(** A date followed by a carriage return and a time: a text that
    [fromisoformat] accepts.  The second is what the file returns for it. *)
Definition date_cr : string := "2025-12-23" ++ String Py.CR "10:00".
Definition date_lf : string := "2025-12-23" ++ String Py.LF "10:00".

Definition session : Session :=
  {| world := clinic;
     messages := [SystemMsg "You are the assistant of Super Clinic.";
                  UserMsg "I need an Orthopedics appointment on 2025-12-23."];
     events := [] |}.

(** The batch of the guard scenario: a doctor search, then an
    availability lookup that names a specialty where a doctor is due, then
    one more lookup. *)
Definition search_call : ToolCall :=
  {| tc_name := "find_doctors";
     tc_arguments := Some (Reference.q "{'specialty': 'Orthopedics'}");
     tc_id := Some "call_1" |}.

Definition specialty_as_doctor : ToolCall :=
  {| tc_name := "get_availability";
     tc_arguments :=
       Some (Reference.q
               "{'doctor_name': 'Orthopedics', 'date_iso': '2025-12-23'}");
     tc_id := Some "call_2" |}.

Definition later_call : ToolCall :=
  {| tc_name := "get_availability";
     tc_arguments :=
       Some (Reference.q "{'doctor_name': 'Dr X', 'date_iso': '2025-12-23'}");
     tc_id := Some "call_3" |}.

(** A model that asks for this batch whatever it is sent. *)
Definition model (sent : list Message) : result AssistantMsg :=
  Ok {| msg_content := None;
        msg_tool_calls := [search_call; specialty_as_doctor; later_call] |}.

(** The same clinic with no record of Dr X in doctors.csv. *)
Definition unlisted : World :=
  {| doctors_csv := tl doctors;
     schedules_csv := schedule_rows;
     appointments_file := Some [taken];
     clock_reads := 0 |}.

(** The same clinic with a second schedule row, for a name in small
    letters. *)
Definition two_spellings : World :=
  {| doctors_csv := doctors;
     schedules_csv :=
       (schedule_rows
        ++ [ {| row_doctor_name := "dr x"; row_working_days := "Tue";
                row_slots := "15:00" |} ])%list;
     appointments_file := Some [taken];
     clock_reads := 0 |}.

(** Every field set, the patient's name to the empty string. *)
Definition nameless : ClinicState.ConversationState :=
  {| ClinicState.patient_name := Some "";
     ClinicState.patient_age := None;
     ClinicState.patient_phone := Some "555-0101";
     ClinicState.specialty := None;
     ClinicState.doctor_name := Some "Dr X";
     ClinicState.date_iso := Some "2025-12-23";
     ClinicState.time_24h := Some "10:00" |}.

(** A payload with a state field and a key the state does not have. *)
Definition payload : string :=
  Reference.q "{'doctor_name': 'Dr X', 'favourite_colour': 'red'}".

(** A model that sends a tool call whose argument text is cut short. *)
Definition cut_short : ToolCall :=
  {| tc_name := "find_doctors"; tc_arguments := Some "{";
     tc_id := Some "call_1" |}.

Definition careless_model (sent : list Message) : result AssistantMsg :=
  Ok {| msg_content := None; msg_tool_calls := [cut_short] |}.

End Demo.

(* ================================================================== *)
(** ** tools.py: the in-memory clinic of the first demo *)
(* ================================================================== *)

Module InMemory.

(** An entry of the list [APPOINTMENTS]. *)
Record Booking : Type := {
  id : string;
  doctor : string;
  date : string;
  time : string;
  patient : JSON
}.

(** The module's two tables: [AVAILABILITY], keyed by the doctor's name,
    a bar and the date, and [APPOINTMENTS]. *)
Record Store : Type := {
  AVAILABILITY : Py.dict (list string);
  APPOINTMENTS : list Booking
}.

Definition DOCTORS : list (string * string) :=
  [("Dr X", "Orthopedics"); ("Dr Y", "Orthopedics");
   ("Dr A", "General Medicine")].

(** The tables as the module creates them. *)
Definition initial : Store :=
  {| AVAILABILITY :=
       [("Dr X|2025-12-23", ["10:00"; "11:00"]);
        ("Dr X|2025-12-24", ["10:30"; "11:30"]);
        ("Dr Y|2025-12-23", ["11:00"; "12:00"])];
     APPOINTMENTS := [] |}.

Definition find_doctors (specialty : string) : list (string * string) :=
  let s := Py.lower (Py.strip specialty) in
  filter (fun d => String.eqb (Py.lower (snd d)) s) DOCTORS.

(** [f"{doctor_name}|{date_iso}"] *)
Definition key (doctor_name date_iso : string) : string :=
  doctor_name ++ "|" ++ date_iso.

Definition get_availability (st : Store) (doctor_name date_iso : string)
    : list string :=
  Py.get (key doctor_name date_iso) [] (AVAILABILITY st).

(** [slots.remove(x)]: the first occurrence goes. *)
Fixpoint remove_first (x : string) (l : list string) : list string :=
  match l with
  | [] => []
  | y :: l' => if String.eqb x y then l' else y :: remove_first x l'
  end.

Definition failed (doctor_name date_iso time_24h : string) : JSON :=
  JObj [("status", JStr "failed"); ("reason", JStr "slot_not_available");
        ("doctor", JStr doctor_name); ("date", JStr date_iso);
        ("time", JStr time_24h)].

Definition booking_json (b : Booking) : JSON :=
  JObj [("id", JStr (id b)); ("doctor", JStr (doctor b));
        ("date", JStr (date b)); ("time", JStr (time b));
        ("patient", patient b)].

(** [f"APT-{n:04d}"] *)
Definition appointment_id (n : Z) : string := "APT-" ++ Py.dec_pad 4 n.

Definition book_appointment (st : Store)
    (doctor_name date_iso time_24h : string) (patient : JSON)
    : JSON * Store :=
  let k := key doctor_name date_iso in
  let slots := Py.get k [] (AVAILABILITY st) in
  if negb (Py.mem_str time_24h slots)
  then (failed doctor_name date_iso time_24h, st)
  else
    let record :=
      {| id := appointment_id (Z.of_nat (length (APPOINTMENTS st)) + 1);
         doctor := doctor_name;
         date := date_iso;
         time := time_24h;
         patient := patient |} in
    (JObj [("status", JStr "confirmed"); ("appointment", booking_json record)],
     {| AVAILABILITY :=
          Py.set k (remove_first time_24h slots) (AVAILABILITY st);
        APPOINTMENTS := (APPOINTMENTS st ++ [record])%list |}).

(** A request to [book_appointment], and a run of requests from a store. *)
Record Request : Type := {
  req_doctor : string;
  req_date : string;
  req_time : string;
  req_patient : JSON
}.

Fixpoint serve (requests : list Request) (st : Store) : Store :=
  match requests with
  | [] => st
  | r :: rest =>
      serve rest
        (snd (book_appointment st (req_doctor r) (req_date r) (req_time r)
                (req_patient r)))
  end.

(** The appointments are numbered from one, in the order they were
    made. *)
Definition numbered (st : Store) : Prop :=
  map id (APPOINTMENTS st)
  = map (fun i => appointment_id (Z.of_nat i))
        (seq 1 (length (APPOINTMENTS st))).

End InMemory.

(* ================================================================== *)
(** ** assistant-tools-state-main.py: the snapshot of the state *)
(* ================================================================== *)

(** The line feed. *)
Definition nl : string := String "010"%char "".

(** [sep.join(l)] *)
Fixpoint str_join (sep : string) (l : list string) : string :=
  match l with
  | [] => ""
  | [x] => x
  | x :: l' => x ++ sep ++ str_join sep l'
  end.

(** The text read back as a non-negative integer: the inverse of
    [Py.dec_nonneg], digit after digit. *)
Fixpoint digits_value (s : string) (acc : Z) : Z :=
  match s with
  | EmptyString => acc
  | String c s' =>
      digits_value s' (10 * acc + (Z.of_nat (nat_of_ascii c) - 48))%Z
  end.

(** Text in strictly ascending order. *)
Definition ascending : list string -> Prop :=
  StronglySorted (fun a b => String.ltb a b = true).

(** The session a flow carries, however it goes on. *)
Definition flow_state {S : Type} (f : Flow S) : S :=
  match f with
  | Next s => s
  | Return _ s => s
  | Throw _ s => s
  end.

(** [s'] has the transcript and the events of [s], and possibly more
    after them. *)
Definition session_extends (s s' : Session) : Prop :=
  (exists added, messages s' = (messages s ++ added)%list)
  /\ (exists added, events s' = (events s ++ added)%list).

(** The tool message that reports a result for a call. *)
Definition tool_message (call_and_content : ToolCall * string) : Message :=
  ToolMsg (tc_id (fst call_and_content)) (snd call_and_content).

(** The [(doctor, date, time)] of a stored appointment. *)
Definition slot_key (a : Appointment) : string * string * string :=
  (apt_doctor_name a, apt_date_iso a, apt_time_24h a).

(** No two stored appointments have the same doctor, date and time. *)
Definition no_double_booking (w : World) : Prop :=
  NoDup (map slot_key (appointments_csv w)).

(** What a turn keeps of the state dictionary and of the store: the keys
    of the state, the doctor and schedule files, and the appointments
    already stored. *)
Definition kept (before after : Py.dict JSON * Session) : Prop :=
  Py.keys (fst after) = Py.keys (fst before)
  /\ doctors_csv (world (snd after)) = doctors_csv (world (snd before))
  /\ schedules_csv (world (snd after)) = schedules_csv (world (snd before))
  /\ exists booked,
       appointments_csv (world (snd after))
       = (appointments_csv (world (snd before)) ++ booked)%list.

Module Snapshot.
Section Render.
Context `{PyLib}.

Definition fields : list string :=
  ["patient_name"; "patient_age"; "patient_phone"; "specialty";
   "doctor_name"; "date_iso"; "time_24h"].

(** [f"{v}"] for what [state.get] returned: [str] of the value, [None]
    for a missing key as for [null]. *)
Definition formatted (v : option JSON) : string :=
  match v with
  | None => "None"
  | Some JNull => "None"
  | Some (JStr s) => s
  | Some v => py_str v
  end.

(** [f"{state.get(k)}"] *)
Definition shown (state : Py.dict JSON) (k : string) : string :=
  formatted (Py.lookup k state).

Definition field_line (state : Py.dict JSON) (k : string) : string :=
  "- " ++ k ++ ": " ++ shown state k ++ nl.

Definition state_snapshot (state : Py.dict JSON) : string :=
  "CURRENT BOOKING STATE (authoritative):" ++ nl
  ++ String.concat "" (map (field_line state) fields)
  ++ "Use this state to resolve pronouns like he/him/that." ++ nl
  ++ "If a field is missing, ask for it or call tools as needed." ++ nl
  ++ "Use this only for reasoning. Never repeat it verbatim." ++ nl.

End Render.
End Snapshot.

(* ================================================================== *)
(** ** assistant-tools-main.py: the session loop *)
(* ================================================================== *)

Module GuardedMain.

(** What [main] prints, a constructor for each [print]: the welcome; the
    farewell; [Assistant:] and a reply; the apology for the scheduling
    system, and the [DEBUG:] line that follows it. *)
Inductive Printed : Type :=
| Welcome
| Farewell
| AssistantLine (reply : string)
| Apology
| DebugLine.

(** How [main] ends: by [break] after the farewell or after a transport
    error, by an exception nobody catches, by [input] finding no more
    line, or inside a turn that the granted rounds did not finish. *)
Inductive Exit : Type :=
| SaidGoodbye
| TransportFailed
| Uncaught (e : Exn)
| EndOfInput
| TurnUnfinished.

(** [user_text.lower() in {"exit", "quit"}] *)
Definition is_exit (user_text : string) : bool :=
  let t := Py.lower user_text in String.eqb t "exit" || String.eqb t "quit".

Section Main.
Context `{PyLib}.
Variable now : nat -> Z.
Variable call_llm : list Message -> result AssistantMsg.
Variable SYSTEM_PROMPT : string.

(** The bound on the round-trips of one turn. *)
Variable rounds : nat.

(** [while True: ...] over the lines [input] will return. *)
Fixpoint loop (inputs : list string) (s : Session) (printed : list Printed)
    : Exit * Session * list Printed :=
  match inputs with
  | [] => (EndOfInput, s, printed)
  | line :: rest =>
      let user_text := Py.strip line in
      if is_exit user_text then (SaidGoodbye, s, (printed ++ [Farewell])%list)
      else
        let s1 := append_message (UserMsg user_text) s in
        match Guarded.run_turn now call_llm rounds s1 with
        | (Reply reply, s2) =>
            loop rest s2 (printed ++ [AssistantLine reply])%list
        | (Crash HTTPError, s2) =>
            (TransportFailed, s2, (printed ++ [Apology; DebugLine])%list)
        | (Crash e, s2) => (Uncaught e, s2, printed)
        | (StillRunning, s2) => (TurnUnfinished, s2, printed)
        end
  end.

Definition opening (w : World) : Session :=
  {| world := w;
     messages :=
       [SystemMsg SYSTEM_PROMPT;
        SystemMsg ("Available specialties in Super Clinic (from DB): "
                   ++ str_join ", " (list_specialties w))];
     events := [] |}.

Definition main (w : World) (inputs : list string)
    : Exit * Session * list Printed :=
  loop inputs (opening w) [Welcome].

End Main.
End GuardedMain.

(* ================================================================== *)
(** ** More data for the examples *)
(* ================================================================== *)

Module Samples.

(** A schedule file with a day name written out of the table. *)
Definition misspelt_day : World :=
  {| doctors_csv := Demo.doctors;
     schedules_csv :=
       (Demo.schedule_rows
        ++ [ {| row_doctor_name := "Dr A"; row_working_days := "Mon Tues";
                row_slots := "16:00" |} ])%list;
     appointments_file := None;
     clock_reads := 0 |}.

(** A schedule file with a second row for Dr X. *)
Definition second_row : ScheduleRow :=
  {| row_doctor_name := "Dr X"; row_working_days := "Sat";
     row_slots := "08:00|08:30" |}.

Definition rescheduled : World :=
  {| doctors_csv := Demo.doctors;
     schedules_csv := (Demo.schedule_rows ++ [second_row])%list;
     appointments_file := None;
     clock_reads := 0 |}.

(** A model that answers with text and asks for no tool. *)
Definition polite (sent : list Message) : result AssistantMsg :=
  Ok {| msg_content := Some "How can I help you?"; msg_tool_calls := [] |}.

(** A search for a specialty the clinic does not have. *)
Definition dentist_search : ToolCall :=
  {| tc_name := "find_doctors";
     tc_arguments := Some (Reference.q "{'specialty': 'Dentistry'}");
     tc_id := Some "call_1" |}.

Definition dentist_model (sent : list Message) : result AssistantMsg :=
  Ok {| msg_content := None;
        msg_tool_calls := [dentist_search; Demo.later_call] |}.

(** An availability lookup sent without arguments. *)
Definition bare_lookup : ToolCall :=
  {| tc_name := "get_availability"; tc_arguments := None;
     tc_id := Some "call_1" |}.

Definition bare_model (sent : list Message) : result AssistantMsg :=
  Ok {| msg_content := None; msg_tool_calls := [bare_lookup] |}.

(** A booking of the free slot at 10:00, sent twice in one batch. *)
Definition booking_call : ToolCall :=
  {| tc_name := "book_appointment";
     tc_arguments :=
       Some (Reference.q
               ("{'doctor_name': 'Dr X', 'date_iso': '2025-12-23',"
                ++ " 'time_24h': '10:00',"
                ++ " 'patient': {'name': 'Ravi', 'phone': '555-0101'}}"));
     tc_id := Some "call_1" |}.

(** A model that books twice, then, once it sees tool messages, answers
    with text. *)
Definition has_tool_message (sent : list Message) : bool :=
  existsb (fun m => match m with ToolMsg _ _ => true | _ => false end) sent.

Definition eager_model (sent : list Message) : result AssistantMsg :=
  if has_tool_message sent
  then Ok {| msg_content := Some "Booked."; msg_tool_calls := [] |}
  else Ok {| msg_content := None;
             msg_tool_calls := [booking_call; booking_call] |}.

(** An availability lookup whose [doctor_name] is [null]. *)
Definition null_lookup : ToolCall :=
  {| tc_name := "get_availability";
     tc_arguments :=
       Some (Reference.q "{'doctor_name': null, 'date_iso': '2025-12-23'}");
     tc_id := Some "call_1" |}.

Definition null_model (sent : list Message) : result AssistantMsg :=
  Ok {| msg_content := None; msg_tool_calls := [null_lookup] |}.

(** An availability lookup for a name with blanks around it, which is the
    name of no doctor record, in any case of the letters. *)
Definition padded_lookup : ToolCall :=
  {| tc_name := "get_availability";
     tc_arguments :=
       Some (Reference.q "{'doctor_name': ' dr x ', 'date_iso': '2025-12-23'}");
     tc_id := Some "call_1" |}.

Definition padded_model (sent : list Message) : result AssistantMsg :=
  if has_tool_message sent
  then Ok {| msg_content := Some "Dr X has no free slot.";
             msg_tool_calls := [] |}
  else Ok {| msg_content := None; msg_tool_calls := [padded_lookup] |}.

Definition state_payload : Py.dict JSON :=
  [("doctor_name", JStr "Dr X"); ("patient_age", JNull);
   ("favourite_colour", JStr "red")].

End Samples.

(* ================================================================== *)
(** ** Facts about the built-ins *)
(* ================================================================== *)

Unset Implicit Arguments.
Local Open Scope list_scope.

Example dec_samples :
  Py.dec 0 = "0" /\ Py.dec 1766476800 = "1766476800" /\ Py.dec (-42) = "-42"
  /\ Py.dec_pad 2 5 = "05" /\ Py.dec_pad 4 2025 = "2025".
Proof. repeat split; reflexivity. Qed.

Example split_samples :
  Py.split_ws "  Mon Tue   Fri " = ["Mon"; "Tue"; "Fri"]
  /\ Py.split_ws "" = []
  /\ Py.split_on "|" "10:00|11:00" = ["10:00"; "11:00"]
  /\ Py.split_on "|" "" = [""]
  /\ Py.split_on "|" "a||b|" = ["a"; ""; "b"; ""]
  /\ Py.strip "  Dr X " = "Dr X"
  /\ Py.lower "Dr X" = "dr x".
Proof. repeat split; reflexivity. Qed.

(** [a CR LF b CR c LF d] is read as [a LF b LF c LF d]; the date with the
    carriage return is read as the date with the line feed, and is taken
    for the same Tuesday. *)
Example newline_samples :
  Py.universal_newlines
    (String "a" (String Py.CR (String Py.LF (String "b" (String Py.CR
       (String "c" (String Py.LF "d")))))))
  = String "a" (String Py.LF (String "b" (String Py.LF
       (String "c" (String Py.LF "d")))))
  /\ Py.universal_newlines "2025-12-23" = "2025-12-23"
  /\ Py.universal_newlines Demo.date_cr = Demo.date_lf
  /\ Reference.weekday Demo.date_cr = Some 1%nat
  /\ Reference.weekday Demo.date_lf = Some 1%nat
  /\ Reference.weekday "2025-12-23T24:00" = None.
Proof. repeat split; vm_compute; reflexivity. Qed.

Example calendar_samples :
  Calendar.isoformat_seconds 1766476800123456 19800
  = "2025-12-23T13:30:00+05:30"
  /\ Calendar.weekday_name 1766476800123456 19800 = "Tuesday"
  /\ Calendar.weekday_of_ord (Calendar.ymd2ord 2025 12 23) = 1
  /\ Calendar.civil_from_days 0 = (1970, 1, 1)%Z
  /\ Calendar.ymd2ord 1970 1 1 = Calendar.epoch_ord.
Proof. repeat split; reflexivity. Qed.

Example reference_samples :
  Reference.loads "{}" = Some (JObj [])
  /\ Reference.loads "" = None
  /\ Reference.loads "not json" = None
  /\ Reference.loads (Reference.q "{'a': 1, 'b': [true, null], 'a': 'x'}")
     = Some (JObj [("a", JStr "x"); ("b", JArr [JBool true; JNull])])
  /\ Reference.weekday "2025-12-23" = Some 1
  /\ Reference.weekday "2025-12-28" = Some 6
  /\ Reference.weekday "2025-02-29" = None
  /\ Reference.weekday "" = None.
Proof. repeat split; reflexivity. Qed.

Example clinic_samples :
  list_specialties Demo.clinic = ["General Medicine"; "Orthopedics"]
  /\ map doc_doctor_name (find_doctors Demo.clinic "orthopedics")
     = ["Dr X"; "Dr Y"]
  /\ find_doctors Demo.clinic "" = [].
Proof. repeat split; reflexivity. Qed.

Lemma mem_str_In (x : string) (l : list string) :
  Py.mem_str x l = true <-> In x l.
Proof.
  unfold Py.mem_str. rewrite existsb_exists. split.
  - intros [y [Hy Heq]]. apply String.eqb_eq in Heq. now subst.
  - intros Hx. exists x. split; [assumption | apply String.eqb_refl].
Qed.

Lemma mem_str_false (x : string) (l : list string) :
  Py.mem_str x l = false <-> ~ In x l.
Proof.
  rewrite <- mem_str_In. destruct (Py.mem_str x l); split; congruence.
Qed.

Lemma existsb_nat_In (n : nat) (l : list nat) :
  existsb (Nat.eqb n) l = true <-> In n l.
Proof.
  rewrite existsb_exists. split.
  - intros [m [Hm Heq]]. apply Nat.eqb_eq in Heq. now subst.
  - intros Hn. exists n. split; [assumption | apply Nat.eqb_refl].
Qed.

Lemma existsb_nat_not_In (n : nat) (l : list nat) :
  existsb (Nat.eqb n) l = false <-> ~ In n l.
Proof.
  rewrite <- existsb_nat_In. destruct (existsb (Nat.eqb n) l); split; congruence.
Qed.



(* ================================================================== *)
(** ** clinic/tools.py: availability and booking *)
(* ================================================================== *)

Section ToolFacts.
Context `{PyLib}.
Variable now : nat -> Z.

Lemma booked_times_In (appointments : list Appointment)
    (doctor_name date_iso s : string) :
  In s (booked_times appointments doctor_name date_iso)
  <-> exists a, In a appointments
                /\ apt_doctor_name a = doctor_name
                /\ apt_date_iso a = date_iso
                /\ apt_time_24h a = s.
Proof.
  unfold booked_times. rewrite in_map_iff. split.
  - intros [a [Htime Hin]]. apply filter_In in Hin as [Hin Hmatch].
    apply andb_true_iff in Hmatch as [Hd Hdate].
    apply String.eqb_eq in Hd, Hdate. now exists a.
  - intros [a [Hin [Hd [Hdate Htime]]]]. exists a. split; [assumption |].
    apply filter_In. split; [assumption |].
    subst. now rewrite !String.eqb_refl.
Qed.


(** The equations of [get_availability], one per path. *)
Lemma get_availability_unknown (w : World) (doctor_name date_iso : string)
    (schedules : Py.dict Rule) :
  load_schedules w = Ok schedules ->
  Py.lookup doctor_name schedules = None ->
  get_availability w doctor_name date_iso = Ok [].
Proof.
  intros Hload Hnone. unfold get_availability.
  rewrite Hload. simpl. now rewrite Hnone.
Qed.

Lemma get_availability_known (w : World) (doctor_name date_iso : string)
    (schedules : Py.dict Rule) (rule : Rule) (weekday : nat) :
  load_schedules w = Ok schedules ->
  Py.lookup doctor_name schedules = Some rule ->
  iso_weekday date_iso = Some weekday ->
  get_availability w doctor_name date_iso
  = if existsb (Nat.eqb weekday) (working_days rule)
    then Ok (filter (fun s => negb (Py.mem_str s
                       (booked_times (appointments_csv w)
                                     doctor_name date_iso)))
                    (slots rule))
    else Ok [].
Proof.
  intros Hload Hrule Hday. unfold get_availability.
  change (load_appointments w) with (appointments_csv w).
  rewrite Hload. simpl. rewrite Hrule, Hday.
  now destruct (existsb (Nat.eqb weekday) (working_days rule)).
Qed.

(** Availability reads the schedule and the appointments, nothing else. *)
Lemma get_availability_ext (w w' : World) (doctor_name date_iso : string) :
  schedules_csv w' = schedules_csv w ->
  appointments_csv w' = appointments_csv w ->
  get_availability w' doctor_name date_iso
  = get_availability w doctor_name date_iso.
Proof.
  intros Hs Ha. unfold get_availability, load_schedules.
  change (load_appointments w') with (appointments_csv w').
  change (load_appointments w) with (appointments_csv w).
  now rewrite Hs, Ha.
Qed.


(** **** C1.  [get_availability] answers the empty list for a doctor with
    no schedule record, whatever the date; for a scheduled doctor and a
    date whose weekday is not one of the doctor's working days it answers
    the empty list; on a working day it answers the doctor's slot list, in
    its order, without the slots that a stored appointment of that doctor
    and date consumes. *)
Theorem get_availability_spec (w : World) (doctor_name date_iso : string)
    (schedules : Py.dict Rule) :
  load_schedules w = Ok schedules ->
  (Py.lookup doctor_name schedules = None ->
   get_availability w doctor_name date_iso = Ok [])
  /\ (forall rule weekday,
        Py.lookup doctor_name schedules = Some rule ->
        iso_weekday date_iso = Some weekday ->
        (~ In weekday (working_days rule) ->
         get_availability w doctor_name date_iso = Ok [])
        /\ (In weekday (working_days rule) ->
            exists keep : string -> bool,
              (forall s, keep s = true
                         <-> ~ slot_booked w doctor_name date_iso s)
              /\ get_availability w doctor_name date_iso
                 = Ok (filter keep (slots rule)))).
Proof.
  intros Hload. split.
  - intros Hnone. eapply get_availability_unknown; eassumption.
  - intros rule weekday Hrule Hday.
    rewrite (get_availability_known w _ _ _ _ _ Hload Hrule Hday). split.
    + intros Hoff. apply existsb_nat_not_In in Hoff.
      now rewrite Hoff.
    + intros Hon. apply existsb_nat_In in Hon. rewrite Hon.
      eexists. split; [| reflexivity].
      intros s. simpl. rewrite negb_true_iff, mem_str_false.
      unfold slot_booked. now rewrite booked_times_In.
Qed.

(** What [save_appointment] does to the files, by its outcome. *)
Lemma save_appointment_inv (a : Appointment) (w w1 : World)
    (e : option Exn) :
  save_appointment a w = (e, w1) ->
  doctors_csv w1 = doctors_csv w
  /\ schedules_csv w1 = schedules_csv w
  /\ clock_reads w1 = clock_reads w
  /\ match e with
     | None =>
         forallb csv_writable (row_cells a) = true
         /\ forallb csv_readable (row_cells (read_back a)) = true
         /\ appointments_csv w1 = (appointments_csv w ++ [read_back a])%list
     | Some e =>
         appointments_csv w1 = appointments_csv w
         /\ ((e = UnicodeEncodeError
              /\ forallb csv_writable (row_cells a) = false)
             \/ (e = StoreUnreadable
                 /\ forallb csv_writable (row_cells a) = true
                 /\ forallb csv_readable (row_cells (read_back a)) = false))
     end.
Proof.
  unfold save_appointment, appointments_csv. intros Hsave.
  destruct (forallb csv_writable (row_cells a)) eqn:Hw;
    destruct (forallb csv_readable (row_cells (read_back a))) eqn:Hr;
    cbn [negb] in Hsave; inversion Hsave; subst;
    cbn [doctors_csv schedules_csv clock_reads appointments_file];
    repeat split; trivial;
    try (destruct (appointments_file w); reflexivity);
    try (now left); try (right; now split).
  destruct (appointments_file w); [apply map_app | reflexivity].
Qed.

(** What a booking that did not fail has done. *)
Lemma book_appointment_confirmed_inv (w w1 : World)
    (doctor_name date_iso time_24h : string) (patient : Py.dict JSON)
    (r : JSON) :
  book_appointment now w doctor_name date_iso time_24h patient = (Ok r, w1) ->
  r <> slot_not_available ->
  exists available name phone,
    get_availability w doctor_name date_iso = Ok available
    /\ In time_24h available
    /\ Py.lookup "name" patient = Some name
    /\ Py.lookup "phone" patient = Some phone
    /\ let a := written_row now w doctor_name date_iso time_24h name phone in
       r = confirmed (record_json a name phone)
       /\ save_appointment a (tick (tick w)) = (None, w1).
Proof.
  unfold book_appointment. intros Hbook Hok.
  destruct (get_availability w doctor_name date_iso) as [available | e];
    [| discriminate].
  destruct (Py.mem_str time_24h available) eqn:Hmem; cbn [negb] in Hbook.
  2: { inversion Hbook. congruence. }
  destruct (Py.lookup "name" patient) as [name |]; [| discriminate].
  destruct (Py.lookup "phone" patient) as [phone |]; [| discriminate].
  exists available, name, phone.
  cbv zeta in *.
  change (save_appointment _ (tick (tick w)))
    with (save_appointment
            (written_row now w doctor_name date_iso time_24h name phone)
            (tick (tick w))) in Hbook.
  destruct (save_appointment
              (written_row now w doctor_name date_iso time_24h name phone)
              (tick (tick w))) as [[e |] w3] eqn:Hsave;
    [discriminate |].
  inversion Hbook; subst.
  repeat split; try reflexivity. now apply mem_str_In.
Qed.

(** The files after a booking that did not fail: one row more, the row
    written as it reads back. *)
Lemma book_appointment_confirmed_store (w w1 : World)
    (doctor_name date_iso time_24h : string) (patient : Py.dict JSON)
    (r : JSON) :
  book_appointment now w doctor_name date_iso time_24h patient = (Ok r, w1) ->
  r <> slot_not_available ->
  exists available name phone,
    get_availability w doctor_name date_iso = Ok available
    /\ In time_24h available
    /\ Py.lookup "name" patient = Some name
    /\ Py.lookup "phone" patient = Some phone
    /\ let a := written_row now w doctor_name date_iso time_24h name phone in
       r = confirmed (record_json a name phone)
       /\ doctors_csv w1 = doctors_csv w
       /\ schedules_csv w1 = schedules_csv w
       /\ clock_reads w1 = S (S (clock_reads w))
       /\ appointments_csv w1 = (appointments_csv w ++ [read_back a])%list
       /\ forallb csv_writable (row_cells a) = true
       /\ forallb csv_readable (row_cells (read_back a)) = true.
Proof.
  intros Hbook Hok.
  destruct (book_appointment_confirmed_inv _ _ _ _ _ _ _ Hbook Hok)
    as (available & name & phone & Havail & Hin & Hname & Hphone & Hr & Hsave).
  exists available, name, phone. repeat split; trivial.
  all: apply save_appointment_inv in Hsave
         as (Hd & Hs & Hc & Hw & Hrd & Hfile); trivial.
Qed.

Lemma confirmed_not_failure (record : JSON) :
  confirmed record <> slot_not_available.
Proof. unfold confirmed, slot_not_available. congruence. Qed.

(** The failing path of [book_appointment]. *)
Lemma book_appointment_not_in (w : World)
    (doctor_name date_iso time_24h : string) (patient : Py.dict JSON)
    (available : list string) :
  get_availability w doctor_name date_iso = Ok available ->
  ~ In time_24h available ->
  book_appointment now w doctor_name date_iso time_24h patient
  = (Ok slot_not_available, w).
Proof.
  intros Havail Hnot. unfold book_appointment. rewrite Havail.
  apply mem_str_false in Hnot. now rewrite Hnot.
Qed.

(** **** C2.  [book_appointment] computes the availability on the store as
    it is when the booking is asked; when the requested time is not in it,
    the answer is the failure with reason [slot_not_available] and the
    store is left as it was. *)
Theorem book_appointment_unavailable (w : World)
    (doctor_name date_iso time_24h : string) (patient : Py.dict JSON)
    (available : list string) :
  get_availability w doctor_name date_iso = Ok available ->
  ~ In time_24h available ->
  book_appointment now w doctor_name date_iso time_24h patient
  = (Ok (JObj [("status", JStr "failed");
               ("reason", JStr "slot_not_available")]), w).
Proof. exact (book_appointment_not_in w _ _ _ patient available). Qed.

(** Once an appointment for a doctor, a date and a time is stored, the
    time is in no availability of that doctor and date. *)
Lemma booked_slot_unavailable (w : World) (a : Appointment)
    (available : list string) :
  In a (appointments_csv w) ->
  get_availability w (apt_doctor_name a) (apt_date_iso a) = Ok available ->
  ~ In (apt_time_24h a) available.
Proof.
  intros Hin. unfold get_availability.
  destruct (load_schedules w) as [schedules | e]; simpl; [| discriminate].
  destruct (Py.lookup (apt_doctor_name a) schedules) as [rule |].
  2: { intros [= <-]. auto. }
  destruct (iso_weekday (apt_date_iso a)) as [weekday |]; [| discriminate].
  destruct (negb (existsb (Nat.eqb weekday) (working_days rule))).
  { intros [= <-]. auto. }
  intros [= <-] Hslot. apply filter_In in Hslot as [_ Hfree].
  apply negb_true_iff, mem_str_false in Hfree. apply Hfree.
  apply booked_times_In. now exists a.
Qed.

(** A booking leaves the doctors and the schedule alone and never drops
    an appointment. *)
Lemma book_appointment_files (w w1 : World)
    (doctor_name date_iso time_24h : string) (patient : Py.dict JSON)
    (r : result JSON) :
  book_appointment now w doctor_name date_iso time_24h patient = (r, w1) ->
  doctors_csv w1 = doctors_csv w
  /\ schedules_csv w1 = schedules_csv w
  /\ exists added, appointments_csv w1 = (appointments_csv w ++ added)%list.
Proof.
  unfold book_appointment. intros Hbook.
  destruct (get_availability w doctor_name date_iso) as [available | e].
  2: { inversion Hbook; subst. repeat split; trivial.
       exists []. now rewrite app_nil_r. }
  destruct (negb (Py.mem_str time_24h available)).
  { inversion Hbook; subst. repeat split; trivial.
    exists []. now rewrite app_nil_r. }
  destruct (Py.lookup "name" patient) as [name |].
  2: { inversion Hbook; subst. repeat split; trivial.
       exists []. now rewrite app_nil_r. }
  destruct (Py.lookup "phone" patient) as [phone |].
  2: { inversion Hbook; subst. repeat split; trivial.
       exists []. now rewrite app_nil_r. }
  cbv zeta in Hbook.
  destruct (save_appointment _ (tick (tick w))) as [e w3] eqn:Hsave.
  apply save_appointment_inv in Hsave as (Hd & Hs & _ & Hrows).
  change (appointments_csv (tick (tick w))) with (appointments_csv w) in Hrows.
  destruct e as [e |]; inversion Hbook; subst; repeat split; trivial.
  - destruct Hrows as [Hfile _]. exists []. now rewrite Hfile, app_nil_r.
  - destruct Hrows as (_ & _ & Hfile). eexists. exact Hfile.
Qed.



End ToolFacts.

(** *** The clinic of the examples *)

Example demo_schedules :
  load_schedules Demo.clinic
  = Ok [("Dr X", {| working_days := [0; 1; 2];
                    slots := ["10:00"; "11:00"; "12:00"] |});
        ("Dr Y", {| working_days := [3; 4]; slots := ["09:00"; "09:30"] |})].
Proof. reflexivity. Qed.

Example demo_availability :
  get_availability (H := Reference.lib) Demo.clinic "Dr X" "2025-12-23"
  = Ok ["10:00"; "12:00"].
Proof. reflexivity. Qed.

(** Dr Nobody has no schedule; 2025-12-28 is a Sunday, 2025-12-23 a
    Tuesday. *)
Lemma get_availability_spec_witness :
  get_availability (H := Reference.lib) Demo.clinic "Dr Nobody" "2025-12-23"
  = Ok []
  /\ get_availability (H := Reference.lib) Demo.clinic "Dr X" "2025-12-28"
     = Ok []
  /\ exists keep : string -> bool,
       (forall s, keep s = true
                  <-> ~ slot_booked Demo.clinic "Dr X" "2025-12-23" s)
       /\ get_availability (H := Reference.lib) Demo.clinic "Dr X" "2025-12-23"
          = Ok (filter keep ["10:00"; "11:00"; "12:00"]).
Proof.
  pose proof (@get_availability_spec Reference.lib Demo.clinic
                "Dr Nobody" "2025-12-23" _ eq_refl) as [Hnone _].
  pose proof (@get_availability_spec Reference.lib Demo.clinic
                "Dr X" "2025-12-28" _ eq_refl) as [_ Hsunday].
  pose proof (@get_availability_spec Reference.lib Demo.clinic
                "Dr X" "2025-12-23" _ eq_refl) as [_ Htuesday].
  split; [exact (Hnone eq_refl) |].
  split.
  - apply (Hsunday _ 6 eq_refl eq_refl). simpl. intuition discriminate.
  - apply (Htuesday _ 1 eq_refl eq_refl). simpl. auto.
Defined.

Lemma book_appointment_unavailable_witness :
  book_appointment (H := Reference.lib) Demo.same_second Demo.clinic
    "Dr X" "2025-12-23" "11:00" Demo.patient
  = (Ok (JObj [("status", JStr "failed");
               ("reason", JStr "slot_not_available")]), Demo.clinic).
Proof.
  apply (@book_appointment_unavailable Reference.lib Demo.same_second
           Demo.clinic "Dr X" "2025-12-23" "11:00" Demo.patient
           ["10:00"; "12:00"] eq_refl).
  simpl. intuition discriminate.
Defined.

Example demo_booking :
  book_appointment (H := Reference.lib) Demo.same_second Demo.clinic
    "Dr X" "2025-12-23" "10:00" Demo.patient
  = (Ok (confirmed
           (JObj [("appointment_id", JStr "APT-1766476800");
                  ("doctor_name", JStr "Dr X");
                  ("date_iso", JStr "2025-12-23");
                  ("time_24h", JStr "10:00");
                  ("patient_name", JStr "Ravi");
                  ("patient_phone", JStr "555-0101");
                  ("created_at", JStr "2025-12-23T13:30:00+05:30")])),
     {| doctors_csv := Demo.doctors;
        schedules_csv := Demo.schedule_rows;
        appointments_file :=
          Some
          [Demo.taken;
           {| apt_appointment_id := "APT-1766476800";
              apt_doctor_name := "Dr X";
              apt_date_iso := "2025-12-23";
              apt_time_24h := "10:00";
              apt_patient_name := "Ravi";
              apt_patient_phone := "555-0101";
              apt_created_at := "2025-12-23T13:30:00+05:30" |}];
        clock_reads := 2 |}).
Proof. reflexivity. Qed.

(** **** C3, at a date followed by a carriage return and a time.
    [fromisoformat] takes the text for Tuesday 2025-12-23, the writer
    stores it, and the reader returns it with a line feed in place of the
    carriage return: the stored row no longer has the date that was asked.
    The booking of Dr X at 10:00 on that date succeeds, and so does a
    second booking of the same doctor, date and time; both rows are in the
    file. *)
Theorem double_booking_through_newline :
  let first :=
    book_appointment (H := Reference.lib) Demo.ticking Demo.clinic
      "Dr X" Demo.date_cr "10:00" Demo.patient in
  let second :=
    book_appointment (H := Reference.lib) Demo.ticking (snd first)
      "Dr X" Demo.date_cr "10:00"
      [("name", JStr "Mira"); ("phone", JStr "555-0102")] in
  is_confirmed_result (fst first)
  /\ is_confirmed_result (fst second)
  /\ map (fun a => (apt_appointment_id a, slot_key a))
         (skipn 1 (appointments_csv (snd second)))
     = [("APT-1766476800", ("Dr X", Demo.date_lf, "10:00"));
        ("APT-1766476802", ("Dr X", Demo.date_lf, "10:00"))].
Proof.
  cbv zeta. repeat split; try (vm_compute; reflexivity);
    eexists; vm_compute; reflexivity.
Qed.

(** **** C4, at the same date.  After the booking of Dr X at 10:00 has
    succeeded, the availability of Dr X on the date that was booked still
    offers 10:00, and the availability of Dr X on another date text, the
    one with the line feed, has lost it. *)
Theorem booking_frame_broken_by_newline :
  let first :=
    book_appointment (H := Reference.lib) Demo.ticking Demo.clinic
      "Dr X" Demo.date_cr "10:00" Demo.patient in
  is_confirmed_result (fst first)
  /\ get_availability (H := Reference.lib) Demo.clinic "Dr X" Demo.date_cr
     = Ok ["10:00"; "11:00"; "12:00"]
  /\ get_availability (H := Reference.lib) (snd first) "Dr X" Demo.date_cr
     = Ok ["10:00"; "11:00"; "12:00"]
  /\ get_availability (H := Reference.lib) Demo.clinic "Dr X" Demo.date_lf
     = Ok ["10:00"; "11:00"; "12:00"]
  /\ get_availability (H := Reference.lib) (snd first) "Dr X" Demo.date_lf
     = Ok ["11:00"; "12:00"].
Proof.
  cbv zeta. repeat split; try (vm_compute; reflexivity).
  eexists. vm_compute. reflexivity.
Qed.

(** With the date alone, which reads back as it was written, the second
    booking fails. *)
Example demo_repeated_booking :
  let first :=
    book_appointment (H := Reference.lib) Demo.same_second Demo.clinic
      "Dr X" "2025-12-23" "10:00" Demo.patient in
  book_appointment (H := Reference.lib) Demo.same_second (snd first)
    "Dr X" "2025-12-23" "10:00"
    [("name", JStr "Mira"); ("phone", JStr "555-0102")]
  = (Ok slot_not_available, snd first).
Proof. reflexivity. Qed.

(* ================================================================== *)
(** ** assistant-tools-main.py: the guard before an availability lookup *)
(* ================================================================== *)

Section GuardedFacts.
Context `{PyLib}.
Variable now : nat -> Z.
Variable call_llm : list Message -> result AssistantMsg.

Lemma book_appointment_value_doctors (w w' : World)
    (doctor_name date_iso time_24h patient : JSON) (r : result JSON) :
  book_appointment_value now w doctor_name date_iso time_24h patient = (r, w') ->
  doctors_csv w' = doctors_csv w.
Proof.
  unfold book_appointment_value. intros Hbook.
  destruct doctor_name, date_iso, time_24h;
    try (destruct (get_availability_value w _ _);
         inversion Hbook; subst; reflexivity).
  destruct patient;
    try (destruct (get_availability w s s0) as [available | e];
         [ destruct (negb (Py.mem_str s1 available)) |];
         inversion Hbook; subst; reflexivity).
  now apply book_appointment_files in Hbook.
Qed.

Lemma clinic_tool_doctors (tool_name : string) (args : JSON) (w w' : World)
    (r : result JSON) :
  clinic_tool now tool_name args w = Some (r, w') ->
  doctors_csv w' = doctors_csv w.
Proof.
  unfold clinic_tool. intros Htool.
  destruct (String.eqb tool_name "find_doctors");
    [inversion Htool; reflexivity |].
  destruct (String.eqb tool_name "get_availability");
    [inversion Htool; reflexivity |].
  destruct (String.eqb tool_name "book_appointment").
  { destruct args; inversion Htool; subst; try reflexivity.
    eapply book_appointment_value_doctors. eassumption. }
  destruct (String.eqb tool_name "list_specialties");
    [inversion Htool; reflexivity |].
  destruct (String.eqb tool_name "get_current_datetime"); [| discriminate].
  destruct (args_get args "timezone" (JStr "Asia/Kolkata")) as [tz | e];
    [| inversion Htool; reflexivity].
  unfold get_current_datetime_value, get_current_datetime in Htool.
  destruct tz; try (inversion Htool; reflexivity).
  destruct (zoneinfo s); inversion Htool; reflexivity.
Qed.

Lemma execute_tool_doctors (tool_name : string) (arguments_json : option string)
    (w w' : World) (r : result JSON) :
  Guarded.execute_tool now tool_name arguments_json w = (r, w') ->
  doctors_csv w' = doctors_csv w.
Proof.
  unfold Guarded.execute_tool. intros Hexec.
  destruct (decode_arguments arguments_json) as [args | e];
    [| inversion Hexec; reflexivity].
  destruct (clinic_tool now tool_name args w) as [[r0 w0] |] eqn:Htool.
  - inversion Hexec; subst. eapply clinic_tool_doctors. eassumption.
  - inversion Hexec; reflexivity.
Qed.

(** A call after which the loop goes on was executed, once, and left the
    doctor records alone. *)
Lemma execute_and_report_next (tc : ToolCall) (s s' : Session) :
  Guarded.execute_and_report now tc s = Next s' ->
  events s' = (events s ++ [executed tc])%list
  /\ doctors_csv (world s') = doctors_csv (world s).
Proof.
  unfold Guarded.execute_and_report. simpl.
  destruct (Guarded.execute_tool now (tc_name tc) (tc_arguments tc) (world s))
    as [[result | e] w'] eqn:Hexec; [| discriminate].
  destruct (String.eqb (tc_name tc) "find_doctors"
            && Guarded.is_empty_list result); [discriminate |].
  intros [= <-]. simpl. split; [reflexivity |].
  eapply execute_tool_doctors. eassumption.
Qed.

Lemma dispatch_call_next (tc : ToolCall) (s s' : Session) :
  Guarded.dispatch_call now tc s = Next s' ->
  events s' = (events s ++ [executed tc])%list
  /\ doctors_csv (world s') = doctors_csv (world s).
Proof.
  unfold Guarded.dispatch_call.
  destruct (String.eqb (tc_name tc) "get_availability").
  - destruct (Guarded.availability_guard tc (world s)) as [[|] | e];
      try discriminate.
    apply execute_and_report_next.
  - apply execute_and_report_next.
Qed.

Lemma dispatch_calls_next (calls : list ToolCall) (s s' : Session) :
  Guarded.dispatch_calls now calls s = Next s' ->
  events s' = (events s ++ map executed calls)%list
  /\ doctors_csv (world s') = doctors_csv (world s).
Proof.
  revert s. induction calls as [| tc calls IH]; simpl; intros s Hnext.
  - inversion Hnext. now rewrite app_nil_r.
  - destruct (Guarded.dispatch_call now tc s) as [s1 | |] eqn:Hcall;
      try discriminate.
    apply dispatch_call_next in Hcall as [Hev Hdoc].
    apply IH in Hnext as [Hev' Hdoc'].
    rewrite Hev', Hev, Hdoc', Hdoc, <- app_assoc. now split.
Qed.

Lemma dispatch_calls_app (before rest : list ToolCall) (s : Session) :
  Guarded.dispatch_calls now (before ++ rest) s
  = match Guarded.dispatch_calls now before s with
    | Next s' => Guarded.dispatch_calls now rest s'
    | stop => stop
    end.
Proof.
  revert s. induction before as [| tc before IH]; simpl; intros s.
  - reflexivity.
  - destruct (Guarded.dispatch_call now tc s); auto.
Qed.

Lemma doctor_exists_ext (w w' : World) (name : string) :
  doctors_csv w' = doctors_csv w ->
  doctor_exists w' name = doctor_exists w name.
Proof. unfold doctor_exists, load_doctors. now intros ->. Qed.

(** One round of [run_turn] on an assistant message that asks for tools. *)
Lemma run_turn_batch (s : Session) (assistant_msg : AssistantMsg)
    (rounds : nat) :
  call_llm (messages s) = Ok assistant_msg ->
  msg_tool_calls assistant_msg <> [] ->
  Guarded.run_turn now call_llm (S rounds) s
  = match Guarded.dispatch_calls now (msg_tool_calls assistant_msg)
            (append_message (AssistantEntry assistant_msg)
               (log_event (ModelRoundTrip (messages s)) s)) with
    | Next s3 => Guarded.run_turn now call_llm rounds s3
    | Return text s3 => (Reply text, s3)
    | Throw e s3 => (Crash e, s3)
    end.
Proof.
  intros Hllm Hcalls. simpl. rewrite Hllm.
  destruct (msg_tool_calls assistant_msg); [congruence | reflexivity].
Qed.

(** **** C5.  In a batch of tool calls, when the loop reaches a
    [get_availability] call whose arguments decode to an object and whose
    [doctor_name], a string, matches no doctor record (compared stripped
    and lower-cased), [run_turn] returns the canned reply at once: the
    session is the one the calls before it left, so the availability tool
    is not executed, no later call of the batch is executed, and the model
    is not asked again. *)
Theorem guard_short_circuits (s s' : Session) (assistant_msg : AssistantMsg)
    (before after : list ToolCall) (tc : ToolCall) (a : string)
    (fields : Py.dict JSON) (name : string) (rounds : nat) :
  call_llm (messages s) = Ok assistant_msg ->
  msg_tool_calls assistant_msg = (before ++ tc :: after)%list ->
  Guarded.dispatch_calls now before
    (append_message (AssistantEntry assistant_msg)
       (log_event (ModelRoundTrip (messages s)) s)) = Next s' ->
  tc_name tc = "get_availability" ->
  tc_arguments tc = Some a ->
  json_loads a = Some (JObj fields) ->
  Py.get "doctor_name" (JStr "") fields = JStr name ->
  doctor_exists (world s) name = false ->
  Guarded.run_turn now call_llm (S rounds) s = (Reply canned_reply, s')
  /\ events s'
     = (events s ++ ModelRoundTrip (messages s) :: map executed before)%list.
Proof.
  intros Hllm Hcalls Hbefore Hname Hargs Hjson Hget Hunknown.
  pose proof (dispatch_calls_next _ _ _ Hbefore) as [Hev Hdoc].
  simpl in Hev, Hdoc. split.
  - rewrite (run_turn_batch _ _ _ Hllm), Hcalls.
    2: { rewrite Hcalls. destruct before; discriminate. }
    rewrite dispatch_calls_app, Hbefore.
    cbn [Guarded.dispatch_calls].
    unfold Guarded.dispatch_call, Guarded.availability_guard.
    rewrite Hname, Hargs, Hjson. simpl. rewrite Hget.
    unfold doctor_exists_value.
    rewrite (doctor_exists_ext _ _ name Hdoc), Hunknown.
    now destruct (load_doctors (world s')).
  - rewrite Hev, <- app_assoc. reflexivity.
Qed.

End GuardedFacts.

(** The scenario of the specification: [doctor_name] is "Orthopedics". *)
Lemma guard_short_circuits_witness :
  exists s' : Session,
    Guarded.run_turn (H := Reference.lib) Demo.same_second Demo.model 3
      Demo.session = (Reply canned_reply, s')
    /\ events s'
       = [ModelRoundTrip (messages Demo.session); executed Demo.search_call].
Proof.
  eexists.
  eapply (@guard_short_circuits Reference.lib Demo.same_second Demo.model
            Demo.session _ _ [Demo.search_call] [Demo.later_call]
            Demo.specialty_as_doctor _ _ "Orthopedics" 2);
    reflexivity.
Defined.

(** Where the guard does not answer with the canned reply though the
    name matches no doctor record.  A [doctor_name] that is [null] makes
    [name.strip()] raise [AttributeError]; a call without an argument
    string makes [json.loads] raise [TypeError]; both end the turn.  A name
    with blanks around it equals no doctor's name, in any case of the
    letters, yet passes the guard, which strips both sides: the
    availability tool is executed and the model is asked again. *)
Lemma guard_raises_or_lets_through :
  fst (Guarded.run_turn (H := Reference.lib) Demo.ticking Samples.null_model 3
         Demo.session)
  = Crash AttributeError
  /\ fst (Guarded.run_turn (H := Reference.lib) Demo.ticking
            Samples.bare_model 3 Demo.session)
     = Crash TypeError
  /\ existsb (fun d => String.eqb (Py.lower (doc_doctor_name d))
                                  (Py.lower " dr x "))
             (doctors_csv Demo.clinic)
     = false
  /\ exists sent,
       Guarded.run_turn (H := Reference.lib) Demo.ticking
         Samples.padded_model 3 Demo.session
       = (Reply "Dr X has no free slot.",
          snd (Guarded.run_turn (H := Reference.lib) Demo.ticking
                 Samples.padded_model 3 Demo.session))
       /\ events
            (snd (Guarded.run_turn (H := Reference.lib) Demo.ticking
                    Samples.padded_model 3 Demo.session))
          = [ModelRoundTrip (messages Demo.session);
             executed Samples.padded_lookup;
             ModelRoundTrip sent].
Proof.
  split; [vm_compute; reflexivity |].
  split; [vm_compute; reflexivity |].
  split; [vm_compute; reflexivity |].
  eexists. split; vm_compute; reflexivity.
Qed.

(* ================================================================== *)
(** ** assistant-tools-main.py: arguments of a tool call *)
(* ================================================================== *)

Lemma lookup_app_miss {V : Type} (k k0 : string) (v0 : V) (l : Py.dict V) :
  Py.lookup k (l ++ [(k0, v0)])
  = match Py.lookup k l with
    | Some v => Some v
    | None => if String.eqb k k0 then Some v0 else None
    end.
Proof.
  induction l as [| [k' v'] l IH]; simpl; [reflexivity |].
  now destruct (String.eqb k k').
Qed.

(** Spelling the placeholders out changes nothing to what [get] reads
    with that placeholder as its default. *)
Lemma get_with_defaults (defaults l : Py.dict JSON) (k : string) (v : JSON) :
  (forall v', In (k, v') defaults -> v' = v) ->
  Py.get k v (with_defaults defaults l) = Py.get k v l.
Proof.
  revert l. induction defaults as [| [k0 v0] rest IH]; simpl; intros l Hdef;
    [reflexivity |].
  rewrite IH by (intros v' Hin; apply Hdef; now right).
  destruct (Py.mem k0 l) eqn:Hmem; [reflexivity |].
  unfold Py.get. rewrite lookup_app_miss.
  destruct (Py.lookup k l) eqn:Hk; [reflexivity |].
  destruct (String.eqb k k0) eqn:Heq; [| reflexivity].
  apply String.eqb_eq in Heq. subst k0.
  apply Hdef. now left.
Qed.

Section ArgumentFacts.
Context `{PyLib}.
Variable now : nat -> Z.

Lemma clinic_tool_with_defaults (tool_name : string) (fields : Py.dict JSON)
    (w : World) :
  clinic_tool now tool_name (JObj (with_defaults placeholders fields)) w
  = clinic_tool now tool_name (JObj fields) w.
Proof.
  assert (Hget : forall k v, In (k, v) placeholders ->
            Py.get k v (with_defaults placeholders fields) = Py.get k v fields).
  { intros k v Hin. apply get_with_defaults. intros v' Hin'.
    unfold placeholders in Hin, Hin'. simpl in Hin, Hin'.
    repeat (destruct Hin as [Hin | Hin];
            [ inversion Hin; subst;
              repeat (destruct Hin' as [Hin' | Hin'];
                      [ inversion Hin'; subst; try reflexivity; discriminate
                      |]);
              contradiction
            |]).
    contradiction. }
  unfold clinic_tool, args_get.
  rewrite !Hget by (unfold placeholders; simpl; tauto).
  reflexivity.
Qed.

(** **** C6, as the code has it.  A missing or empty argument string
    decodes to the empty argument object.  A key missing from a decoded
    argument object is read as its placeholder: the call does what it
    would do had the placeholder been sent.  With a missing or empty
    argument string no tool raises, provided the schedule file loads
    without a record for the empty doctor name and the default time zone
    is known. *)
Theorem execute_tool_defaults (tool_name : string) (w : World) :
  (decode_arguments None = Ok (JObj [])
   /\ decode_arguments (Some "") = Ok (JObj []))
  /\ (forall a a' fields,
        decode_arguments a = Ok (JObj fields) ->
        decode_arguments a' = Ok (JObj (with_defaults placeholders fields)) ->
        Guarded.execute_tool now tool_name a w
        = Guarded.execute_tool now tool_name a' w)
  /\ (forall a schedules tz,
        a = None \/ a = Some "" ->
        load_schedules w = Ok schedules ->
        Py.lookup "" schedules = None ->
        zoneinfo "Asia/Kolkata" = Ok tz ->
        exists v w',
          Guarded.execute_tool now tool_name a w = (Ok v, w')
          /\ appointments_csv w' = appointments_csv w).
Proof.
  split; [split; reflexivity |]. split.
  - intros a a' fields Ha Ha'. unfold Guarded.execute_tool.
    rewrite Ha, Ha'. now rewrite clinic_tool_with_defaults.
  - intros a schedules tz Ha Hload Hnone Hzone.
    assert (Hdec : decode_arguments a = Ok (JObj []))
      by (destruct Ha; subst; reflexivity).
    assert (Havail : get_availability w "" "" = Ok [])
      by (eapply get_availability_unknown; eassumption).
    unfold Guarded.execute_tool. rewrite Hdec. unfold clinic_tool.
    destruct (String.eqb tool_name "find_doctors").
    { simpl. eauto. }
    destruct (String.eqb tool_name "get_availability").
    { simpl. unfold get_availability_value. rewrite Hload. simpl.
      rewrite Havail. simpl. eauto. }
    destruct (String.eqb tool_name "book_appointment").
    { simpl. unfold book_appointment. rewrite Havail. simpl. eauto. }
    destruct (String.eqb tool_name "list_specialties").
    { eauto. }
    destruct (String.eqb tool_name "get_current_datetime").
    { simpl. unfold get_current_datetime. rewrite Hzone. eauto. }
    eauto.
Qed.

End ArgumentFacts.

Lemma execute_tool_defaults_witness :
  (forall tool_name,
     Guarded.execute_tool (H := Reference.lib) Demo.same_second tool_name
       (Some (Reference.q "{'doctor_name': 'Dr X'}")) Demo.clinic
     = Guarded.execute_tool (H := Reference.lib) Demo.same_second tool_name
         (Some (Reference.q
            ("{'doctor_name': 'Dr X', 'specialty': '', 'date_iso': '',"
             ++ " 'time_24h': '', 'patient': {},"
             ++ " 'timezone': 'Asia/Kolkata'}")%string))
         Demo.clinic)
  /\ exists v w',
       Guarded.execute_tool (H := Reference.lib) Demo.same_second
         "book_appointment" None Demo.clinic = (Ok v, w')
       /\ appointments_csv w' = appointments_csv Demo.clinic.
Proof.
  split.
  - intros tool_name.
    apply (proj1 (proj2 (@execute_tool_defaults Reference.lib
                           Demo.same_second tool_name Demo.clinic))
             _ _ [("doctor_name", JStr "Dr X")]);
      reflexivity.
  - apply (proj2 (proj2 (@execute_tool_defaults Reference.lib
                           Demo.same_second "book_appointment" Demo.clinic))
             None _ (fun _ => 19800%Z) (or_introl eq_refl) eq_refl eq_refl
             eq_refl).
Defined.

(** An argument text that is no JSON raises out of [execute_tool] and
    ends the turn with the exception; a missing date or a missing patient
    is replaced by a placeholder on which the tool raises. *)
Lemma malformed_arguments_raise :
  Guarded.execute_tool (H := Reference.lib) Demo.same_second
    "find_doctors" (Some "{") Demo.clinic
  = (Raise JSONDecodeError, Demo.clinic)
  /\ fst (Guarded.run_turn (H := Reference.lib) Demo.same_second
            Demo.careless_model 3 Demo.session)
     = Crash JSONDecodeError
  /\ Guarded.execute_tool (H := Reference.lib) Demo.same_second
       "get_availability" (Some (Reference.q "{'doctor_name': 'Dr X'}"))
       Demo.clinic
     = (Raise ValueError, Demo.clinic)
  /\ Guarded.execute_tool (H := Reference.lib) Demo.same_second
       "book_appointment"
       (Some (Reference.q
          ("{'doctor_name': 'Dr X', 'date_iso': '2025-12-23',"
           ++ " 'time_24h': '10:00'}")%string))
       Demo.clinic
     = (Raise (KeyError "name"), tick Demo.clinic).
Proof. repeat split; reflexivity. Qed.

(* ================================================================== *)
(** ** assistant-tools-state-main.py: the state merge *)
(* ================================================================== *)

Lemma mem_set (k k' : string) (v : JSON) (d : Py.dict JSON) :
  Py.mem k d = true -> Py.mem k' (Py.set k v d) = Py.mem k' d.
Proof.
  unfold Py.mem. induction d as [| [k0 v0] d IH]; simpl; [discriminate |].
  destruct (String.eqb k k0) eqn:Hk; simpl.
  - intros _. apply String.eqb_eq in Hk. subst k0.
    now destruct (String.eqb k' k).
  - intros Hm. destruct (String.eqb k' k0); [reflexivity | now apply IH].
Qed.

Lemma keys_set (k : string) (v : JSON) (d : Py.dict JSON) :
  Py.mem k d = true -> Py.keys (Py.set k v d) = Py.keys d.
Proof.
  unfold Py.mem, Py.keys. induction d as [| [k0 v0] d IH]; simpl;
    [discriminate |].
  destruct (String.eqb k k0) eqn:Hk; simpl; [reflexivity |].
  intros Hm. now rewrite IH.
Qed.

Lemma lookup_set_same (k : string) (v : JSON) (d : Py.dict JSON) :
  Py.mem k d = true -> Py.lookup k (Py.set k v d) = Some v.
Proof.
  unfold Py.mem. induction d as [| [k0 v0] d IH]; simpl; [discriminate |].
  destruct (String.eqb k k0) eqn:Hk; simpl; rewrite Hk; auto.
Qed.

Lemma lookup_set_other (k k' : string) (v : JSON) (d : Py.dict JSON) :
  k' <> k -> Py.lookup k' (Py.set k v d) = Py.lookup k' d.
Proof.
  intros Hne. apply String.eqb_neq in Hne.
  induction d as [| [k0 v0] d IH]; simpl.
  - now rewrite Hne.
  - destruct (String.eqb k k0) eqn:Hk; simpl.
    + apply String.eqb_eq in Hk. subst k0. now rewrite Hne.
    + now rewrite IH.
Qed.

Lemma lookup_not_key {V : Type} (k : string) (d : Py.dict V) :
  ~ In k (Py.keys d) -> Py.lookup k d = None.
Proof.
  induction d as [| [k0 v0] d IH]; simpl; [reflexivity |].
  intros Hnot. destruct (String.eqb k k0) eqn:Hk.
  - apply String.eqb_eq in Hk. subst k0. exfalso. apply Hnot. now left.
  - apply IH. intros Hin. apply Hnot. now right.
Qed.

(** The merge never adds or moves a key of the state. *)
Lemma apply_updates_keys (updates state : Py.dict JSON) :
  Py.keys (Stateful.apply_updates updates state) = Py.keys state.
Proof.
  revert state. induction updates as [| [k v] rest IH]; simpl; intros state;
    [reflexivity |].
  rewrite IH. destruct (Py.mem k state) eqn:Hm; [| reflexivity].
  now apply keys_set.
Qed.

(** The merge of [update_state]: a key of the payload that the state has
    takes the payload's value, [null] included; a key the payload lacks
    keeps its value; a key the state lacks is not added. *)
Lemma apply_updates_lookup (updates state : Py.dict JSON) (k : string) :
  NoDup (Py.keys updates) ->
  Py.lookup k (Stateful.apply_updates updates state)
  = match Py.lookup k updates with
    | Some v => if Py.mem k state then Some v else None
    | None => Py.lookup k state
    end.
Proof.
  revert state. induction updates as [| [k0 v0] rest IH]; simpl;
    intros state Hnodup; [reflexivity |].
  inversion Hnodup as [| ? ? Hfresh Hrest]; subst.
  rewrite IH by assumption.
  destruct (String.eqb k k0) eqn:Hk.
  - apply String.eqb_eq in Hk. subst k0.
    rewrite (lookup_not_key k rest Hfresh).
    destruct (Py.mem k state) eqn:Hm.
    + now apply lookup_set_same.
    + unfold Py.mem in Hm. now destruct (Py.lookup k state).
  - apply String.eqb_neq in Hk.
    destruct (Py.mem k0 state) eqn:Hm; [| reflexivity].
    rewrite (mem_set k0 k v0 state Hm), (lookup_set_other k0 k v0 state Hk).
    reflexivity.
Qed.

Lemma updated_keys_acknowledgement (updates : Py.dict JSON) :
  Stateful.updated_keys (Stateful.acknowledgement updates)
  = Some (Py.keys updates).
Proof.
  unfold Stateful.updated_keys, Stateful.acknowledgement, str_list_json.
  simpl. f_equal. induction (Py.keys updates) as [| k ks IH]; simpl;
    [reflexivity | now rewrite IH].
Qed.

Section StateFacts.
Context `{PyLib}.
Variable now : nat -> Z.

(** What [execute_tool] does for [update_state] on a decoded payload. *)
Lemma execute_update_state (a : option string) (updates state : Py.dict JSON)
    (w : World) :
  decode_arguments a = Ok (JObj updates) ->
  Stateful.execute_tool now "update_state" a state w
  = (Ok (Stateful.acknowledgement updates),
     Stateful.apply_updates updates state, w).
Proof.
  intros Hdec. unfold Stateful.execute_tool. now rewrite Hdec.
Qed.

End StateFacts.

(** Whatever the payload, the acknowledgement lists all its keys: a key
    the state does not have is listed though nothing was written for it. *)
Lemma acknowledgement_lists_ignored_keys `{PyLib} (now : nat -> Z)
    (a : option string) (updates state : Py.dict JSON) (w : World)
    (k : string) :
  decode_arguments a = Ok (JObj updates) ->
  In k (Py.keys updates) ->
  Py.mem k state = false ->
  exists ack state',
    Stateful.execute_tool now "update_state" a state w = (Ok ack, state', w)
    /\ Stateful.updated_keys ack = Some (Py.keys updates)
    /\ ~ In k (Stateful.applied_keys updates state)
    /\ Py.lookup k state' = None.
Proof.
  intros Hdec Hin Hmem. do 2 eexists.
  split; [apply execute_update_state; eassumption |].
  split; [apply updated_keys_acknowledgement |]. split.
  - unfold Stateful.applied_keys. rewrite filter_In. intros [_ Hm]. congruence.
  - apply lookup_not_key. rewrite apply_updates_keys.
    intros Hkey. unfold Py.mem in Hmem. unfold Py.keys in Hkey.
    apply in_map_iff in Hkey as [[k' v'] [Hfst Hkv]]. simpl in Hfst. subst k'.
    clear - Hmem Hkv. induction state as [| [k0 v0] state IH];
      simpl in *; [contradiction |].
    destruct (String.eqb k k0) eqn:Hk; [discriminate |].
    destruct Hkv as [Heq | Hkv].
    + inversion Heq; subst. now rewrite String.eqb_refl in Hk.
    + now apply IH.
Qed.

(** **** C7, at a payload with a key the state does not have.
    [update_state] sets [doctor_name], leaves the six other fields
    untouched and adds no [favourite_colour] to the state; yet the
    acknowledgement lists [favourite_colour] among the updated keys, though
    the only key applied is [doctor_name]. *)
Theorem update_state_acknowledges_ignored_key :
  exists ack state',
    Stateful.execute_tool (H := Reference.lib) Demo.same_second
      "update_state" (Some Demo.payload) Stateful.initial_state Demo.clinic
    = (Ok ack, state', Demo.clinic)
    /\ state'
       = [("patient_name", JNull); ("patient_age", JNull);
          ("patient_phone", JNull); ("specialty", JNull);
          ("doctor_name", JStr "Dr X"); ("date_iso", JNull);
          ("time_24h", JNull)]
    /\ Stateful.updated_keys ack = Some ["doctor_name"; "favourite_colour"]
    /\ Stateful.applied_keys
         [("doctor_name", JStr "Dr X"); ("favourite_colour", JStr "red")]
         Stateful.initial_state
       = ["doctor_name"].
Proof. do 2 eexists. repeat split; reflexivity. Qed.

(* ================================================================== *)
(** ** clinic/tools.py: appointment identifiers *)
(* ================================================================== *)

(** **** C8, at two bookings within one second of the clock.  Both
    succeed, for two different slots, and the two records they append
    carry the same identifier, the second of the clock. *)
Theorem same_second_same_identifier :
  let first :=
    book_appointment (H := Reference.lib) Demo.same_second Demo.clinic
      "Dr X" "2025-12-23" "10:00" Demo.patient in
  let second :=
    book_appointment (H := Reference.lib) Demo.same_second (snd first)
      "Dr X" "2025-12-23" "12:00"
      [("name", JStr "Mira"); ("phone", JStr "555-0102")] in
  is_confirmed_result (fst first)
  /\ is_confirmed_result (fst second)
  /\ map (fun a => (apt_appointment_id a, apt_time_24h a, apt_created_at a))
         (skipn 1 (appointments_csv (snd second)))
     = [("APT-1766476800", "10:00", "2025-12-23T13:30:00+05:30");
        ("APT-1766476800", "12:00", "2025-12-23T13:30:00+05:30")].
Proof.
  cbv zeta. repeat split; try (vm_compute; reflexivity);
    eexists; vm_compute; reflexivity.
Qed.

(** A text without a carriage return reads back as it was written. *)
Lemma universal_newlines_without_cr (s : string) :
  (forall c, In c (list_ascii_of_string s) -> c <> Py.CR) ->
  reads_back s.
Proof.
  unfold reads_back.
  induction s as [| c s IH]; cbn [Py.universal_newlines list_ascii_of_string In];
    intros Hc; [reflexivity |].
  destruct (Ascii.eqb c Py.CR) eqn:Hcr.
  - apply Ascii.eqb_eq in Hcr. exfalso. apply (Hc c); auto.
  - f_equal. apply IH. intros c' Hin. apply Hc. now right.
Qed.

Lemma digit_char_not_cr (d : Z) :
  (0 <= d < 10)%Z -> Py.digit_char d <> Py.CR.
Proof.
  intros Hd Heq. apply (f_equal nat_of_ascii) in Heq.
  unfold Py.digit_char in Heq. rewrite nat_ascii_embedding in Heq by lia.
  change (nat_of_ascii Py.CR) with 13%nat in Heq. lia.
Qed.

(** [dec_digits] writes digits in front of [acc], and nothing else. *)
Lemma dec_digits_chars (fuel : nat) :
  forall (n : Z) (acc : string) (c : ascii),
    In c (list_ascii_of_string (Py.dec_digits fuel n acc)) ->
    In c (list_ascii_of_string acc)
    \/ exists d, (0 <= d < 10)%Z /\ c = Py.digit_char d.
Proof.
  induction fuel as [| fuel IH]; intros n acc c; cbn [Py.dec_digits];
    [auto |].
  assert (Hdigit : forall c', c' = Py.digit_char (n mod 10) ->
            exists d, (0 <= d < 10)%Z /\ c' = Py.digit_char d).
  { intros c' ->. exists (n mod 10)%Z. split; [| reflexivity].
    apply Z.mod_pos_bound. lia. }
  destruct (n <? 10)%Z.
  - cbn [list_ascii_of_string In]. intros [<- | Hin]; auto.
  - intros Hin. apply IH in Hin as [Hin | Hd]; [| now right].
    cbn [list_ascii_of_string In] in Hin. destruct Hin as [<- | Hin]; auto.
Qed.

(** An identifier has no carriage return: the file returns it as it was
    written. *)
Lemma identifier_reads_back (n : Z) :
  reads_back ("APT-" ++ Py.dec n)%string.
Proof.
  apply universal_newlines_without_cr. intros c Hin.
  cbn [append list_ascii_of_string In] in Hin.
  destruct Hin as [<- | [<- | [<- | [<- | Hin]]]];
    try (unfold Py.CR; discriminate).
  assert (Hdigits : forall m,
            In c (list_ascii_of_string (Py.dec_nonneg m)) -> c <> Py.CR).
  { intros m Hm. unfold Py.dec_nonneg in Hm.
    apply dec_digits_chars in Hm as [[] | (d & Hd & ->)].
    now apply digit_char_not_cr. }
  unfold Py.dec in Hin. destruct (n <? 0)%Z; [| now apply (Hdigits n)].
  cbn [list_ascii_of_string In] in Hin.
  destruct Hin as [<- | Hin]; [unfold Py.CR; discriminate |].
  now apply (Hdigits (- n)%Z).
Qed.

(** Whatever the store and the patient, the identifier of a booking is
    the second in which the clock was read, and [created_at] is the next
    reading, in the zone [IST], as the file returns it. *)
Lemma booking_identifier `{PyLib} (now : nat -> Z) (w w1 : World)
    (doctor_name date_iso time_24h : string) (patient : Py.dict JSON)
    (r : JSON) :
  book_appointment now w doctor_name date_iso time_24h patient = (Ok r, w1) ->
  is_confirmed r ->
  exists a,
    appointments_csv w1 = appointments_csv w ++ [a]
    /\ apt_appointment_id a
       = ("APT-" ++ Py.dec (Py.int_seconds (now (clock_reads w))))%string
    /\ apt_created_at a
       = Py.universal_newlines
           (Calendar.isoformat_seconds (now (S (clock_reads w)))
              (IST (now (S (clock_reads w))))).
Proof.
  intros Hbook [record ->].
  destruct (book_appointment_confirmed_store now _ _ _ _ _ _ _ Hbook
              (confirmed_not_failure record))
    as (available & name & phone & _ & _ & _ & _ & _ & _ & _ & _ & Hrows & _).
  eexists. split; [exact Hrows |].
  split; [apply identifier_reads_back | reflexivity].
Qed.

(** Two bookings that read the clock within one second write the same
    identifier, whatever the doctors, dates, times and patients. *)
Lemma same_second_collision `{PyLib} (now : nat -> Z) (w w1 w' w1' : World)
    (doctor_name date_iso time_24h doctor_name' date_iso' time_24h' : string)
    (patient patient' : Py.dict JSON) (r r' : JSON) :
  book_appointment now w doctor_name date_iso time_24h patient = (Ok r, w1) ->
  is_confirmed r ->
  book_appointment now w' doctor_name' date_iso' time_24h' patient'
  = (Ok r', w1') ->
  is_confirmed r' ->
  Py.int_seconds (now (clock_reads w)) = Py.int_seconds (now (clock_reads w')) ->
  exists a a',
    appointments_csv w1 = appointments_csv w ++ [a]
    /\ appointments_csv w1' = appointments_csv w' ++ [a']
    /\ apt_appointment_id a = apt_appointment_id a'.
Proof.
  intros Hbook Hok Hbook' Hok' Hsecond.
  destruct (booking_identifier now _ _ _ _ _ _ _ Hbook Hok)
    as (a & Hrows & Hid & _).
  destruct (booking_identifier now _ _ _ _ _ _ _ Hbook' Hok')
    as (a' & Hrows' & Hid' & _).
  exists a, a'. repeat split; trivial. now rewrite Hid, Hid', Hsecond.
Qed.

(** With a clock that moves a second at every reading, the same two
    bookings get two identifiers. *)
Example ticking_clock_identifiers :
  let first :=
    book_appointment (H := Reference.lib) Demo.ticking Demo.clinic
      "Dr X" "2025-12-23" "10:00" Demo.patient in
  let second :=
    book_appointment (H := Reference.lib) Demo.ticking (snd first)
      "Dr X" "2025-12-23" "12:00"
      [("name", JStr "Mira"); ("phone", JStr "555-0102")] in
  map apt_appointment_id (skipn 1 (appointments_csv (snd second)))
  = ["APT-1766476800"; "APT-1766476802"].
Proof. reflexivity. Qed.

(* ================================================================== *)
(** ** clinic/state.py: ready to book *)
(* ================================================================== *)

Lemma truthy_str_value (f : option string) :
  Py.truthy (ClinicState.str_value f) = true <-> filled f.
Proof.
  unfold filled. destruct f as [s |]; simpl.
  - rewrite negb_true_iff, String.eqb_neq. split.
    + intros Hne. now exists s.
    + intros [s' [[= <-] Hne]]. exact Hne.
  - split; [discriminate | intros [s [[=] _]]].
Qed.

(** **** C9, as the code has it.  [is_ready_to_book] is true exactly when
    [patient_name], [patient_phone], [doctor_name], [date_iso] and
    [time_24h] each hold a string that is not empty; [specialty] is not
    required.  The test is Python's truth test: a field set to the empty
    string counts like an unset one. *)
Theorem is_ready_to_book_iff (st : ClinicState.ConversationState) :
  ClinicState.is_ready_to_book st = true
  <-> filled (ClinicState.patient_name st)
      /\ filled (ClinicState.patient_phone st)
      /\ filled (ClinicState.doctor_name st)
      /\ filled (ClinicState.date_iso st)
      /\ filled (ClinicState.time_24h st).
Proof.
  unfold ClinicState.is_ready_to_book, ClinicState.py_all. simpl.
  rewrite !andb_true_iff, !truthy_str_value.
  unfold ClinicState.py_or.
  destruct (Py.truthy (ClinicState.str_value (ClinicState.specialty st)))
    eqn:Hspec.
  - rewrite Hspec. tauto.
  - rewrite truthy_str_value. tauto.
Qed.

(** Every one of the five fields is set, and the state is not ready: the
    patient's name is the empty string. *)
Lemma empty_name_not_ready :
  ClinicState.is_ready_to_book Demo.nameless = false
  /\ ClinicState.is_set (ClinicState.patient_name Demo.nameless)
     && ClinicState.is_set (ClinicState.patient_phone Demo.nameless)
     && ClinicState.is_set (ClinicState.doctor_name Demo.nameless)
     && ClinicState.is_set (ClinicState.date_iso Demo.nameless)
     && ClinicState.is_set (ClinicState.time_24h Demo.nameless) = true.
Proof. split; reflexivity. Qed.

(* ================================================================== *)
(** ** The guard and the schedule read names differently *)
(* ================================================================== *)

(** **** C10, as the code has it.  A name that equals the name of a
    doctor record once both are stripped and lower-cased is accepted by
    [doctor_exists]; and when that very name is no key of the schedule,
    which [load_schedules] keys by the exact text, [get_availability]
    answers the empty list for it on every date, valid or not. *)
Theorem guard_accepts_unscheduled_spelling `{PyLib} (w : World)
    (name : string) (d : Doctor) (schedules : Py.dict Rule) :
  In d (doctors_csv w) ->
  Py.lower (Py.strip (doc_doctor_name d)) = Py.lower (Py.strip name) ->
  load_schedules w = Ok schedules ->
  Py.lookup name schedules = None ->
  doctor_exists w name = true
  /\ forall date_iso, get_availability w name date_iso = Ok [].
Proof.
  intros Hin Hsame Hload Hnone. split.
  - unfold doctor_exists, load_doctors. apply existsb_exists.
    exists d. split; [assumption |]. rewrite Hsame. apply String.eqb_refl.
  - intros date_iso. eapply get_availability_unknown; eassumption.
Qed.

Lemma guard_accepts_unscheduled_spelling_witness :
  doctor_exists Demo.clinic " dr x " = true
  /\ forall date_iso,
       get_availability (H := Reference.lib) Demo.clinic " dr x " date_iso
       = Ok [].
Proof.
  eapply (@guard_accepts_unscheduled_spelling Reference.lib Demo.clinic
            " dr x " {| doc_doctor_name := "Dr X";
                       doc_specialty := "Orthopedics" |});
    [simpl; auto | reflexivity ..].
Defined.

(** "dr x" is "Dr X" but for the case of two letters.  Where doctors.csv
    has no record of the scheduled Dr X, the guard rejects it; where the
    schedule has a row for each spelling, the lookup for "dr x" finds
    slots. *)
Lemma spelling_counterexamples :
  (Py.lower (Py.strip "dr x") = Py.lower (Py.strip "Dr X")
   /\ "dr x" <> "Dr X")
  /\ (get_availability (H := Reference.lib) Demo.unlisted "Dr X" "2025-12-23"
      = Ok ["10:00"; "12:00"]
      /\ doctor_exists Demo.unlisted "dr x" = false)
  /\ (get_availability (H := Reference.lib) Demo.two_spellings
        "Dr X" "2025-12-23" = Ok ["10:00"; "12:00"]
      /\ doctor_exists Demo.two_spellings "dr x" = true
      /\ get_availability (H := Reference.lib) Demo.two_spellings
           "dr x" "2025-12-23" = Ok ["15:00"]).
Proof. repeat split; try reflexivity. discriminate. Qed.

(* ================================================================== *)
(** ** Decimal text and identifiers *)
(* ================================================================== *)

Lemma str_app_assoc (s t u : string) :
  ((s ++ t) ++ u = s ++ (t ++ u))%string.
Proof. induction s as [| c s IH]; simpl; [reflexivity | now rewrite IH]. Qed.

Lemma str_app_nil_r (s : string) : (s ++ "")%string = s.
Proof. induction s as [| c s IH]; simpl; [reflexivity | now rewrite IH]. Qed.

Lemma str_length_app (s t : string) :
  String.length (s ++ t)%string = (String.length s + String.length t)%nat.
Proof. induction s as [| c s IH]; simpl; [reflexivity | now rewrite IH]. Qed.

Lemma digits_value_app (s t : string) (acc : Z) :
  digits_value (s ++ t)%string acc = digits_value t (digits_value s acc).
Proof.
  revert acc. induction s as [| c s IH]; simpl; intros acc;
    [reflexivity | apply IH].
Qed.

Lemma digit_char_value (d : Z) :
  (0 <= d < 10)%Z ->
  (Z.of_nat (nat_of_ascii (Py.digit_char d)) - 48 = d)%Z.
Proof.
  intros Hd. unfold Py.digit_char.
  rewrite nat_ascii_embedding by lia. lia.
Qed.

Lemma digits_value_one (d v : Z) :
  (0 <= d < 10)%Z ->
  digits_value (String (Py.digit_char d) "") v = (v * 10 + d)%Z.
Proof.
  intros Hd. cbn [digits_value]. rewrite digit_char_value by assumption. lia.
Qed.

Lemma dec_digits_small (fuel : nat) (n : Z) (acc : string) :
  (n <? 10)%Z = true ->
  Py.dec_digits (S fuel) n acc = String (Py.digit_char (n mod 10)) acc.
Proof. intros Hlt. cbn [Py.dec_digits]. now rewrite Hlt. Qed.

Lemma dec_digits_large (fuel : nat) (n : Z) (acc : string) :
  (n <? 10)%Z = false ->
  Py.dec_digits (S fuel) n acc
  = Py.dec_digits fuel (n / 10) (String (Py.digit_char (n mod 10)) acc).
Proof. intros Hlt. cbn [Py.dec_digits]. now rewrite Hlt. Qed.

(** [dec_digits] puts the digits of [n] in front of [acc]. *)
Lemma dec_digits_spec (fuel : nat) :
  forall (n : Z) (acc : string),
    (0 <= n < 10 ^ Z.of_nat (S fuel))%Z ->
    exists ds : string,
      Py.dec_digits (S fuel) n acc = (ds ++ acc)%string
      /\ (exists d rest, (0 <= d < 10)%Z
                         /\ ds = String (Py.digit_char d) rest)
      /\ forall v, digits_value ds v
                   = (v * 10 ^ Z.of_nat (String.length ds) + n)%Z.
Proof.
  assert (Hsmall : forall fuel n acc, (0 <= n)%Z -> (n <? 10)%Z = true ->
    exists ds : string,
      Py.dec_digits (S fuel) n acc = (ds ++ acc)%string
      /\ (exists d rest, (0 <= d < 10)%Z
                         /\ ds = String (Py.digit_char d) rest)
      /\ forall v, digits_value ds v
                   = (v * 10 ^ Z.of_nat (String.length ds) + n)%Z).
  { intros f n acc Hn Hlt. rewrite dec_digits_small by assumption.
    apply Z.ltb_lt in Hlt. rewrite Z.mod_small by lia.
    exists (String (Py.digit_char n) ""). split; [reflexivity |]. split.
    - exists n, ""%string. split; [lia | reflexivity].
    - intros v. rewrite digits_value_one by lia.
      change (Z.of_nat (String.length (String (Py.digit_char n) "")))
        with 1%Z.
      rewrite Z.pow_1_r. reflexivity. }
  induction fuel as [| fuel IH]; intros n acc Hn.
  - change (Z.of_nat 1) with 1%Z in Hn. rewrite Z.pow_1_r in Hn.
    apply Hsmall; [lia | apply Z.ltb_lt; lia].
  - destruct (n <? 10)%Z eqn:Hlt; [apply Hsmall; [lia | assumption] |].
    rewrite dec_digits_large by assumption.
    apply Z.ltb_ge in Hlt.
    assert (Hdiv : (0 <= n / 10 < 10 ^ Z.of_nat (S fuel))%Z).
    { split; [apply Z.div_pos; lia |].
      apply Z.div_lt_upper_bound; [lia |].
      rewrite (Nat2Z.inj_succ (S fuel)), Z.pow_succ_r in Hn by lia. lia. }
    destruct (IH (n / 10)%Z
                (String (Py.digit_char (n mod 10)) acc) Hdiv)
      as (ds & Heq & (d & rest & Hd & Hhead) & Hval).
    exists (ds ++ String (Py.digit_char (n mod 10)) "")%string.
    split.
    { rewrite Heq, str_app_assoc. reflexivity. }
    split.
    { exists d, (rest ++ String (Py.digit_char (n mod 10)) "")%string.
      split; [assumption | now rewrite Hhead]. }
    intros v. rewrite digits_value_app, Hval.
    rewrite digits_value_one by (apply Z.mod_pos_bound; lia).
    rewrite str_length_app.
    change (String.length (String (Py.digit_char (n mod 10)) "")) with 1%nat.
    rewrite Nat2Z.inj_add. change (Z.of_nat 1) with 1%Z.
    rewrite Z.pow_add_r by lia. rewrite Z.pow_1_r.
    pose proof (Z.div_mod n 10 ltac:(lia)). lia.
Qed.

Lemma dec_nonneg_spec (n : Z) :
  (0 <= n)%Z ->
  (exists d rest, (0 <= d < 10)%Z
                  /\ Py.dec_nonneg n = String (Py.digit_char d) rest)
  /\ forall v, digits_value (Py.dec_nonneg n) v
               = (v * 10 ^ Z.of_nat (String.length (Py.dec_nonneg n)) + n)%Z.
Proof.
  intros Hn. unfold Py.dec_nonneg.
  assert (Hbound : (0 <= n < 10 ^ Z.of_nat (S (Z.to_nat (Z.log2 n))))%Z).
  { split; [assumption |].
    rewrite Nat2Z.inj_succ, Z2Nat.id by apply Z.log2_nonneg.
    destruct (Z.eq_dec n 0) as [-> | Hpos].
    - change (Z.log2 0) with 0%Z. rewrite Z.pow_1_r. lia.
    - pose proof (Z.log2_spec n ltac:(lia)) as [_ Hlt].
      eapply Z.lt_le_trans; [exact Hlt |].
      apply Z.pow_le_mono_l. lia. }
  destruct (dec_digits_spec _ n "" Hbound) as (ds & Heq & Hhead & Hval).
  rewrite Heq, str_app_nil_r. split; assumption.
Qed.

(** Reading back what [Py.dec_nonneg] wrote. *)
Lemma digits_value_dec_nonneg (n : Z) :
  (0 <= n)%Z -> digits_value (Py.dec_nonneg n) 0 = n.
Proof.
  intros Hn. destruct (dec_nonneg_spec n Hn) as [_ Hval].
  rewrite Hval. lia.
Qed.

Lemma digits_value_zeros (k : nat) (s : string) :
  digits_value (Py.zeros k ++ s)%string 0 = digits_value s 0.
Proof.
  induction k as [| k IH]; [reflexivity |].
  cbn [Py.zeros append digits_value].
  change (10 * 0 + (Z.of_nat (nat_of_ascii "0") - 48))%Z with 0%Z. exact IH.
Qed.

Lemma digits_value_dec_pad (w : nat) (n : Z) :
  (0 <= n)%Z -> digits_value (Py.dec_pad w n) 0 = n.
Proof.
  intros Hn. unfold Py.dec_pad.
  now rewrite digits_value_zeros, digits_value_dec_nonneg.
Qed.

Lemma digit_char_not_minus (d : Z) :
  (0 <= d < 10)%Z -> Py.digit_char d <> "-"%char.
Proof.
  intros Hd Heq. apply (f_equal nat_of_ascii) in Heq.
  unfold Py.digit_char in Heq. rewrite nat_ascii_embedding in Heq by lia.
  change (nat_of_ascii "-") with 45%nat in Heq. lia.
Qed.

(** [Py.dec] writes different integers differently. *)
Lemma dec_injective (n m : Z) : Py.dec n = Py.dec m -> n = m.
Proof.
  unfold Py.dec. intros Heq.
  destruct (n <? 0)%Z eqn:Hn, (m <? 0)%Z eqn:Hm;
    try apply Z.ltb_lt in Hn; try apply Z.ltb_ge in Hn;
    try apply Z.ltb_lt in Hm; try apply Z.ltb_ge in Hm.
  - injection Heq as Htail.
    apply (f_equal (fun s => digits_value s 0)) in Htail.
    rewrite !digits_value_dec_nonneg in Htail by lia. lia.
  - destruct (dec_nonneg_spec m Hm) as [(d & rest & Hd & Hhead) _].
    rewrite Hhead in Heq. injection Heq as Hc _.
    symmetry in Hc. now apply digit_char_not_minus in Hc.
  - destruct (dec_nonneg_spec n Hn) as [(d & rest & Hd & Hhead) _].
    rewrite Hhead in Heq. injection Heq as Hc _.
    now apply digit_char_not_minus in Hc.
  - apply (f_equal (fun s => digits_value s 0)) in Heq.
    now rewrite !digits_value_dec_nonneg in Heq by lia.
Qed.

Lemma str_app_inv_head (p s t : string) :
  (p ++ s)%string = (p ++ t)%string -> s = t.
Proof.
  induction p as [| c p IH]; simpl; [trivial |].
  intros [= Heq]. now apply IH.
Qed.

(** **** X1.  Two confirmed bookings carry the same identifier exactly
    when the clock readings taken for them fall in the same second: the
    identifier is the second, and nothing else. *)
Theorem identifiers_differ_with_seconds `{PyLib} (now : nat -> Z)
    (w w1 w' w1' : World)
    (doctor_name date_iso time_24h doctor_name' date_iso' time_24h' : string)
    (patient patient' : Py.dict JSON) (r r' : JSON) :
  book_appointment now w doctor_name date_iso time_24h patient = (Ok r, w1) ->
  is_confirmed r ->
  book_appointment now w' doctor_name' date_iso' time_24h' patient'
  = (Ok r', w1') ->
  is_confirmed r' ->
  exists a a',
    appointments_csv w1 = appointments_csv w ++ [a]
    /\ appointments_csv w1' = appointments_csv w' ++ [a']
    /\ (apt_appointment_id a = apt_appointment_id a'
        <-> Py.int_seconds (now (clock_reads w))
            = Py.int_seconds (now (clock_reads w'))).
Proof.
  intros Hbook Hok Hbook' Hok'.
  destruct (booking_identifier now _ _ _ _ _ _ _ Hbook Hok)
    as (a & Hrows & Hid & _).
  destruct (booking_identifier now _ _ _ _ _ _ _ Hbook' Hok')
    as (a' & Hrows' & Hid' & _).
  exists a, a'. repeat split; trivial.
  - rewrite Hid, Hid'. intros Heq.
    apply str_app_inv_head in Heq. now apply dec_injective.
  - intros Heq. now rewrite Hid, Hid', Heq.
Qed.

Lemma identifiers_differ_with_seconds_witness :
  let first :=
    book_appointment (H := Reference.lib) Demo.ticking Demo.clinic
      "Dr X" "2025-12-23" "10:00" Demo.patient in
  let second :=
    book_appointment (H := Reference.lib) Demo.ticking (snd first)
      "Dr X" "2025-12-23" "12:00" Demo.patient in
  exists a a',
    appointments_csv (snd first) = appointments_csv Demo.clinic ++ [a]
    /\ appointments_csv (snd second) = appointments_csv (snd first) ++ [a']
    /\ (apt_appointment_id a = apt_appointment_id a'
        <-> Py.int_seconds (Demo.ticking (clock_reads Demo.clinic))
            = Py.int_seconds (Demo.ticking (clock_reads (snd first)))).
Proof.
  cbv zeta.
  refine (@identifiers_differ_with_seconds Reference.lib Demo.ticking
            Demo.clinic _ _ _ "Dr X" "2025-12-23" "10:00"
            "Dr X" "2025-12-23" "12:00" Demo.patient Demo.patient
            _ _ _ _ _ _).
  - vm_compute. reflexivity.
  - eexists. reflexivity.
  - vm_compute. reflexivity.
  - eexists. reflexivity.
Defined.

(* ================================================================== *)
(** ** clinic/tools.py: specialties and doctors *)
(* ================================================================== *)

Lemma ascii_compare_lt_trans (a b c : ascii) :
  Ascii.compare a b = Lt -> Ascii.compare b c = Lt -> Ascii.compare a c = Lt.
Proof.
  unfold Ascii.compare. rewrite !N.compare_lt_iff. lia.
Qed.

Lemma ascii_compare_eq (a b : ascii) : Ascii.compare a b = Eq -> a = b.
Proof.
  unfold Ascii.compare. intros Heq. apply N.compare_eq in Heq.
  rewrite <- (ascii_N_embedding a), <- (ascii_N_embedding b). now rewrite Heq.
Qed.

Lemma string_lt_trans (s t u : string) :
  String.ltb s t = true -> String.ltb t u = true -> String.ltb s u = true.
Proof.
  unfold String.ltb.
  revert t u. induction s as [| a s IH]; intros [| b t] [| c u]; simpl;
    try discriminate; try reflexivity.
  destruct (Ascii.compare a b) eqn:Hab; try discriminate;
    destruct (Ascii.compare b c) eqn:Hbc; try discriminate.
  - apply ascii_compare_eq in Hab, Hbc. subst. 
    assert (Ascii.compare c c = Eq) as ->
      by (unfold Ascii.compare; apply N.compare_refl).
    apply IH.
  - apply ascii_compare_eq in Hab. subst. now rewrite Hbc.
  - apply ascii_compare_eq in Hbc. subst. now rewrite Hab.
  - now rewrite (ascii_compare_lt_trans _ _ _ Hab Hbc).
Qed.

Lemma string_ltb_irrefl (s : string) : String.ltb s s = false.
Proof.
  unfold String.ltb. induction s as [| a s IH]; simpl; [reflexivity |].
  assert (Ascii.compare a a = Eq) as ->
    by (unfold Ascii.compare; apply N.compare_refl).
  exact IH.
Qed.

Lemma string_leb_ltb (x y : string) :
  String.eqb x y = false -> String.leb x y = true -> String.ltb x y = true.
Proof.
  unfold String.leb, String.ltb. intros Hne Hle.
  destruct (String.compare x y) eqn:Hc; try reflexivity; try discriminate.
  apply String.compare_eq_iff in Hc. subst.
  now rewrite String.eqb_refl in Hne.
Qed.

Lemma string_not_leb_ltb (x y : string) :
  String.leb x y = false -> String.ltb y x = true.
Proof.
  unfold String.leb, String.ltb. rewrite (String.compare_antisym y x).
  now destruct (String.compare x y).
Qed.

Lemma insert_sorted_In (x z : string) (l : list string) :
  In z (insert_sorted x l) <-> z = x \/ In z l.
Proof.
  induction l as [| y l IH]; simpl; [intuition |].
  destruct (String.eqb x y) eqn:Heq.
  - apply String.eqb_eq in Heq. subst. simpl. intuition.
  - destruct (String.leb x y); simpl; [intuition |].
    rewrite IH. intuition.
Qed.

Lemma insert_sorted_ascending (x : string) (l : list string) :
  ascending l -> ascending (insert_sorted x l).
Proof.
  unfold ascending. induction l as [| y l IH]; simpl; intros Hs.
  - repeat constructor.
  - destruct (String.eqb x y) eqn:Heq; [assumption |].
    inversion Hs as [| ? ? Htail Hall]; subst.
    destruct (String.leb x y) eqn:Hle.
    + pose proof (string_leb_ltb _ _ Heq Hle) as Hlt.
      constructor; [assumption |]. constructor; [assumption |].
      eapply Forall_impl; [| exact Hall].
      intros z Hz. eapply string_lt_trans; eassumption.
    + constructor; [now apply IH |].
      apply Forall_forall. intros z Hz.
      apply insert_sorted_In in Hz as [-> | Hz].
      * now apply string_not_leb_ltb.
      * rewrite Forall_forall in Hall. now apply Hall.
Qed.

Lemma ascending_NoDup (l : list string) : ascending l -> NoDup l.
Proof.
  unfold ascending. induction 1 as [| x l Hs IH Hall]; constructor;
    [| assumption].
  intros Hin. rewrite Forall_forall in Hall. apply Hall in Hin.
  now rewrite string_ltb_irrefl in Hin.
Qed.

Lemma list_specialties_ascending (w : World) :
  ascending (list_specialties w).
Proof.
  unfold list_specialties.
  induction (map doc_specialty (load_doctors w)) as [| x l IH]; simpl.
  - constructor.
  - now apply insert_sorted_ascending.
Qed.

Lemma list_specialties_In (w : World) (s : string) :
  In s (list_specialties w)
  <-> exists d, In d (doctors_csv w) /\ doc_specialty d = s.
Proof.
  unfold list_specialties, load_doctors.
  assert (Hmap : In s (map doc_specialty (doctors_csv w))
                 <-> exists d, In d (doctors_csv w) /\ doc_specialty d = s).
  { rewrite in_map_iff. split; intros (d & H1 & H2); exists d; now split. }
  rewrite <- Hmap. clear Hmap.
  induction (map doc_specialty (doctors_csv w)) as [| x l IH]; simpl;
    [tauto |].
  rewrite insert_sorted_In, IH. intuition.
Qed.

(** **** X2.  [list_specialties] returns the specialties of the doctor
    records, each one once, in strictly ascending order of their text. *)
Theorem list_specialties_sorted (w : World) :
  StronglySorted (fun a b => String.ltb a b = true) (list_specialties w)
  /\ NoDup (list_specialties w)
  /\ forall s, In s (list_specialties w)
               <-> exists d, In d (doctors_csv w) /\ doc_specialty d = s.
Proof.
  split; [apply list_specialties_ascending |].
  split; [apply ascending_NoDup, list_specialties_ascending |].
  apply list_specialties_In.
Qed.

Lemma find_doctors_In (w : World) (specialty : string) (d : Doctor) :
  In d (find_doctors w specialty)
  <-> In d (doctors_csv w)
      /\ Py.lower (doc_specialty d) = Py.lower specialty.
Proof.
  unfold find_doctors, load_doctors. rewrite filter_In, String.eqb_eq.
  reflexivity.
Qed.

(** **** X3.  [find_doctors] finds a doctor exactly when the argument
    equals, letter case aside, one of the specialties that
    [list_specialties] lists; the doctors found are the doctor records
    whose specialty equals the argument, letter case aside. *)
Theorem find_doctors_listed (w : World) (specialty : string) :
  (find_doctors w specialty <> []
   <-> exists s, In s (list_specialties w)
                 /\ Py.lower s = Py.lower specialty)
  /\ forall d, In d (find_doctors w specialty)
               <-> In d (doctors_csv w)
                   /\ Py.lower (doc_specialty d) = Py.lower specialty.
Proof.
  split; [| intros d; apply find_doctors_In].
  pose proof (list_specialties_In w) as Hlisted.
  split.
  - intros Hne. destruct (find_doctors w specialty) as [| d l] eqn:Hfound;
      [congruence |].
    assert (Hin : In d (find_doctors w specialty))
      by (rewrite Hfound; now left).
    apply find_doctors_In in Hin as [Hin Hsame].
    exists (doc_specialty d). split; [| assumption].
    apply Hlisted. now exists d.
  - intros (s & Hs & Hsame) Hnil. apply Hlisted in Hs as (d & Hin & <-).
    assert (Hfound : In d (find_doctors w specialty))
      by (apply find_doctors_In; now split).
    rewrite Hnil in Hfound. contradiction.
Qed.

(* ================================================================== *)
(** ** clinic/tools.py: the schedule file *)
(* ================================================================== *)

Lemma dict_lookup_set {V : Type} (k k' : string) (v : V) (d : Py.dict V) :
  Py.lookup k' (Py.set k v d)
  = if String.eqb k' k then Some v else Py.lookup k' d.
Proof.
  induction d as [| [k0 v0] d IH]; simpl.
  - reflexivity.
  - destruct (String.eqb k k0) eqn:Hk; simpl.
    + apply String.eqb_eq in Hk. subst k0.
      now destruct (String.eqb k' k).
    + rewrite IH. destruct (String.eqb k' k0) eqn:Hk0; [| reflexivity].
      apply String.eqb_eq in Hk0. subst k0.
      destruct (String.eqb k' k) eqn:Hkk; [| reflexivity].
      apply String.eqb_eq in Hkk. subst k'.
      now rewrite String.eqb_refl in Hk.
Qed.

Lemma dict_keys_set {V : Type} (k : string) (v : V) (d : Py.dict V) :
  NoDup (Py.keys d) -> NoDup (Py.keys (Py.set k v d)).
Proof.
  unfold Py.keys. induction d as [| [k0 v0] d IH]; simpl; intros Hnd.
  - constructor; [intros [] | constructor].
  - inversion Hnd as [| ? ? Hfresh Hrest]; subst.
    destruct (String.eqb k k0) eqn:Hk; simpl.
    + now constructor.
    + constructor; [| now apply IH].
      intros Hin. apply Hfresh.
      apply in_map_iff in Hin as [[k1 v1] [Hfst Hin]]. simpl in Hfst. subst k1.
      assert (Hl : Py.lookup k0 (Py.set k v d) <> None).
      { clear - Hin. induction (Py.set k v d) as [| [k2 v2] l IHl];
          simpl in *; [contradiction |].
        destruct (String.eqb k0 k2) eqn:E; [discriminate |].
        destruct Hin as [Heq | Hin]; [| now apply IHl].
        inversion Heq; subst. now rewrite String.eqb_refl in E. }
      rewrite dict_lookup_set in Hl.
      rewrite String.eqb_sym, Hk in Hl.
      clear - Hl. induction d as [| [k2 v2] d IHd]; simpl in *;
        [congruence |].
      destruct (String.eqb k0 k2) eqn:E.
      * apply String.eqb_eq in E. now left.
      * right. now apply IHd.
Qed.

(** An unknown day name stops [weekday_numbers] with [KeyError]. *)
Lemma weekday_numbers_raises (names : list string) (day : string) :
  In day names ->
  Py.lookup day WEEKDAY_MAP = None ->
  exists bad, Py.lookup bad WEEKDAY_MAP = None
              /\ weekday_numbers names = Raise (KeyError bad).
Proof.
  induction names as [| n names IH]; cbn [weekday_numbers In];
    [contradiction |].
  intros Hin Hbad. destruct (Py.lookup n WEEKDAY_MAP) as [k |] eqn:Hn.
  - destruct Hin as [-> | Hin]; [congruence |].
    destruct (IH Hin Hbad) as (bad & Hb & Hraise).
    exists bad. split; [assumption |]. now rewrite Hraise.
  - exists n. now split.
Qed.

Lemma load_schedules_rows_raises (rows : list ScheduleRow)
    (acc : Py.dict Rule) (row : ScheduleRow) (day : string) :
  In row rows ->
  In day (Py.split_ws (row_working_days row)) ->
  Py.lookup day WEEKDAY_MAP = None ->
  exists bad, Py.lookup bad WEEKDAY_MAP = None
              /\ load_schedules_rows rows acc = Raise (KeyError bad).
Proof.
  revert acc. induction rows as [| r rows IH]; simpl; intros acc Hin Hday Hbad;
    [contradiction |].
  destruct (weekday_numbers (Py.split_ws (row_working_days r)))
    as [days | e] eqn:Hparse; simpl.
  - destruct Hin as [-> | Hin].
    + destruct (weekday_numbers_raises _ _ Hday Hbad) as (bad & _ & Hraise).
      congruence.
    + now apply IH.
  - clear IH. destruct Hin as [-> | Hin].
    + destruct (weekday_numbers_raises _ _ Hday Hbad) as (bad & Hb & Hraise).
      exists bad. split; [assumption | congruence].
    + (* an earlier row already failed *)
      assert (Hex : exists bad, Py.lookup bad WEEKDAY_MAP = None
                                /\ e = KeyError bad).
      { clear - Hparse.
        induction (Py.split_ws (row_working_days r)) as [| n names IHn];
          cbn [weekday_numbers] in Hparse; [discriminate |].
        destruct (Py.lookup n WEEKDAY_MAP) eqn:Hn.
        - destruct (weekday_numbers names); cbn [rbind] in Hparse;
            [discriminate |].
          inversion Hparse; subst. now apply IHn.
        - inversion Hparse. now exists n. }
      destruct Hex as (bad & Hb & ->). now exists bad.
Qed.

(** **** X4.  One day name outside [Mon] ... [Sun] in one row of the
    schedule file makes [load_schedules] raise [KeyError], and with it
    every availability lookup and every booking, for every doctor. *)
Theorem unknown_day_disables_schedule `{PyLib} (now : nat -> Z) (w : World)
    (row : ScheduleRow) (day : string) :
  In row (schedules_csv w) ->
  In day (Py.split_ws (row_working_days row)) ->
  Py.lookup day WEEKDAY_MAP = None ->
  exists bad,
    Py.lookup bad WEEKDAY_MAP = None
    /\ load_schedules w = Raise (KeyError bad)
    /\ (forall doctor_name date_iso,
          get_availability w doctor_name date_iso = Raise (KeyError bad))
    /\ (forall doctor_name date_iso time_24h patient,
          book_appointment now w doctor_name date_iso time_24h patient
          = (Raise (KeyError bad), w)).
Proof.
  intros Hin Hday Hbad.
  destruct (load_schedules_rows_raises _ [] _ _ Hin Hday Hbad)
    as (bad & Hb & Hraise).
  exists bad. split; [assumption |]. split; [exact Hraise |].
  assert (Hget : forall d date, get_availability w d date
                                = Raise (KeyError bad)).
  { intros d date. unfold get_availability, load_schedules.
    now rewrite Hraise. }
  split; [exact Hget |].
  intros d date t p. unfold book_appointment. now rewrite Hget.
Qed.

(** Rows that do not name [d] leave its entry as it was. *)
Lemma load_schedules_rows_frame (rows : list ScheduleRow)
    (acc res : Py.dict Rule) (d : string) :
  load_schedules_rows rows acc = Ok res ->
  (forall r, In r rows -> row_doctor_name r <> d) ->
  Py.lookup d res = Py.lookup d acc.
Proof.
  revert acc. induction rows as [| r rows IH]; simpl; intros acc Hload Hother.
  - now inversion Hload.
  - destruct (weekday_numbers (Py.split_ws (row_working_days r)))
      as [days | e]; simpl in Hload; [| discriminate].
    rewrite (IH _ Hload) by (intros r' Hr'; apply Hother; now right).
    rewrite dict_lookup_set.
    assert (String.eqb d (row_doctor_name r) = false) as ->; [| reflexivity].
    apply String.eqb_neq. intros ->. eapply Hother; [now left | reflexivity].
Qed.

Lemma load_schedules_rows_keys (rows : list ScheduleRow)
    (acc res : Py.dict Rule) :
  load_schedules_rows rows acc = Ok res ->
  NoDup (Py.keys acc) ->
  NoDup (Py.keys res)
  /\ forall d, In d (Py.keys res)
               <-> In d (Py.keys acc) \/ In d (map row_doctor_name rows).
Proof.
  revert acc. induction rows as [| r rows IH]; simpl; intros acc Hload Hnd.
  - inversion Hload; subst. split; [assumption | tauto].
  - destruct (weekday_numbers (Py.split_ws (row_working_days r)))
      as [days | e]; simpl in Hload; [| discriminate].
    destruct (IH _ Hload (dict_keys_set _ _ _ Hnd)) as [Hres Hkeys].
    split; [assumption |]. intros d. rewrite Hkeys.
    assert (Hset : forall (v : Rule) k,
              In d (Py.keys (Py.set k v acc)) <-> In d (Py.keys acc) \/ k = d).
    { intros v k. unfold Py.keys. clear.
      induction acc as [| [k0 v0] acc IHa]; simpl; [tauto |].
      destruct (String.eqb k k0) eqn:Hk; simpl.
      - apply String.eqb_eq in Hk. subst. tauto.
      - rewrite IHa. tauto. }
    rewrite Hset. tauto.
Qed.

Lemma load_schedules_rows_last (before after : list ScheduleRow)
    (row : ScheduleRow) (acc res : Py.dict Rule) :
  load_schedules_rows (before ++ row :: after) acc = Ok res ->
  (forall r, In r after -> row_doctor_name r <> row_doctor_name row) ->
  exists days,
    weekday_numbers (Py.split_ws (row_working_days row)) = Ok days
    /\ Py.lookup (row_doctor_name row) res
       = Some {| working_days := days;
                 slots := Py.split_on "|" (row_slots row) |}.
Proof.
  revert acc. induction before as [| r before IH]; simpl; intros acc Hload Hlast.
  - destruct (weekday_numbers (Py.split_ws (row_working_days row)))
      as [days | e]; simpl in Hload; [| discriminate].
    exists days. split; [reflexivity |].
    rewrite (load_schedules_rows_frame _ _ _ _ Hload Hlast).
    now rewrite dict_lookup_set, String.eqb_refl.
  - destruct (weekday_numbers (Py.split_ws (row_working_days r)))
      as [days | e]; simpl in Hload; [| discriminate].
    eapply IH; eassumption.
Qed.

(** **** X5.  When the schedule file loads, the dictionary has one entry
    for each doctor name of the file and no other; the entry of a doctor
    comes from the last row that names the doctor: its day names turned
    into weekday numbers, its slot text cut at the bars. *)
Theorem load_schedules_last_row_wins (w : World) (schedules : Py.dict Rule) :
  load_schedules w = Ok schedules ->
  NoDup (Py.keys schedules)
  /\ (forall d, In d (Py.keys schedules)
                <-> In d (map row_doctor_name (schedules_csv w)))
  /\ (forall before row after,
        schedules_csv w = before ++ row :: after ->
        (forall r, In r after -> row_doctor_name r <> row_doctor_name row) ->
        exists days,
          weekday_numbers (Py.split_ws (row_working_days row)) = Ok days
          /\ Py.lookup (row_doctor_name row) schedules
             = Some {| working_days := days;
                       slots := Py.split_on "|" (row_slots row) |}).
Proof.
  unfold load_schedules. intros Hload.
  destruct (load_schedules_rows_keys _ _ _ Hload (NoDup_nil _))
    as [Hnd Hkeys].
  split; [assumption |]. split.
  { intros d. rewrite Hkeys. simpl. tauto. }
  intros before row after Hrows Hlast. rewrite Hrows in Hload.
  eapply load_schedules_rows_last; eassumption.
Qed.

(* ================================================================== *)
(** ** clinic/tools.py: what a booking does to the store *)
(* ================================================================== *)

Section BookingFacts.
Context `{PyLib}.
Variable now : nat -> Z.

(** A time that [get_availability] lists is a configured slot of the
    doctor, on a working day, that no stored appointment has. *)
Lemma available_slot_inv (w : World) (doctor_name date_iso time_24h : string)
    (available : list string) :
  get_availability w doctor_name date_iso = Ok available ->
  In time_24h available ->
  exists schedules rule weekday,
    load_schedules w = Ok schedules
    /\ Py.lookup doctor_name schedules = Some rule
    /\ iso_weekday date_iso = Some weekday
    /\ In weekday (working_days rule)
    /\ In time_24h (slots rule)
    /\ ~ slot_booked w doctor_name date_iso time_24h.
Proof.
  unfold get_availability. intros Havail Hin.
  change (load_appointments w) with (appointments_csv w) in Havail.
  destruct (load_schedules w) as [schedules | e]; cbn [rbind] in Havail;
    [| discriminate].
  destruct (Py.lookup doctor_name schedules) as [rule |] eqn:Hrule.
  2: { inversion Havail; subst. contradiction. }
  destruct (iso_weekday date_iso) as [weekday |] eqn:Hday; [| discriminate].
  destruct (existsb (Nat.eqb weekday) (working_days rule)) eqn:Hon;
    cbn [negb] in Havail.
  2: { inversion Havail; subst. contradiction. }
  inversion Havail; subst. apply filter_In in Hin as [Hslot Hfree].
  exists schedules, rule, weekday. repeat split; trivial.
  - now apply existsb_nat_In.
  - apply negb_true_iff, mem_str_false in Hfree.
    unfold slot_booked. now rewrite <- booked_times_In.
Qed.

(** **** X6.  For a patient with a [name] and a [phone], and a row
    within what the reader accepts, [book_appointment] confirms exactly
    when the time is in the availability computed at the call and the row
    can be encoded: every slot [get_availability] shows can be booked, and
    nothing else can. *)
Theorem booking_succeeds_iff (w : World)
    (doctor_name date_iso time_24h : string) (patient : Py.dict JSON)
    (name phone : JSON) :
  Py.lookup "name" patient = Some name ->
  Py.lookup "phone" patient = Some phone ->
  forallb csv_readable
    (row_cells
       (read_back
          (written_row now w doctor_name date_iso time_24h name phone)))
  = true ->
  is_confirmed_result
    (fst (book_appointment now w doctor_name date_iso time_24h patient))
  <-> (exists available,
         get_availability w doctor_name date_iso = Ok available
         /\ In time_24h available)
      /\ forallb csv_writable
           (row_cells
              (written_row now w doctor_name date_iso time_24h name phone))
         = true.
Proof.
  intros Hname Hphone Hread.
  unfold book_appointment, is_confirmed_result.
  destruct (get_availability w doctor_name date_iso) as [available | e].
  2: { cbn [fst]. split.
       - intros [record Hr]. discriminate.
       - intros [(available & Ha & _) _]. discriminate. }
  destruct (Py.mem_str time_24h available) eqn:Hmem; cbn [negb].
  2: { cbn [fst]. split.
       - intros [record Hr]. unfold slot_not_available, confirmed in Hr.
         discriminate.
       - intros [(available' & [= <-] & Hin) _].
         apply mem_str_In in Hin. congruence. }
  apply mem_str_In in Hmem. rewrite Hname, Hphone. cbv zeta.
  change (save_appointment _ (tick (tick w)))
    with (save_appointment
            (written_row now w doctor_name date_iso time_24h name phone)
            (tick (tick w))).
  destruct (save_appointment
              (written_row now w doctor_name date_iso time_24h name phone)
              (tick (tick w))) as [e w3] eqn:Hsave.
  apply save_appointment_inv in Hsave as (_ & _ & _ & Hrows).
  destruct e as [e |]; cbn [fst].
  - destruct Hrows as [_ [[_ Hw] | (_ & _ & Hr)]]; [| congruence].
    split.
    + intros [record Hr]. discriminate.
    + intros [_ Hw']. congruence.
  - destruct Hrows as (Hw & _). split.
    + intros _. split; [now exists available | exact Hw].
    + intros _. eexists. reflexivity.
Qed.


(** **** X8.  Whatever [book_appointment] answers while the file stays
    readable, it leaves the doctor and schedule files alone; it appends
    one record when it confirms, and none when it fails or raises. *)
Theorem booking_persists_only_when_confirmed (w w1 : World)
    (doctor_name date_iso time_24h : string) (patient : Py.dict JSON)
    (r : result JSON) :
  book_appointment now w doctor_name date_iso time_24h patient = (r, w1) ->
  r <> Raise StoreUnreadable ->
  doctors_csv w1 = doctors_csv w
  /\ schedules_csv w1 = schedules_csv w
  /\ ((is_confirmed_result r
       /\ exists a, appointments_csv w1 = appointments_csv w ++ [a])
      \/ (~ is_confirmed_result r
          /\ appointments_csv w1 = appointments_csv w)).
Proof.
  unfold book_appointment, is_confirmed_result. intros Hbook _.
  destruct (get_availability w doctor_name date_iso) as [available | e].
  2: { inversion Hbook; subst. repeat split; trivial. right.
       split; [intros [? ?]; discriminate | reflexivity]. }
  destruct (negb (Py.mem_str time_24h available)).
  { inversion Hbook; subst. repeat split; trivial. right.
    split; [| reflexivity].
    intros [? Hr]. unfold slot_not_available, confirmed in Hr.
    discriminate. }
  destruct (Py.lookup "name" patient) as [name |].
  2: { inversion Hbook; subst. repeat split; trivial. right.
       split; [intros [? ?]; discriminate | reflexivity]. }
  destruct (Py.lookup "phone" patient) as [phone |].
  2: { inversion Hbook; subst. repeat split; trivial. right.
       split; [intros [? ?]; discriminate | reflexivity]. }
  cbv zeta in Hbook.
  destruct (save_appointment _ (tick (tick w))) as [e w3] eqn:Hsave.
  apply save_appointment_inv in Hsave as (Hd & Hs & _ & Hrows).
  change (appointments_csv (tick (tick w))) with (appointments_csv w) in Hrows.
  destruct e as [e |]; inversion Hbook; subst; repeat split; trivial.
  - destruct Hrows as [Hfile _]. right.
    split; [intros [? ?]; discriminate | exact Hfile].
  - destruct Hrows as (_ & _ & Hfile). left.
    split; [eexists; reflexivity |]. eexists. exact Hfile.
Qed.

Lemma slot_booked_key (w : World) (doctor_name date_iso time_24h : string) :
  slot_booked w doctor_name date_iso time_24h
  <-> In (doctor_name, date_iso, time_24h) (map slot_key (appointments_csv w)).
Proof.
  unfold slot_booked, slot_key. rewrite in_map_iff. split.
  - intros (a & Hin & <- & <- & <-). now exists a.
  - intros (a & [= <- <- <-] & Hin). now exists a.
Qed.

(** **** X9.  A booking of a doctor, a date and a time that read back as
    they were written keeps the stored appointments apart: if no two of
    them shared a doctor, a date and a time before, none do after,
    whatever the booking answers while the file stays readable. *)
Theorem booking_keeps_slots_apart (w w1 : World)
    (doctor_name date_iso time_24h : string) (patient : Py.dict JSON)
    (r : result JSON) :
  no_double_booking w ->
  reads_back doctor_name -> reads_back date_iso -> reads_back time_24h ->
  book_appointment now w doctor_name date_iso time_24h patient = (r, w1) ->
  r <> Raise StoreUnreadable ->
  no_double_booking w1.
Proof.
  unfold no_double_booking, reads_back. intros Hnd Hd Hdate Ht Hbook _.
  unfold book_appointment in Hbook.
  destruct (get_availability w doctor_name date_iso) as [available | e] eqn:Ha.
  2: { now inversion Hbook; subst. }
  destruct (Py.mem_str time_24h available) eqn:Hmem; cbn [negb] in Hbook.
  2: { now inversion Hbook; subst. }
  apply mem_str_In in Hmem.
  destruct (available_slot_inv _ _ _ _ _ Ha Hmem)
    as (_ & _ & _ & _ & _ & _ & _ & _ & Hfree).
  rewrite slot_booked_key in Hfree.
  destruct (Py.lookup "name" patient) as [name |].
  2: { now inversion Hbook; subst. }
  destruct (Py.lookup "phone" patient) as [phone |].
  2: { now inversion Hbook; subst. }
  cbv zeta in Hbook.
  destruct (save_appointment _ (tick (tick w))) as [e0 w3] eqn:Hsave.
  apply save_appointment_inv in Hsave as (_ & _ & _ & Hrows).
  change (appointments_csv (tick (tick w))) with (appointments_csv w) in Hrows.
  destruct e0 as [e0 |]; inversion Hbook; subst.
  - destruct Hrows as [Hfile _]. now rewrite Hfile.
  - destruct Hrows as (_ & _ & Hfile).
    rewrite Hfile, map_app. cbn [map]. unfold slot_key at 2, read_back.
    cbn [apt_doctor_name apt_date_iso apt_time_24h].
    rewrite Hd, Hdate, Ht.
    apply NoDup_app; [assumption | repeat constructor; intros [] |].
    intros k Hk [<- | []]. contradiction.
Qed.



End BookingFacts.

(* ================================================================== *)
(** ** assistant-tools-main.py: what a turn does to the session *)
(* ================================================================== *)

Lemma session_extends_refl (s : Session) : session_extends s s.
Proof. split; exists []; now rewrite app_nil_r. Qed.

Lemma session_extends_trans (s1 s2 s3 : Session) :
  session_extends s1 s2 -> session_extends s2 s3 -> session_extends s1 s3.
Proof.
  intros [[m1 Hm1] [e1 He1]] [[m2 Hm2] [e2 He2]]. split.
  - exists (m1 ++ m2). now rewrite Hm2, Hm1, app_assoc.
  - exists (e1 ++ e2). now rewrite He2, He1, app_assoc.
Qed.

Section WorldInvariant.
Context `{PyLib}.
Variable now : nat -> Z.
Variable call_llm : list Message -> result AssistantMsg.

(** A property of the store that reading the clock and booking keep. *)
Variable P : World -> Prop.
Hypothesis P_tick : forall w, P w -> P (tick w).
Hypothesis P_book :
  forall w w1 doctor_name date_iso time_24h patient r,
    P w ->
    book_appointment now w doctor_name date_iso time_24h patient = (r, w1) ->
    P w1.

Lemma book_appointment_value_keeps (w w1 : World)
    (doctor_name date_iso time_24h patient : JSON) (r : result JSON) :
  P w ->
  book_appointment_value now w doctor_name date_iso time_24h patient
  = (r, w1) ->
  P w1.
Proof.
  unfold book_appointment_value. intros HP Hbook.
  destruct doctor_name, date_iso, time_24h;
    try (destruct (get_availability_value w _ _);
         inversion Hbook; subst; assumption).
  destruct patient;
    try solve [ destruct (get_availability w s s0) as [available | e];
                [ destruct (negb (Py.mem_str s1 available)) |];
                inversion Hbook; subst; auto ].
  eapply P_book; eassumption.
Qed.

Lemma clinic_tool_keeps (tool_name : string) (args : JSON) (w w1 : World)
    (r : result JSON) :
  P w -> clinic_tool now tool_name args w = Some (r, w1) -> P w1.
Proof.
  unfold clinic_tool. intros HP Htool.
  destruct (String.eqb tool_name "find_doctors");
    [inversion Htool; subst; assumption |].
  destruct (String.eqb tool_name "get_availability");
    [inversion Htool; subst; assumption |].
  destruct (String.eqb tool_name "book_appointment").
  { destruct args; inversion Htool; subst; try assumption.
    eapply book_appointment_value_keeps; eassumption. }
  destruct (String.eqb tool_name "list_specialties");
    [inversion Htool; subst; assumption |].
  destruct (String.eqb tool_name "get_current_datetime"); [| discriminate].
  destruct (args_get args "timezone" (JStr "Asia/Kolkata")) as [tz | e];
    [| inversion Htool; subst; assumption].
  unfold get_current_datetime_value, get_current_datetime in Htool.
  destruct tz; try (inversion Htool; subst; assumption).
  destruct (zoneinfo s); inversion Htool; subst; auto.
Qed.

Lemma guarded_execute_tool_keeps (tool_name : string)
    (arguments_json : option string) (w w1 : World) (r : result JSON) :
  P w -> Guarded.execute_tool now tool_name arguments_json w = (r, w1) -> P w1.
Proof.
  unfold Guarded.execute_tool. intros HP Hexec.
  destruct (decode_arguments arguments_json) as [args | e];
    [| inversion Hexec; subst; assumption].
  destruct (clinic_tool now tool_name args w) as [[r0 w0] |] eqn:Htool.
  - inversion Hexec; subst. eapply clinic_tool_keeps; eassumption.
  - inversion Hexec; subst; assumption.
Qed.

Lemma guarded_dispatch_call_keeps (tc : ToolCall) (s : Session) :
  P (world s) ->
  P (world (flow_state (Guarded.dispatch_call now tc s)))
  /\ session_extends s (flow_state (Guarded.dispatch_call now tc s)).
Proof.
  intros HP.
  assert (Hrefl : session_extends s s).
  { split; exists []; now rewrite app_nil_r. }
  assert (Hexec : P (world (flow_state (Guarded.execute_and_report now tc s)))
                  /\ session_extends s
                       (flow_state (Guarded.execute_and_report now tc s))).
  { unfold Guarded.execute_and_report.
    destruct (Guarded.execute_tool now (tc_name tc) (tc_arguments tc)
                (world (log_event (ToolExecuted (tc_name tc) (tc_arguments tc)) s)))
      as [[result | e] w1] eqn:Hexec;
      pose proof (guarded_execute_tool_keeps _ _ _ _ _ HP Hexec) as HP1.
    - destruct (String.eqb (tc_name tc) "find_doctors"
                && Guarded.is_empty_list result); cbn; (split; [assumption |]).
      + split; [exists []; now rewrite app_nil_r | eexists; reflexivity].
      + split; eexists; reflexivity.
    - cbn. split; [assumption |].
      split; [exists []; now rewrite app_nil_r | eexists; reflexivity]. }
  unfold Guarded.dispatch_call.
  destruct (String.eqb (tc_name tc) "get_availability"); [| exact Hexec].
  destruct (Guarded.availability_guard tc (world s)) as [[|] | e];
    [exact Hexec | now split | now split].
Qed.

Lemma guarded_dispatch_calls_keeps (calls : list ToolCall) (s : Session) :
  P (world s) ->
  P (world (flow_state (Guarded.dispatch_calls now calls s)))
  /\ session_extends s (flow_state (Guarded.dispatch_calls now calls s)).
Proof.
  revert s. induction calls as [| tc calls IH]; intros s HP;
    cbn [Guarded.dispatch_calls].
  - split; [assumption | apply session_extends_refl].
  - destruct (guarded_dispatch_call_keeps tc s HP) as [HP1 Hext1].
    destruct (Guarded.dispatch_call now tc s) as [s1 | text s1 | e s1];
      cbn [flow_state] in *; try (split; assumption).
    destruct (IH s1 HP1) as [HP2 Hext2].
    split; [assumption | eapply session_extends_trans; eassumption].
Qed.

Lemma guarded_run_turn_keeps (rounds : nat) (s : Session) :
  P (world s) ->
  P (world (snd (Guarded.run_turn now call_llm rounds s)))
  /\ session_extends s (snd (Guarded.run_turn now call_llm rounds s)).
Proof.
  revert s. induction rounds as [| rounds IH]; intros s HP;
    cbn [Guarded.run_turn].
  - split; [assumption | apply session_extends_refl].
  - set (s1 := log_event (ModelRoundTrip (messages s)) s).
    assert (Hext1 : session_extends s s1).
    { split; [exists []; now rewrite app_nil_r | eexists; reflexivity]. }
    destruct (call_llm (messages s)) as [assistant_msg | e]; cbn [snd];
      [| now split].
    set (s2 := append_message (AssistantEntry assistant_msg) s1).
    assert (Hext2 : session_extends s s2).
    { eapply session_extends_trans; [exact Hext1 |].
      split; [eexists; reflexivity | exists []; now rewrite app_nil_r]. }
    destruct (msg_tool_calls assistant_msg) as [| tc calls] eqn:Hcalls;
      cbn [snd]; [now split |].
    destruct (guarded_dispatch_calls_keeps (tc :: calls) s2 HP)
      as [HP3 Hext3].
    destruct (Guarded.dispatch_calls now (tc :: calls) s2)
      as [s3 | text s3 | e s3]; cbn [flow_state snd] in *.
    + destruct (IH s3 HP3) as [HP4 Hext4]. split; [assumption |].
      eapply session_extends_trans; [exact Hext2 |].
      eapply session_extends_trans; eassumption.
    + split; [assumption | eapply session_extends_trans; eassumption].
    + split; [assumption | eapply session_extends_trans; eassumption].
Qed.

End WorldInvariant.

Section TurnFacts.
Context `{PyLib}.
Variable now : nat -> Z.
Variable call_llm : list Message -> result AssistantMsg.

(** **** X10.  [run_turn] only adds: the transcript and the stored
    appointments after the turn start with those before it, and the doctor
    and schedule files are the same, whether the turn ends with a reply or
    with an exception. *)
Theorem run_turn_only_appends (rounds : nat) (s : Session) :
  let s' := snd (Guarded.run_turn now call_llm rounds s) in
  (exists added, messages s' = messages s ++ added)
  /\ (exists booked,
        appointments_csv (world s') = appointments_csv (world s) ++ booked)
  /\ doctors_csv (world s') = doctors_csv (world s)
  /\ schedules_csv (world s') = schedules_csv (world s).
Proof.
  cbv zeta.
  pose (P := fun w =>
    doctors_csv w = doctors_csv (world s)
    /\ schedules_csv w = schedules_csv (world s)
    /\ exists booked,
         appointments_csv w = appointments_csv (world s) ++ booked).
  assert (Hstart : P (world s)).
  { repeat split. exists []. now rewrite app_nil_r. }
  assert (Htick : forall w, P w -> P (tick w)).
  { intros w (Hd & Hs & Ha). repeat split; assumption. }
  assert (Hbook : forall w w1 d date t p r, P w ->
            book_appointment now w d date t p = (r, w1) -> P w1).
  { intros w w1 d date t p r (Hd & Hs & [booked Ha]) Hbook.
    apply book_appointment_files in Hbook as (Hd1 & Hs1 & [more Ha1]).
    repeat split; try congruence.
    exists (booked ++ more). now rewrite Ha1, Ha, app_assoc. }
  pose proof (guarded_run_turn_keeps now call_llm P Htick Hbook rounds s
                Hstart) as [HP [Hm _]].
  destruct HP as (Hd & Hs & Ha). repeat split; assumption.
Qed.

End TurnFacts.

Section GuardFacts.
Context `{PyLib}.
Variable now : nat -> Z.
Variable call_llm : list Message -> result AssistantMsg.

Lemma find_doctors_ext (w w' : World) (specialty : string) :
  doctors_csv w' = doctors_csv w ->
  find_doctors w' specialty = find_doctors w specialty.
Proof. unfold find_doctors, load_doctors. now intros ->. Qed.

(** **** X11.  In a batch of tool calls, when the loop reaches a
    [find_doctors] call whose specialty no doctor record has, the search
    is executed and [run_turn] returns the canned reply at once: no tool
    message is appended for the search, no later call of the batch is
    executed, and the model is not asked again. *)
Theorem empty_search_short_circuits (s s' : Session)
    (assistant_msg : AssistantMsg) (before after : list ToolCall)
    (tc : ToolCall) (fields : Py.dict JSON) (specialty : string)
    (rounds : nat) :
  call_llm (messages s) = Ok assistant_msg ->
  msg_tool_calls assistant_msg = before ++ tc :: after ->
  Guarded.dispatch_calls now before
    (append_message (AssistantEntry assistant_msg)
       (log_event (ModelRoundTrip (messages s)) s)) = Next s' ->
  tc_name tc = "find_doctors" ->
  decode_arguments (tc_arguments tc) = Ok (JObj fields) ->
  Py.get "specialty" (JStr "") fields = JStr specialty ->
  find_doctors (world s) specialty = [] ->
  Guarded.run_turn now call_llm (S rounds) s
  = (Reply canned_reply, log_event (executed tc) s')
  /\ messages (log_event (executed tc) s') = messages s'
  /\ events (log_event (executed tc) s')
     = events s ++ ModelRoundTrip (messages s)
                   :: map executed before ++ [executed tc].
Proof.
  intros Hllm Hcalls Hbefore Hname Hargs Hget Hnone.
  pose proof (dispatch_calls_next now _ _ _ Hbefore) as [Hev Hdoc].
  cbn [append_message log_event world events] in Hev, Hdoc.
  split; [| split; [reflexivity |]].
  - rewrite (run_turn_batch now call_llm _ _ _ Hllm), Hcalls.
    2: { rewrite Hcalls. destruct before; discriminate. }
    rewrite dispatch_calls_app, Hbefore.
    cbn [Guarded.dispatch_calls].
    unfold Guarded.dispatch_call, executed. rewrite Hname.
    change (String.eqb "find_doctors" "get_availability") with false.
    unfold Guarded.execute_and_report. rewrite Hname.
    cbn [log_event world]. unfold Guarded.execute_tool. rewrite Hargs.
    unfold clinic_tool. change (String.eqb "find_doctors" "find_doctors")
      with true. cbn iota. unfold args_get. rewrite Hget.
    cbn [rbind find_doctors_value].
    rewrite (find_doctors_ext _ _ specialty Hdoc), Hnone.
    reflexivity.
  - cbn [log_event events]. rewrite Hev, <- !app_assoc. reflexivity.
Qed.

(** **** X12.  When every call of a batch is dispatched, the transcript
    grows by one tool message for each call, in the order of the calls,
    each with the correlation identifier of its call. *)
Theorem tool_messages_follow_calls (calls : list ToolCall) (s s' : Session) :
  Guarded.dispatch_calls now calls s = Next s' ->
  exists contents : list string,
    length contents = length calls
    /\ messages s' = messages s ++ map tool_message (combine calls contents).
Proof.
  revert s. induction calls as [| tc calls IH]; intros s;
    cbn [Guarded.dispatch_calls].
  - intros [= <-]. exists []. split; [reflexivity |].
    now rewrite app_nil_r.
  - destruct (Guarded.dispatch_call now tc s) as [s1 | |] eqn:Hcall;
      try discriminate.
    intros Hrest. destruct (IH _ Hrest) as (contents & Hlen & Hmsgs).
    assert (Hone : exists content,
              messages s1 = messages s ++ [ToolMsg (tc_id tc) content]).
    { unfold Guarded.dispatch_call in Hcall.
      assert (Hexec : Guarded.execute_and_report now tc s = Next s1).
      { destruct (String.eqb (tc_name tc) "get_availability");
          [| assumption].
        destruct (Guarded.availability_guard tc (world s)) as [[|] | e];
          try discriminate. assumption. }
      unfold Guarded.execute_and_report in Hexec.
      destruct (Guarded.execute_tool now (tc_name tc) (tc_arguments tc) _)
        as [[result | e] w1]; [| discriminate].
      destruct (String.eqb (tc_name tc) "find_doctors"
                && Guarded.is_empty_list result); [discriminate |].
      inversion Hexec. eexists. reflexivity. }
    destruct Hone as [content Hone].
    exists (content :: contents). split; [cbn; now rewrite Hlen |].
    rewrite Hmsgs, Hone, <- app_assoc. reflexivity.
Qed.

(** A turn that ends within some number of rounds ends the
    same way, with the same session, under any larger bound. *)
Theorem run_turn_stable (rounds more : nat) (s s' : Session) (t : Turn) :
  Guarded.run_turn now call_llm rounds s = (t, s') ->
  t <> StillRunning ->
  Guarded.run_turn now call_llm (rounds + more) s = (t, s').
Proof.
  revert s. induction rounds as [| rounds IH]; intros s;
    cbn [Guarded.run_turn Nat.add].
  - intros [= <- <-] Hne. congruence.
  - destruct (call_llm (messages s)) as [assistant_msg | e]; [| trivial].
    destruct (msg_tool_calls assistant_msg) as [| tc calls]; [trivial |].
    destruct (Guarded.dispatch_calls now (tc :: calls) _) as [s3 | |];
      [apply IH | trivial | trivial].
Qed.

(** **** X13.  The guard decodes the arguments of a [get_availability]
    call itself, without the default that [execute_tool] has: when the
    call has no argument string, or one that is not JSON, the turn ends
    with [TypeError] or [JSONDecodeError], and the tool is not executed. *)
Theorem guard_raises_on_missing_arguments (s s' : Session)
    (assistant_msg : AssistantMsg) (before after : list ToolCall)
    (tc : ToolCall) (rounds : nat) :
  call_llm (messages s) = Ok assistant_msg ->
  msg_tool_calls assistant_msg = before ++ tc :: after ->
  Guarded.dispatch_calls now before
    (append_message (AssistantEntry assistant_msg)
       (log_event (ModelRoundTrip (messages s)) s)) = Next s' ->
  tc_name tc = "get_availability" ->
  (tc_arguments tc = None ->
   Guarded.run_turn now call_llm (S rounds) s = (Crash TypeError, s'))
  /\ (forall a, tc_arguments tc = Some a -> json_loads a = None ->
      Guarded.run_turn now call_llm (S rounds) s
      = (Crash JSONDecodeError, s')).
Proof.
  intros Hllm Hcalls Hbefore Hname.
  assert (Hturn : Guarded.run_turn now call_llm (S rounds) s
                  = match Guarded.dispatch_calls now (tc :: after) s' with
                    | Next s3 => Guarded.run_turn now call_llm rounds s3
                    | Return text s3 => (Reply text, s3)
                    | Throw e s3 => (Crash e, s3)
                    end).
  { rewrite (run_turn_batch now call_llm _ _ _ Hllm), Hcalls.
    2: { rewrite Hcalls. destruct before; discriminate. }
    now rewrite dispatch_calls_app, Hbefore. }
  rewrite Hturn. cbn [Guarded.dispatch_calls].
  unfold Guarded.dispatch_call, Guarded.availability_guard.
  rewrite Hname. change (String.eqb "get_availability" "get_availability")
    with true. cbn iota. split.
  - intros ->. reflexivity.
  - intros a -> ->. reflexivity.
Qed.

End GuardFacts.

(* ================================================================== *)
(** ** assistant-tools-state-main.py: turns and the state *)
(* ================================================================== *)

Section StatefulFacts.
Context `{PyLib}.
Variable now : nat -> Z.
Variable call_llm : list Message -> result AssistantMsg.

Lemma stateful_dispatch_calls_no_return (calls : list ToolCall)
    (st st' : Py.dict JSON * Session) (text : string) :
  Stateful.dispatch_calls now calls st <> Return text st'.
Proof.
  revert st. induction calls as [| tc calls IH]; intros st;
    cbn [Stateful.dispatch_calls]; [discriminate |].
  destruct (Stateful.dispatch_call now tc st) as [st1 | text1 st1 | e st1]
    eqn:Hcall; [apply IH | | discriminate].
  unfold Stateful.dispatch_call in Hcall. destruct st as [state s].
  destruct (Stateful.execute_tool now (tc_name tc) (tc_arguments tc) state _)
    as [[[result | e] state1] w1]; discriminate.
Qed.

(** **** X14.  The orchestrator with a state has no guard: a reply of
    [run_turn] is always the text of an assistant message that asked for
    no tool (the empty text when it has none), and that message is the
    last entry of the transcript. *)
Theorem stateful_reply_is_model_text (rounds : nat)
    (st st' : Py.dict JSON * Session) (text : string) :
  Stateful.run_turn now call_llm rounds st = (Reply text, st') ->
  exists sent assistant_msg,
    call_llm sent = Ok assistant_msg
    /\ msg_tool_calls assistant_msg = []
    /\ text = content_or_empty assistant_msg
    /\ messages (snd st') = sent ++ [AssistantEntry assistant_msg].
Proof.
  revert st. induction rounds as [| rounds IH]; intros [state s];
    cbn [Stateful.run_turn]; [discriminate |].
  destruct (call_llm (messages s)) as [assistant_msg | e] eqn:Hllm;
    [| discriminate].
  destruct (msg_tool_calls assistant_msg) as [| tc calls] eqn:Hcalls.
  - intros [= <- <-]. exists (messages s), assistant_msg.
    repeat split; trivial.
  - destruct (Stateful.dispatch_calls now (tc :: calls) _)
      as [st3 | text3 st3 | e st3] eqn:Hdispatch.
    + apply IH.
    + now apply stateful_dispatch_calls_no_return in Hdispatch.
    + discriminate.
Qed.

(** **** X15.  [update_state] with a payload object: the state keeps its
    keys, in their order; a key of the state that the payload names takes
    the payload's value, [null] included; every other key of the state
    keeps its value; a key the state does not have is not added; the store
    is not touched. *)
Theorem update_state_merges (a : option string)
    (updates state : Py.dict JSON) (w : World) :
  decode_arguments a = Ok (JObj updates) ->
  NoDup (Py.keys updates) ->
  exists ack state',
    Stateful.execute_tool now "update_state" a state w = (Ok ack, state', w)
    /\ Py.keys state' = Py.keys state
    /\ forall k,
         Py.lookup k state'
         = match Py.lookup k updates with
           | Some v => if Py.mem k state then Some v else None
           | None => Py.lookup k state
           end.
Proof.
  intros Hdec Hnd. do 2 eexists.
  split; [apply execute_update_state; eassumption |].
  split; [apply apply_updates_keys |].
  intros k. now apply apply_updates_lookup.
Qed.

(** **** X16.  The snapshot after a merge: for each field the state has,
    the line shows the payload's value where the payload names the field
    ([None] for [null]) and what it showed before elsewhere; a payload
    that names no field of the state leaves the whole snapshot as it
    was. *)
Theorem snapshot_after_merge (updates state : Py.dict JSON) :
  NoDup (Py.keys updates) ->
  (forall k, Py.mem k state = true ->
     Snapshot.shown (Stateful.apply_updates updates state) k
     = match Py.lookup k updates with
       | Some v => Snapshot.formatted (Some v)
       | None => Snapshot.shown state k
       end)
  /\ ((forall k, In k (Py.keys updates) -> Py.mem k state = false) ->
      Snapshot.state_snapshot (Stateful.apply_updates updates state)
      = Snapshot.state_snapshot state).
Proof.
  intros Hnd. split.
  - intros k Hmem. unfold Snapshot.shown.
    rewrite (apply_updates_lookup updates state k Hnd), Hmem.
    now destruct (Py.lookup k updates) as [v |].
  - intros Hforeign.
    assert (Hsame : forall k, Snapshot.shown
                                (Stateful.apply_updates updates state) k
                              = Snapshot.shown state k).
    { intros k. unfold Snapshot.shown.
      rewrite (apply_updates_lookup updates state k Hnd).
      destruct (Py.lookup k updates) as [v |] eqn:Hk; [| reflexivity].
      assert (Hin : In k (Py.keys updates)).
      { clear - Hk. unfold Py.keys.
        induction updates as [| [k0 v0] updates IH]; simpl in *;
          [discriminate |].
        destruct (String.eqb k k0) eqn:E.
        - apply String.eqb_eq in E. now left.
        - right. now apply IH. }
      pose proof (Hforeign k Hin) as Hmem. rewrite Hmem.
      unfold Py.mem in Hmem. now destruct (Py.lookup k state). }
    assert (Hlines : map (Snapshot.field_line
                            (Stateful.apply_updates updates state))
                         Snapshot.fields
                     = map (Snapshot.field_line state) Snapshot.fields).
    { apply map_ext. intros k. unfold Snapshot.field_line.
      now rewrite Hsame. }
    unfold Snapshot.state_snapshot. now rewrite Hlines.
Qed.

End StatefulFacts.

(* ================================================================== *)
(** ** assistant-tools-main.py: the session loop *)
(* ================================================================== *)

Section MainFacts.
Context `{PyLib}.
Variable now : nat -> Z.
Variable call_llm : list Message -> result AssistantMsg.
Variable SYSTEM_PROMPT : string.
Variable rounds : nat.

(** **** X17.  A line that is [exit] or [quit] once stripped and
    lower-cased ends the session with the farewell and without a turn:
    the session is left as it was, and the lines after it are never
    read. *)
Theorem main_stops_at_exit (before after : list string) (line : string)
    (s : Session) (printed : list GuardedMain.Printed) :
  GuardedMain.is_exit (Py.strip line) = true ->
  GuardedMain.loop now call_llm rounds (line :: after) s printed
  = (GuardedMain.SaidGoodbye, s, printed ++ [GuardedMain.Farewell])
  /\ GuardedMain.loop now call_llm rounds (before ++ line :: after) s printed
     = GuardedMain.loop now call_llm rounds (before ++ [line]) s printed.
Proof.
  intros Hexit. split.
  - cbn [GuardedMain.loop]. now rewrite Hexit.
  - revert s printed. induction before as [| l before IH]; intros s printed;
      cbn [app GuardedMain.loop].
    + now rewrite Hexit.
    + destruct (GuardedMain.is_exit (Py.strip l)); [reflexivity |].
      destruct (Guarded.run_turn now call_llm rounds _) as [[reply | e |] s2];
        [apply IH | reflexivity | reflexivity].
Qed.

(** **** X18.  [main] catches the transport error only.  When the model
    answers a user line with a tool call whose argument text is not JSON,
    the [JSONDecodeError] leaves [main]: nothing is printed for the turn,
    no apology, no farewell, and no further line is read. *)
Theorem main_does_not_catch_decode_error (line : string) (rest : list string)
    (s : Session) (printed : list GuardedMain.Printed)
    (assistant_msg : AssistantMsg) (tc : ToolCall) (after : list ToolCall)
    (a : string) (turns : nat) :
  rounds = S turns ->
  GuardedMain.is_exit (Py.strip line) = false ->
  call_llm (messages s ++ [UserMsg (Py.strip line)]) = Ok assistant_msg ->
  msg_tool_calls assistant_msg = tc :: after ->
  tc_arguments tc = Some a ->
  a <> "" ->
  json_loads a = None ->
  exists s',
    GuardedMain.loop now call_llm rounds (line :: rest) s printed
    = (GuardedMain.Uncaught JSONDecodeError, s', printed)
    /\ world s' = world s.
Proof.
  intros -> Hexit Hllm Hcalls Hargs Hne Hjson.
  cbn [GuardedMain.loop]. rewrite Hexit.
  rewrite (run_turn_batch now call_llm
             (append_message (UserMsg (Py.strip line)) s) _ _ Hllm)
    by (rewrite Hcalls; discriminate).
  rewrite Hcalls. cbn [Guarded.dispatch_calls].
  assert (Hdec : decode_arguments (tc_arguments tc) = Raise JSONDecodeError).
  { rewrite Hargs. unfold decode_arguments.
    apply String.eqb_neq in Hne. now rewrite Hne, Hjson. }
  unfold Guarded.dispatch_call.
  destruct (String.eqb (tc_name tc) "get_availability").
  - unfold Guarded.availability_guard. rewrite Hargs, Hjson.
    eexists. split; reflexivity.
  - unfold Guarded.execute_and_report, Guarded.execute_tool.
    rewrite Hdec. eexists. split; reflexivity.
Qed.

End MainFacts.

(* ================================================================== *)
(** ** tools.py: the in-memory clinic *)
(* ================================================================== *)

Lemma appointment_id_injective (n m : Z) :
  (0 <= n)%Z -> (0 <= m)%Z ->
  InMemory.appointment_id n = InMemory.appointment_id m -> n = m.
Proof.
  unfold InMemory.appointment_id. intros Hn Hm Heq.
  apply str_app_inv_head in Heq.
  apply (f_equal (fun s => digits_value s 0)) in Heq.
  now rewrite !digits_value_dec_pad in Heq by assumption.
Qed.

Lemma NoDup_map_injective {A B : Type} (f : A -> B) (l : list A) :
  (forall x y, f x = f y -> x = y) -> NoDup l -> NoDup (map f l).
Proof.
  intros Hinj. induction 1 as [| x l Hfresh Hnd IH]; cbn [map];
    constructor; [| assumption].
  intros Hin. apply in_map_iff in Hin as (y & Heq & Hy).
  apply Hinj in Heq. now subst.
Qed.

Lemma book_appointment_numbers (st : InMemory.Store)
    (doctor_name date_iso time_24h : string) (patient : JSON) :
  InMemory.numbered st ->
  InMemory.numbered
    (snd (InMemory.book_appointment st doctor_name date_iso time_24h patient)).
Proof.
  unfold InMemory.numbered, InMemory.book_appointment. intros Hnum.
  destruct (negb (Py.mem_str time_24h
                    (Py.get (InMemory.key doctor_name date_iso) []
                       (InMemory.AVAILABILITY st)))); cbn [snd];
    [assumption |].
  cbn [InMemory.APPOINTMENTS]. rewrite map_app, length_app. cbn [map length].
  rewrite Nat.add_1_r, seq_S, map_app, Hnum. cbn [map InMemory.id].
  do 3 f_equal. lia.
Qed.

(** **** X19.  In the in-memory clinic the identifiers never repeat: from
    the tables as the module creates them, or from any store whose
    appointments are numbered [APT-0001], [APT-0002], ... in order, every
    run of booking requests leaves the appointments numbered that way,
    hence with identifiers that are pairwise different. *)
Theorem in_memory_identifiers_unique (requests : list InMemory.Request)
    (st : InMemory.Store) :
  InMemory.numbered st ->
  InMemory.numbered (InMemory.serve requests st)
  /\ NoDup (map InMemory.id
              (InMemory.APPOINTMENTS (InMemory.serve requests st))).
Proof.
  intros Hnum.
  assert (Hafter : InMemory.numbered (InMemory.serve requests st)).
  { revert st Hnum. induction requests as [| r requests IH]; intros st Hnum;
      cbn [InMemory.serve]; [assumption |].
    apply IH. now apply book_appointment_numbers. }
  split; [assumption |]. unfold InMemory.numbered in Hafter. rewrite Hafter.
  apply NoDup_map_injective; [| apply seq_NoDup].
  intros i j Heq. apply appointment_id_injective in Heq; lia.
Qed.

Lemma in_memory_identifiers_unique_witness :
  InMemory.numbered
    (InMemory.serve
       [ {| InMemory.req_doctor := "Dr X"; InMemory.req_date := "2025-12-23";
            InMemory.req_time := "10:00"; InMemory.req_patient := JNull |};
         {| InMemory.req_doctor := "Dr Y"; InMemory.req_date := "2025-12-23";
            InMemory.req_time := "12:00"; InMemory.req_patient := JNull |} ]
       InMemory.initial)
  /\ NoDup
       (map InMemory.id
          (InMemory.APPOINTMENTS
             (InMemory.serve
                [ {| InMemory.req_doctor := "Dr X";
                     InMemory.req_date := "2025-12-23";
                     InMemory.req_time := "10:00";
                     InMemory.req_patient := JNull |};
                  {| InMemory.req_doctor := "Dr Y";
                     InMemory.req_date := "2025-12-23";
                     InMemory.req_time := "12:00";
                     InMemory.req_patient := JNull |} ]
                InMemory.initial))).
Proof.
  apply (in_memory_identifiers_unique _ InMemory.initial). reflexivity.
Defined.

(** **** X20.  In the in-memory clinic a confirmed booking takes the
    first occurrence of the time out of the list stored under the key of
    the doctor and the date, appends one appointment, and leaves the list
    of every other key as it was; a refused booking changes nothing. *)
Theorem in_memory_booking_frame (st : InMemory.Store)
    (doctor_name date_iso time_24h : string) (patient : JSON) :
  let slots := InMemory.get_availability st doctor_name date_iso in
  let st' :=
    snd (InMemory.book_appointment st doctor_name date_iso time_24h patient) in
  (In time_24h slots ->
   InMemory.get_availability st' doctor_name date_iso
   = InMemory.remove_first time_24h slots
   /\ length (InMemory.APPOINTMENTS st')
      = S (length (InMemory.APPOINTMENTS st))
   /\ forall doctor_name' date_iso',
        InMemory.key doctor_name' date_iso'
        <> InMemory.key doctor_name date_iso ->
        InMemory.get_availability st' doctor_name' date_iso'
        = InMemory.get_availability st doctor_name' date_iso')
  /\ (~ In time_24h slots ->
      InMemory.book_appointment st doctor_name date_iso time_24h patient
      = (InMemory.failed doctor_name date_iso time_24h, st)).
Proof.
  cbv zeta. unfold InMemory.book_appointment, InMemory.get_availability.
  split.
  - intros Hin. apply mem_str_In in Hin. rewrite Hin. cbn [negb snd].
    cbn [InMemory.AVAILABILITY InMemory.APPOINTMENTS].
    unfold Py.get. split; [| split].
    + now rewrite dict_lookup_set, String.eqb_refl.
    + rewrite length_app. cbn [length]. lia.
    + intros d' date' Hkey. rewrite dict_lookup_set.
      apply String.eqb_neq in Hkey. now rewrite Hkey.
  - intros Hnot. apply mem_str_false in Hnot. now rewrite Hnot.
Qed.

(* ================================================================== *)
(** ** The properties above, on the clinic of the examples *)
(* ================================================================== *)

Lemma unknown_day_disables_schedule_witness :
  exists bad,
    Py.lookup bad WEEKDAY_MAP = None
    /\ load_schedules Samples.misspelt_day = Raise (KeyError bad)
    /\ (forall doctor_name date_iso,
          get_availability (H := Reference.lib) Samples.misspelt_day
            doctor_name date_iso = Raise (KeyError bad))
    /\ (forall doctor_name date_iso time_24h patient,
          book_appointment (H := Reference.lib) Demo.ticking
            Samples.misspelt_day doctor_name date_iso time_24h patient
          = (Raise (KeyError bad), Samples.misspelt_day)).
Proof.
  apply (@unknown_day_disables_schedule Reference.lib Demo.ticking
           Samples.misspelt_day
           {| row_doctor_name := "Dr A"; row_working_days := "Mon Tues";
              row_slots := "16:00" |} "Tues").
  - do 2 right. left. reflexivity.
  - right. left. reflexivity.
  - reflexivity.
Defined.

Lemma load_schedules_last_row_wins_witness :
  NoDup (Py.keys
       [("Dr X", {| working_days := [5]; slots := ["08:00"; "08:30"] |});
        ("Dr Y", {| working_days := [3; 4]; slots := ["09:00"; "09:30"] |})])
  /\ (forall d,
        In d (Py.keys
          [("Dr X", {| working_days := [5]; slots := ["08:00"; "08:30"] |});
           ("Dr Y", {| working_days := [3; 4];
                       slots := ["09:00"; "09:30"] |})])
        <-> In d (map row_doctor_name (schedules_csv Samples.rescheduled)))
  /\ (forall before row after,
        schedules_csv Samples.rescheduled = before ++ row :: after ->
        (forall r, In r after -> row_doctor_name r <> row_doctor_name row) ->
        exists days,
          weekday_numbers (Py.split_ws (row_working_days row)) = Ok days
          /\ Py.lookup (row_doctor_name row)
               [("Dr X", {| working_days := [5];
                            slots := ["08:00"; "08:30"] |});
                ("Dr Y", {| working_days := [3; 4];
                            slots := ["09:00"; "09:30"] |})]
             = Some {| working_days := days;
                       slots := Py.split_on "|" (row_slots row) |}).
Proof.
  apply (load_schedules_last_row_wins Samples.rescheduled). reflexivity.
Defined.

Lemma booking_succeeds_iff_witness :
  is_confirmed_result
    (fst (book_appointment (H := Reference.lib) Demo.ticking Demo.clinic
            "Dr X" "2025-12-23" "10:00" Demo.patient))
  <-> (exists available,
         get_availability (H := Reference.lib) Demo.clinic "Dr X" "2025-12-23"
         = Ok available
         /\ In "10:00" available)
      /\ forallb (@csv_writable Reference.lib)
           (row_cells
              (@written_row Reference.lib Demo.ticking Demo.clinic
                 "Dr X" "2025-12-23" "10:00" (JStr "Ravi") (JStr "555-0101")))
         = true.
Proof.
  apply (@booking_succeeds_iff Reference.lib Demo.ticking Demo.clinic
           "Dr X" "2025-12-23" "10:00" Demo.patient
           (JStr "Ravi") (JStr "555-0101"));
    vm_compute; reflexivity.
Defined.


(** A booking that confirms: one row more. *)
Lemma booking_persists_only_when_confirmed_witness :
  let out :=
    book_appointment (H := Reference.lib) Demo.ticking Demo.clinic
      "Dr X" "2025-12-23" "10:00" Demo.patient in
  is_confirmed_result (fst out)
  /\ doctors_csv (snd out) = doctors_csv Demo.clinic
  /\ schedules_csv (snd out) = schedules_csv Demo.clinic
  /\ ((is_confirmed_result (fst out)
       /\ exists a, appointments_csv (snd out)
                    = appointments_csv Demo.clinic ++ [a])
      \/ (~ is_confirmed_result (fst out)
          /\ appointments_csv (snd out) = appointments_csv Demo.clinic)).
Proof.
  cbv zeta. split; [eexists; vm_compute; reflexivity |].
  apply (@booking_persists_only_when_confirmed Reference.lib Demo.ticking
           Demo.clinic _ "Dr X" "2025-12-23" "10:00" Demo.patient _).
  - apply surjective_pairing.
  - vm_compute. discriminate.
Defined.

Lemma booking_keeps_slots_apart_witness :
  no_double_booking
    (snd (book_appointment (H := Reference.lib) Demo.ticking Demo.clinic
            "Dr X" "2025-12-23" "10:00" Demo.patient)).
Proof.
  eapply (@booking_keeps_slots_apart Reference.lib Demo.ticking Demo.clinic _
           "Dr X" "2025-12-23" "10:00" Demo.patient _).
  - unfold no_double_booking. cbn. repeat constructor. intros [].
  - reflexivity.
  - reflexivity.
  - reflexivity.
  - apply surjective_pairing.
  - vm_compute. discriminate.
Defined.



(** The model books the same slot twice in one batch: one record is
    stored, and the second call is answered with the failure. *)
Example eager_model_books_once :
  let outcome := Guarded.run_turn (H := Reference.lib) Demo.ticking
                   Samples.eager_model 3 Demo.session in
  fst outcome = Reply "Booked."
  /\ map slot_key (appointments_csv (world (snd outcome)))
     = [("Dr X", "2025-12-23", "11:00"); ("Dr X", "2025-12-23", "10:00")].
Proof. split; reflexivity. Qed.

Lemma empty_search_short_circuits_witness :
  exists s',
    Guarded.run_turn (H := Reference.lib) Demo.ticking Samples.dentist_model 3
      Demo.session
    = (Reply canned_reply, log_event (executed Samples.dentist_search) s')
    /\ messages (log_event (executed Samples.dentist_search) s') = messages s'
    /\ events (log_event (executed Samples.dentist_search) s')
       = [ModelRoundTrip (messages Demo.session);
          executed Samples.dentist_search].
Proof.
  eexists.
  eapply (@empty_search_short_circuits Reference.lib Demo.ticking
            Samples.dentist_model Demo.session _ _ [] [Demo.later_call]
            Samples.dentist_search _ "Dentistry" 2);
    reflexivity.
Defined.

Lemma tool_messages_follow_calls_witness :
  exists contents : list string,
    length contents = 2
    /\ messages
         (flow_state
            (Guarded.dispatch_calls (H := Reference.lib) Demo.ticking
               [Demo.search_call; Demo.later_call] Demo.session))
       = messages Demo.session
         ++ map tool_message
              (combine [Demo.search_call; Demo.later_call] contents).
Proof.
  apply (@tool_messages_follow_calls Reference.lib Demo.ticking
           [Demo.search_call; Demo.later_call] Demo.session).
  reflexivity.
Defined.

Lemma run_turn_stable_witness :
  exists t s',
    Guarded.run_turn (H := Reference.lib) Demo.ticking Samples.eager_model
      2 Demo.session = (t, s')
    /\ t = Reply "Booked."
    /\ Guarded.run_turn (H := Reference.lib) Demo.ticking Samples.eager_model
         (2 + 5) Demo.session = (t, s').
Proof.
  do 2 eexists. split; [vm_compute; reflexivity |]. split; [reflexivity |].
  apply (@run_turn_stable Reference.lib Demo.ticking Samples.eager_model
           2 5 Demo.session).
  - vm_compute. reflexivity.
  - discriminate.
Defined.

Lemma guard_raises_on_missing_arguments_witness :
  Guarded.run_turn (H := Reference.lib) Demo.ticking Samples.bare_model 3
    Demo.session
  = (Crash TypeError,
     append_message
       (AssistantEntry {| msg_content := None;
                          msg_tool_calls := [Samples.bare_lookup] |})
       (log_event (ModelRoundTrip (messages Demo.session)) Demo.session)).
Proof.
  apply (proj1 (@guard_raises_on_missing_arguments Reference.lib Demo.ticking
                  Samples.bare_model Demo.session _ _ [] []
                  Samples.bare_lookup 2 eq_refl eq_refl eq_refl eq_refl)).
  reflexivity.
Defined.

Lemma stateful_reply_is_model_text_witness :
  exists sent assistant_msg,
    Samples.polite sent = Ok assistant_msg
    /\ msg_tool_calls assistant_msg = []
    /\ "How can I help you?" = content_or_empty assistant_msg
    /\ messages
         (snd (snd (Stateful.run_turn (H := Reference.lib) Demo.ticking
                      Samples.polite 1
                      (Stateful.initial_state, Demo.session))))
       = sent ++ [AssistantEntry assistant_msg].
Proof.
  apply (@stateful_reply_is_model_text Reference.lib Demo.ticking
           Samples.polite 1 (Stateful.initial_state, Demo.session)).
  reflexivity.
Defined.

Lemma update_state_merges_witness :
  exists ack state',
    Stateful.execute_tool (H := Reference.lib) Demo.ticking "update_state"
      (Some (Reference.q
         ("{'doctor_name': 'Dr X', 'patient_age': null,"
          ++ " 'favourite_colour': 'red'}")))
      Stateful.initial_state Demo.clinic
    = (Ok ack, state', Demo.clinic)
    /\ Py.keys state' = Py.keys Stateful.initial_state
    /\ forall k,
         Py.lookup k state'
         = match Py.lookup k Samples.state_payload with
           | Some v => if Py.mem k Stateful.initial_state then Some v else None
           | None => Py.lookup k Stateful.initial_state
           end.
Proof.
  apply (@update_state_merges Reference.lib Demo.ticking).
  - reflexivity.
  - cbn. repeat constructor; cbn; intuition discriminate.
Defined.

Lemma snapshot_after_merge_witness :
  (forall k, Py.mem k Stateful.initial_state = true ->
     Snapshot.shown (H := Reference.lib)
       (Stateful.apply_updates Samples.state_payload Stateful.initial_state) k
     = match Py.lookup k Samples.state_payload with
       | Some v => Snapshot.formatted (H := Reference.lib) (Some v)
       | None => Snapshot.shown (H := Reference.lib) Stateful.initial_state k
       end)
  /\ ((forall k, In k (Py.keys Samples.state_payload) ->
                 Py.mem k Stateful.initial_state = false) ->
      Snapshot.state_snapshot (H := Reference.lib)
        (Stateful.apply_updates Samples.state_payload Stateful.initial_state)
      = Snapshot.state_snapshot (H := Reference.lib) Stateful.initial_state).
Proof.
  apply (@snapshot_after_merge Reference.lib).
  cbn. repeat constructor; cbn; intuition discriminate.
Defined.

Example snapshot_sample :
  Snapshot.state_snapshot (H := Reference.lib)
    (Stateful.apply_updates Samples.state_payload Stateful.initial_state)
  = ("CURRENT BOOKING STATE (authoritative):" ++ nl
     ++ "- patient_name: None" ++ nl
     ++ "- patient_age: None" ++ nl
     ++ "- patient_phone: None" ++ nl
     ++ "- specialty: None" ++ nl
     ++ "- doctor_name: Dr X" ++ nl
     ++ "- date_iso: None" ++ nl
     ++ "- time_24h: None" ++ nl
     ++ "Use this state to resolve pronouns like he/him/that." ++ nl
     ++ "If a field is missing, ask for it or call tools as needed." ++ nl
     ++ "Use this only for reasoning. Never repeat it verbatim." ++ nl)%string.
Proof. reflexivity. Qed.

Lemma main_stops_at_exit_witness :
  GuardedMain.loop (H := Reference.lib) Demo.ticking Samples.polite 3
    ["  QUIT "; "hello"] Demo.session [GuardedMain.Welcome]
  = (GuardedMain.SaidGoodbye, Demo.session,
     [GuardedMain.Welcome] ++ [GuardedMain.Farewell])
  /\ GuardedMain.loop (H := Reference.lib) Demo.ticking Samples.polite 3
       (["hello"] ++ "  QUIT " :: ["hello"]) Demo.session [GuardedMain.Welcome]
     = GuardedMain.loop (H := Reference.lib) Demo.ticking Samples.polite 3
         (["hello"] ++ ["  QUIT "]) Demo.session [GuardedMain.Welcome].
Proof.
  apply (@main_stops_at_exit Reference.lib Demo.ticking Samples.polite 3
           ["hello"] ["hello"] "  QUIT " Demo.session [GuardedMain.Welcome]).
  reflexivity.
Defined.

Lemma main_does_not_catch_decode_error_witness :
  exists s',
    GuardedMain.loop (H := Reference.lib) Demo.ticking Demo.careless_model 3
      ["Any orthopedic doctor?"; "exit"] Demo.session [GuardedMain.Welcome]
    = (GuardedMain.Uncaught JSONDecodeError, s', [GuardedMain.Welcome])
    /\ world s' = world Demo.session.
Proof.
  eapply (@main_does_not_catch_decode_error Reference.lib Demo.ticking
            Demo.careless_model 3 "Any orthopedic doctor?" ["exit"]
            Demo.session [GuardedMain.Welcome] _ Demo.cut_short [] "{" 2);
    try reflexivity.
  discriminate.
Defined.

Example main_sample :
  GuardedMain.main (H := Reference.lib) Demo.ticking Samples.polite
    "You are the assistant of Super Clinic." 3 Demo.clinic
    ["hello"; "Exit"; "more"]
  = (GuardedMain.SaidGoodbye,
     {| world := Demo.clinic;
        messages :=
          [SystemMsg "You are the assistant of Super Clinic.";
           SystemMsg ("Available specialties in Super Clinic (from DB): "
                      ++ "General Medicine, Orthopedics");
           UserMsg "hello";
           AssistantEntry {| msg_content := Some "How can I help you?";
                             msg_tool_calls := [] |}];
        events :=
          [ModelRoundTrip
             [SystemMsg "You are the assistant of Super Clinic.";
              SystemMsg ("Available specialties in Super Clinic (from DB): "
                         ++ "General Medicine, Orthopedics");
              UserMsg "hello"]] |},
     [GuardedMain.Welcome; GuardedMain.AssistantLine "How can I help you?";
      GuardedMain.Farewell]).
Proof. reflexivity. Qed.

(* ================================================================== *)
(** ** The guard and the doctor search agree *)
(* ================================================================== *)

(** **** X21.  A doctor that [find_doctors] returned passes the guard: an
    availability lookup whose [doctor_name] is the name of a record found
    by a search, as the tool's description asks, is never answered with
    the canned reply. *)
Theorem found_doctor_passes_guard `{PyLib} (w : World) (specialty : string)
    (d : Doctor) (tc : ToolCall) (a : string) (fields : Py.dict JSON) :
  In d (find_doctors w specialty) ->
  tc_arguments tc = Some a ->
  json_loads a = Some (JObj fields) ->
  Py.get "doctor_name" (JStr "") fields = JStr (doc_doctor_name d) ->
  doctor_exists w (doc_doctor_name d) = true
  /\ Guarded.availability_guard tc w = Ok true.
Proof.
  intros Hfound Hargs Hjson Hget.
  apply find_doctors_In in Hfound as [Hin _].
  assert (Hexists : doctor_exists w (doc_doctor_name d) = true).
  { unfold doctor_exists, load_doctors. apply existsb_exists.
    exists d. split; [assumption | apply String.eqb_refl]. }
  split; [exact Hexists |].
  unfold Guarded.availability_guard. rewrite Hargs, Hjson.
  cbn [args_get rbind]. rewrite Hget. unfold doctor_exists_value, load_doctors.
  destruct (doctors_csv w); [contradiction | now rewrite Hexists].
Qed.

Lemma found_doctor_passes_guard_witness :
  doctor_exists Demo.clinic "Dr X" = true
  /\ Guarded.availability_guard (H := Reference.lib) Demo.later_call
       Demo.clinic = Ok true.
Proof.
  eapply (@found_doctor_passes_guard Reference.lib Demo.clinic "orthopedics"
            {| doc_doctor_name := "Dr X"; doc_specialty := "Orthopedics" |}
            Demo.later_call);
    [left; reflexivity | reflexivity ..].
Defined.

(* ================================================================== *)
(** ** assistant-tools-state-main.py: what a turn keeps *)
(* ================================================================== *)

Section StatefulInvariants.
Context `{PyLib}.
Variable now : nat -> Z.
Variable call_llm : list Message -> result AssistantMsg.

Lemma kept_refl (st : Py.dict JSON * Session) : kept st st.
Proof.
  unfold kept. repeat split; trivial. exists []. now rewrite app_nil_r.
Qed.

Lemma kept_trans (st1 st2 st3 : Py.dict JSON * Session) :
  kept st1 st2 -> kept st2 st3 -> kept st1 st3.
Proof.
  unfold kept. intros (Hk & Hd & Hs & [b Hb]) (Hk' & Hd' & Hs' & [b' Hb']).
  repeat split; try congruence.
  exists (b ++ b'). now rewrite Hb', Hb, app_assoc.
Qed.

Lemma stateful_execute_tool_kept (tool_name : string)
    (arguments_json : option string) (state state' : Py.dict JSON)
    (w w' : World) (r : result JSON) :
  Stateful.execute_tool now tool_name arguments_json state w
  = (r, state', w') ->
  Py.keys state' = Py.keys state
  /\ doctors_csv w' = doctors_csv w
  /\ schedules_csv w' = schedules_csv w
  /\ exists booked, appointments_csv w' = appointments_csv w ++ booked.
Proof.
  unfold Stateful.execute_tool. intros Hexec.
  assert (Hnone : exists booked : list Appointment,
            appointments_csv w = appointments_csv w ++ booked)
    by (exists []; now rewrite app_nil_r).
  destruct (decode_arguments arguments_json) as [args | e].
  2: { inversion Hexec; subst. repeat split; trivial. }
  destruct (clinic_tool now tool_name args w) as [[r0 w0] |] eqn:Htool.
  - inversion Hexec; subst. split; [reflexivity |].
    pose (P := fun w1 => doctors_csv w1 = doctors_csv w
                         /\ schedules_csv w1 = schedules_csv w
                         /\ exists booked,
                              appointments_csv w1
                              = appointments_csv w ++ booked).
    assert (Htick : forall w1, P w1 -> P (tick w1)).
    { intros w1 (Hd & Hs & Hn). repeat split; trivial. }
    assert (Hbook : forall w1 w2 d date t p r1, P w1 ->
              book_appointment now w1 d date t p = (r1, w2) -> P w2).
    { intros w1 w2 d date t p r1 (Hd & Hs & [b Hb]) Hbook.
      pose proof (book_appointment_files now _ _ _ _ _ _ _ Hbook)
        as (Hd2 & Hs2 & [b2 Hb2]).
      split; [congruence |]. split; [congruence |].
      exists (b ++ b2). now rewrite Hb2, Hb, app_assoc. }
    assert (Hstart : P w) by (repeat split; trivial).
    exact (clinic_tool_keeps now P Htick Hbook tool_name args w w' r
             Hstart Htool).
  - destruct (String.eqb tool_name "update_state").
    + destruct args; inversion Hexec; subst; repeat split; trivial.
      apply apply_updates_keys.
    + inversion Hexec; subst. repeat split; trivial.
Qed.

Lemma stateful_dispatch_calls_kept (calls : list ToolCall)
    (st : Py.dict JSON * Session) :
  kept st (flow_state (Stateful.dispatch_calls now calls st)).
Proof.
  revert st. induction calls as [| tc calls IH]; intros st;
    cbn [Stateful.dispatch_calls]; [apply kept_refl |].
  assert (Hone : kept st (flow_state (Stateful.dispatch_call now tc st))).
  { unfold Stateful.dispatch_call. destruct st as [state s].
    destruct (Stateful.execute_tool now (tc_name tc) (tc_arguments tc) state
                (world (log_event (ToolExecuted (tc_name tc)
                                     (tc_arguments tc)) s)))
      as [[r state1] w1] eqn:Hexec.
    apply stateful_execute_tool_kept in Hexec.
    destruct r; exact Hexec. }
  destruct (Stateful.dispatch_call now tc st) as [st1 | text st1 | e st1];
    cbn [flow_state] in *; try exact Hone.
  eapply kept_trans; [exact Hone | apply IH].
Qed.

(** **** X22.  Through a whole turn of the orchestrator with a state,
    whatever the model sends and however the turn ends, the state keeps
    exactly its keys, in their order, the doctor and schedule files are
    left alone, and the stored appointments after the turn start with
    those before it. *)
Theorem stateful_run_turn_keeps (rounds : nat)
    (st : Py.dict JSON * Session) :
  let st' := snd (Stateful.run_turn now call_llm rounds st) in
  Py.keys (fst st') = Py.keys (fst st)
  /\ doctors_csv (world (snd st')) = doctors_csv (world (snd st))
  /\ schedules_csv (world (snd st')) = schedules_csv (world (snd st))
  /\ exists booked,
       appointments_csv (world (snd st'))
       = appointments_csv (world (snd st)) ++ booked.
Proof.
  cbv zeta. change (kept st (snd (Stateful.run_turn now call_llm rounds st))).
  revert st. induction rounds as [| rounds IH]; intros [state s];
    cbn [Stateful.run_turn]; [apply kept_refl |].
  destruct (call_llm (messages s)) as [assistant_msg | e]; cbn [snd];
    [| unfold kept; cbn; repeat split; trivial;
       exists []; now rewrite app_nil_r].
  destruct (msg_tool_calls assistant_msg) as [| tc calls];
    [unfold kept; cbn; repeat split; trivial;
     exists []; now rewrite app_nil_r |].
  pose proof (stateful_dispatch_calls_kept (tc :: calls)
                (state,
                 append_message (AssistantEntry assistant_msg)
                   (log_event (ModelRoundTrip (messages s)) s))) as Hkept.
  assert (Hstart : kept (state, s)
                     (state,
                      append_message (AssistantEntry assistant_msg)
                        (log_event (ModelRoundTrip (messages s)) s)))
    by (unfold kept; cbn; repeat split; trivial;
        exists []; now rewrite app_nil_r).
  destruct (Stateful.dispatch_calls now (tc :: calls) _) as [st3 | |];
    cbn [flow_state snd] in *.
  - eapply kept_trans; [exact Hstart |].
    eapply kept_trans; [exact Hkept | apply IH].
  - eapply kept_trans; eassumption.
  - eapply kept_trans; eassumption.
Qed.

End StatefulInvariants.
